(** * Personal AI portrait studio: the outfit history and the generation service

    A shallow embedding of the state machine of [src/App.tsx] (the React
    component [App]: its state cells, derived views and event handlers) and of
    [handleApiResponse] of the Gemini service module, followed by the
    properties of the specification that concern them.

    Conventions of the embedding.
    - A TypeScript [string | null] (or an optional field) is an [option string];
      JavaScript truthiness of such a value is [truthy].
    - A [poseImages] object is a JavaScript object used as a string-keyed map.
      Its keys are pose instructions (never array-index-like), so
      [Object.values] enumerates it in insertion order: it is an association
      list with [pi_set] overwriting in place or appending.
    - [poseImages] objects are mutated in place by two handlers, so they live
      in an object store ([objects]) and a layer holds a reference into it.
    - An async handler has a single [await]: it is a [Step], either finished
      ([Done]) or suspended on one request to the generation service
      ([Await]) with the state shown while it is pending and its resumption. *)

From Stdlib Require Import String List ZArith Lia Bool.
From stdpp Require Import base option list strings.

Local Open Scope string_scope.

(** ** JavaScript values *)

(** Truthiness of a [string | null | undefined]: absent and [""] are falsy. *)
Definition truthy (v : option string) : bool :=
  match v with
  | Some s => negb (String.eqb s "")
  | None => false
  end.

(** An optional string inside a template literal: [undefined] prints as
    ["undefined"]. *)
Definition interpolate (v : option string) : string := default "undefined" v.

(** [v || ''] *)
Definition orEmpty (v : option string) : string :=
  if truthy v then default "" v else "".

(** What a [throw] carries: [new Error(message)], or the [TypeError] of a
    property read on [undefined]. *)
Inductive Thrown : Type :=
| Error (message : string)
| TypeError (property : string).

(** The outcome of a call that returns a string or throws (for an async
    function: the settled promise). *)
Inductive Result : Type :=
| Ok (value : string)
| Throw (err : Thrown).

Definition isOk (r : Result) : bool :=
  match r with Ok _ => true | Throw _ => false end.

(** ** The generation service: [handleApiResponse] *)

Module GeminiService.

(** The fields of [GenerateContentResponse] that [handleApiResponse] reads. *)
Record InlineData : Type := { mimeType : option string; data : option string }.
Record Part : Type := { inlineData : option InlineData; partText : option string }.
Record Content : Type := { parts : option (list Part) }.
Record Candidate : Type := { content : option Content; finishReason : option string }.
Record PromptFeedback : Type :=
  { blockReason : option string; blockReasonMessage : option string }.
Record GenerateContentResponse : Type :=
  { promptFeedback : option PromptFeedback;
    candidates : option (list Candidate);
    text : option string }.

(** The three [throw] statements of [handleApiResponse], told apart by the
    first words of their message. *)
Inductive FailureKind : Type := ContentBlocked | GenerationHalted | NoImageReturned.

Definition blockedPrefix : string := "Request was blocked. Reason: ".
Definition haltedPrefix : string := "Image generation stopped unexpectedly. Reason: ".
Definition noImagePrefix : string := "The AI model did not return an image. ".

Section HandleApiResponse.

(** [String.prototype.trim], a built-in of the language. *)
Variable trim : string -> string.

(** [response.promptFeedback?.blockReason] *)
Definition responseBlockReason (response : GenerateContentResponse) : option string :=
  match promptFeedback response with
  | None => None
  | Some feedback => blockReason feedback
  end.

(** [candidate.content?.parts?.find(part => part.inlineData)], then
    [imagePart?.inlineData]. *)
Definition imagePartOf (candidate : Candidate) : option InlineData :=
  match content candidate with
  | None => None
  | Some c =>
      match parts c with
      | None => None
      | Some ps =>
          match List.find (fun part => bool_decide (is_Some (inlineData part))) ps with
          | None => None
          | Some imagePart => inlineData imagePart
          end
      end
  end.

(** The [for ... of] loop over [response.candidates ?? []]: the first image
    part of the first candidate that has one. *)
Fixpoint firstImage (cs : list Candidate) : option InlineData :=
  match cs with
  | [] => None
  | candidate :: rest =>
      match imagePartOf candidate with
      | Some img => Some img
      | None => firstImage rest
      end
  end.

Definition dataUrl (img : InlineData) : string :=
  "data:" +:+ interpolate (mimeType img) +:+ ";base64," +:+ interpolate (data img).

(** [response.candidates?.[0]?.finishReason] *)
Definition firstFinishReason (response : GenerateContentResponse) : option string :=
  match candidates response with
  | None => None
  | Some cs =>
      match head cs with
      | None => None
      | Some candidate => finishReason candidate
      end
  end.

Definition blockedMessage (response : GenerateContentResponse) : string :=
  blockedPrefix +:+ interpolate (responseBlockReason response) +:+ ". "
    +:+ orEmpty (match promptFeedback response with
                 | None => None
                 | Some feedback => blockReasonMessage feedback
                 end).

Definition haltedMessage (reason : string) : string :=
  haltedPrefix +:+ reason +:+ ". This often relates to safety settings.".

Definition noImageMessage (response : GenerateContentResponse) : string :=
  let textFeedback := trim <$> text response in
  noImagePrefix +:+
    (if truthy textFeedback
     then "The model responded with text: " +:+ String (Ascii.ascii_of_nat 34) ""
            +:+ default "" textFeedback +:+ String (Ascii.ascii_of_nat 34) ""
     else "This can happen due to safety filters or if the request is too complex. Please try a different image.").

Definition handleApiResponse (response : GenerateContentResponse) : Result :=
  if truthy (responseBlockReason response) then
    Throw (Error (blockedMessage response))
  else
    match firstImage (default [] (candidates response)) with
    | Some img => Ok (dataUrl img)
    | None =>
        let finishReason := firstFinishReason response in
        if truthy finishReason && negb (String.eqb (default "" finishReason) "STOP") then
          Throw (Error (haltedMessage (default "" finishReason)))
        else
          Throw (Error (noImageMessage response))
    end.

(** The kind of a failure, read off the message as a user of the service
    would: by the sentence it starts with. *)
Definition failureKind (r : Result) : option FailureKind :=
  match r with
  | Ok _ => None
  | Throw (TypeError _) => None
  | Throw (Error m) =>
      if String.prefix blockedPrefix m then Some ContentBlocked
      else if String.prefix haltedPrefix m then Some GenerationHalted
      else if String.prefix noImagePrefix m then Some NoImageReturned
      else None
  end.

(** The response "contains an inline image part in some candidate". *)
Definition hasInlineImage (response : GenerateContentResponse) : Prop :=
  exists candidate c part ps,
    candidate ∈ default [] (candidates response) /\
    content candidate = Some c /\ parts c = Some ps /\
    part ∈ ps /\ is_Some (inlineData part).

(** "A block reason is present". *)
Definition blockReasonPresent (response : GenerateContentResponse) : Prop :=
  exists feedback reason,
    promptFeedback response = Some feedback /\ blockReason feedback = Some reason /\
    reason <> "".

(** "The first candidate's finish reason is present and not 'STOP'". *)
Definition haltedReason (response : GenerateContentResponse) : Prop :=
  exists cs candidate rest reason,
    candidates response = Some cs /\ cs = candidate :: rest /\
    finishReason candidate = Some reason /\ reason <> "" /\ reason <> "STOP".

(** The outcome the contract of the service assigns to a response: blocked
    content first, then an image if there is one, then a halted generation,
    and a missing image last. *)
Definition classified (response : GenerateContentResponse) (r : Result) : Prop :=
  (blockReasonPresent response /\ failureKind r = Some ContentBlocked) \/
  (~ blockReasonPresent response /\ hasInlineImage response /\
     exists image, r = Ok image) \/
  (~ blockReasonPresent response /\ ~ hasInlineImage response /\
     haltedReason response /\ failureKind r = Some GenerationHalted) \/
  (~ blockReasonPresent response /\ ~ hasInlineImage response /\
     ~ haltedReason response /\ failureKind r = Some NoImageReturned).

End HandleApiResponse.

(** *** Sample data *)

(** [trim] on strings of ASCII characters: spaces, tabs and line ends go. *)
Definition isBlank (c : Ascii.ascii) : bool :=
  let n := Ascii.nat_of_ascii c in
  Nat.eqb n 32 || (Nat.leb 9 n && Nat.leb n 13).

Fixpoint trimStart (s : string) : string :=
  match s with
  | String c rest => if isBlank c then trimStart rest else s
  | EmptyString => EmptyString
  end.

Definition reverse (s : string) : string :=
  string_of_list_ascii (rev (list_ascii_of_string s)).

Definition asciiTrim (s : string) : string := reverse (trimStart (reverse (trimStart s))).

Definition pngPart : Part :=
  {| inlineData := Some {| mimeType := Some "image/png"; data := Some "iVBORw0KGgo=" |};
     partText := None |}.

(** A response that carries a picture and a block reason at once. *)
Definition blockedWithImage : GenerateContentResponse :=
  {| promptFeedback :=
       Some {| blockReason := Some "SAFETY"; blockReasonMessage := None |};
     candidates :=
       Some [ {| content := Some {| parts := Some [pngPart] |};
                 finishReason := Some "STOP" |} ];
     text := None |}.

End GeminiService.

(** ** The application state: [App] of [src/App.tsx] *)

Module App.

(** [WardrobeItem] of [types.ts]: a garment of the wardrobe. *)
Record WardrobeItem : Type := { id : string; name : string; url : string }.

(** A [File] handed to the service (a garment or scene picture); only passed
    along, never inspected. *)
Abbreviation File := string (only parsing).

(** The content of a [poseImages] object, [Record<string, string>], in
    insertion order. *)
Abbreviation PoseImages := (list (string * string)) (only parsing).

(** [obj[key]] *)
Fixpoint pi_get (key : string) (obj : PoseImages) : option string :=
  match obj with
  | [] => None
  | (k, v) :: rest => if String.eqb k key then Some v else pi_get key rest
  end.

(** [obj[key] = value]: an existing key keeps its place, a new one goes last. *)
Fixpoint pi_set (key value : string) (obj : PoseImages) : PoseImages :=
  match obj with
  | [] => [(key, value)]
  | (k, v) :: rest =>
      if String.eqb k key then (k, value) :: rest
      else (k, v) :: pi_set key value rest
  end.

(** [Object.keys(obj)] and [Object.values(obj)] *)
Definition pi_keys (obj : PoseImages) : list string := map fst obj.
Definition pi_values (obj : PoseImages) : list string := map snd obj.

(** A reference to a [poseImages] object of the store. *)
Abbreviation Ref := nat (only parsing).

(** [OutfitLayer] of [types.ts]. Its two fields are never reassigned; the
    object behind [poseImages] is. *)
Record OutfitLayer : Type := { garment : option WardrobeItem; poseImages : Ref }.

Definition POSE_INSTRUCTIONS : list string :=
  [ "Classic headshot, looking at camera";
    "3/4 view, smiling";
    "Side profile, looking thoughtful";
    "Arms crossed, professional look";
    "Leaning forward, confident expression";
    "Looking over shoulder towards camera";
    "Walking towards camera, casual";
    "Full-length portrait, leaning against a wall, relaxed";
    "Candid laughing shot";
    "Sitting on a stool, professional";
    "Power pose, hands on hips";
    "Hands in pockets, relaxed stance" ].

(** [POSE_INSTRUCTIONS[i]] used as a property key or inside a template: out of
    range it is [undefined], which both uses turn into ["undefined"]. Pose
    indices are positions in this array (the pose picker maps over it) and
    the cursor of the history starts at 0 and moves by one: both are [nat]. *)
Definition poseKey (i : nat) : string := nth i POSE_INSTRUCTIONS "undefined".

(** The state cells of [App] ([useState]), and the store of the [poseImages]
    objects the layers refer to. *)
Record State : Type := mkState {
  modelImageUrl : option string;
  outfitHistory : list OutfitLayer;
  currentOutfitIndex : nat;
  isLoading : bool;
  loadingMessage : string;
  error : option string;
  currentPoseIndex : nat;
  isSheetCollapsed : bool;
  wardrobe : list WardrobeItem;
  objects : list PoseImages
}.

(** The state setters. Those the handlers call with an updater function take
    the function. *)
Definition setModelImageUrl (v : option string) (s : State) : State :=
  mkState v (outfitHistory s) (currentOutfitIndex s) (isLoading s) (loadingMessage s)
          (error s) (currentPoseIndex s) (isSheetCollapsed s) (wardrobe s) (objects s).
Definition setOutfitHistory (f : list OutfitLayer -> list OutfitLayer) (s : State) : State :=
  mkState (modelImageUrl s) (f (outfitHistory s)) (currentOutfitIndex s) (isLoading s)
          (loadingMessage s) (error s) (currentPoseIndex s) (isSheetCollapsed s)
          (wardrobe s) (objects s).
Definition setCurrentOutfitIndex (f : nat -> nat) (s : State) : State :=
  mkState (modelImageUrl s) (outfitHistory s) (f (currentOutfitIndex s)) (isLoading s)
          (loadingMessage s) (error s) (currentPoseIndex s) (isSheetCollapsed s)
          (wardrobe s) (objects s).
Definition setIsLoading (v : bool) (s : State) : State :=
  mkState (modelImageUrl s) (outfitHistory s) (currentOutfitIndex s) v (loadingMessage s)
          (error s) (currentPoseIndex s) (isSheetCollapsed s) (wardrobe s) (objects s).
Definition setLoadingMessage (v : string) (s : State) : State :=
  mkState (modelImageUrl s) (outfitHistory s) (currentOutfitIndex s) (isLoading s) v
          (error s) (currentPoseIndex s) (isSheetCollapsed s) (wardrobe s) (objects s).
Definition setError (v : option string) (s : State) : State :=
  mkState (modelImageUrl s) (outfitHistory s) (currentOutfitIndex s) (isLoading s)
          (loadingMessage s) v (currentPoseIndex s) (isSheetCollapsed s) (wardrobe s)
          (objects s).
Definition setCurrentPoseIndex (v : nat) (s : State) : State :=
  mkState (modelImageUrl s) (outfitHistory s) (currentOutfitIndex s) (isLoading s)
          (loadingMessage s) (error s) v (isSheetCollapsed s) (wardrobe s) (objects s).
Definition setIsSheetCollapsed (v : bool) (s : State) : State :=
  mkState (modelImageUrl s) (outfitHistory s) (currentOutfitIndex s) (isLoading s)
          (loadingMessage s) (error s) (currentPoseIndex s) v (wardrobe s) (objects s).
Definition setWardrobe (f : list WardrobeItem -> list WardrobeItem) (s : State) : State :=
  mkState (modelImageUrl s) (outfitHistory s) (currentOutfitIndex s) (isLoading s)
          (loadingMessage s) (error s) (currentPoseIndex s) (isSheetCollapsed s)
          (f (wardrobe s)) (objects s).

(** The object a reference points to. Every reference a handler stores comes
    from [newObject], so it is in the store ([wf] below). *)
Definition deref (s : State) (r : Ref) : PoseImages := default [] (objects s !! r).

(** An object literal [{ [key]: value }]: a new object of the store. *)
Definition newObject (obj : PoseImages) (s : State) : Ref * State :=
  (length (objects s),
   mkState (modelImageUrl s) (outfitHistory s) (currentOutfitIndex s) (isLoading s)
           (loadingMessage s) (error s) (currentPoseIndex s) (isSheetCollapsed s)
           (wardrobe s) (objects s ++ [obj])).

(** [layer.poseImages[key] = value], in place: every holder of the reference
    sees it. *)
Definition assignPoseImage (r : Ref) (key value : string) (s : State) : State :=
  mkState (modelImageUrl s) (outfitHistory s) (currentOutfitIndex s) (isLoading s)
          (loadingMessage s) (error s) (currentPoseIndex s) (isSheetCollapsed s)
          (wardrobe s) (alter (pi_set key value) r (objects s)).

(** The requests to the generation service, one per exported function of the
    service module the handlers call. *)
Inductive Request : Type :=
| GenerateVirtualTryOnImage (modelImage : string) (garmentImage : File)
| GeneratePoseVariation (tryOnImage : string) (poseInstruction : string)
| AdjustImage (baseImage : string) (instruction : string) (sceneImage : option File).

(** A handler run up to its [await], if it reaches one: the state it leaves
    while the request is pending, and what it does when the request settles.
    The resumption reads the values the handler captured when it was called,
    and its updater functions ([prev => ...]) act on the state of that later
    moment, the second argument of [resume]. *)
Inductive Step : Type :=
| Done (s : State)
| Await (pending : State) (request : Request) (resume : Result -> State -> State).

(** The handler run to its end with nothing else happening while it waits,
    [reply] being what the service answers if it is asked. *)
Definition complete (st : Step) (reply : Result) : State :=
  match st with
  | Done s => s
  | Await pending _ resume => resume reply pending
  end.

(** The state shown while the handler waits for the service, if it does. *)
Definition pendingState (st : Step) : option State :=
  match st with
  | Done _ => None
  | Await pending _ _ => Some pending
  end.

(** The request a handler sends, if any. *)
Definition requested (st : Step) : option Request :=
  match st with
  | Done _ => None
  | Await _ request _ => Some request
  end.

Section Handlers.

(** [getFriendlyErrorMessage] of [lib/utils] and [defaultWardrobe] of
    [wardrobe.ts] are imported by [App.tsx]; the handlers are read for any
    value of them. *)
Variable getFriendlyErrorMessage : Thrown -> string -> string.
Variable defaultWardrobe : list WardrobeItem.

(** The first render: the initial values of the [useState] cells. *)
Definition initialState : State :=
  mkState None [] 0 false "" None 0 false defaultWardrobe [].

(** *** Derived views ([useMemo]) *)

Definition activeGarmentIds (s : State) : list string :=
  filter (fun i => i <> "")
    (omap (fun layer => id <$> garment layer)
          (take (currentOutfitIndex s + 1) (outfitHistory s))).

Definition displayImageUrl (s : State) : option string :=
  if Nat.eqb (length (outfitHistory s)) 0 then modelImageUrl s else
  match outfitHistory s !! currentOutfitIndex s with
  | None => modelImageUrl s
  | Some currentLayer =>
      let poseInstruction := poseKey (currentPoseIndex s) in
      match pi_get poseInstruction (deref s (poseImages currentLayer)) with
      | Some image => Some image
      | None => head (pi_values (deref s (poseImages currentLayer)))
      end
  end.

Definition availablePoseKeys (s : State) : list string :=
  if Nat.eqb (length (outfitHistory s)) 0 then [] else
  match outfitHistory s !! currentOutfitIndex s with
  | Some currentLayer => pi_keys (deref s (poseImages currentLayer))
  | None => []
  end.

Definition canUndo (s : State) : bool := Nat.ltb 0 (currentOutfitIndex s).
Definition canRedo (s : State) : bool :=
  (Z.of_nat (currentOutfitIndex s) <? Z.of_nat (length (outfitHistory s)) - 1)%Z.

(** *** Handlers *)

(** The [finally] block shared by the four async handlers. *)
Definition finally (s : State) : State := setLoadingMessage "" (setIsLoading false s).

Definition handleModelFinalized (url : string) (s : State) : State :=
  let s1 := setModelImageUrl (Some url) s in
  let '(images, s2) := newObject [(poseKey 0, url)] s1 in
  let s3 := setOutfitHistory (fun _ => [ {| garment := None; poseImages := images |} ]) s2 in
  setCurrentOutfitIndex (fun _ => 0) s3.

Definition handleStartOver (s : State) : State :=
  setWardrobe (fun _ => defaultWardrobe)
   (setIsSheetCollapsed false
    (setCurrentPoseIndex 0
     (setError None
      (setLoadingMessage ""
       (setIsLoading false
        (setCurrentOutfitIndex (fun _ => 0)
         (setOutfitHistory (fun _ => [])
          (setModelImageUrl None s)))))))).

(** [nextLayer && nextLayer.garment?.id === garmentInfo.id] *)
Definition isNextGarment (garmentInfo : WardrobeItem) (s : State) : bool :=
  match outfitHistory s !! (currentOutfitIndex s + 1) with
  | Some nextLayer =>
      match garment nextLayer with
      | Some g => String.eqb (id g) (id garmentInfo)
      | None => false
      end
  | None => false
  end.

(** The updater of [setWardrobe] in [handleGarmentSelect]. *)
Definition addToWardrobe (garmentInfo : WardrobeItem) (prev : list WardrobeItem)
  : list WardrobeItem :=
  match List.find (fun item => String.eqb (id item) (id garmentInfo)) prev with
  | Some _ => prev
  | None => prev ++ [garmentInfo]
  end.

(** The updater of [setOutfitHistory] shared by [handleGarmentSelect] and
    [handleImageAdjustment]: [prevHistory.slice(0, index + 1)] and the new
    layer after it. *)
Definition appendLayer (index : nat) (newLayer : OutfitLayer) (prevHistory : list OutfitLayer)
  : list OutfitLayer :=
  take (index + 1) prevHistory ++ [newLayer].

(** [handleGarmentSelect]. The guard [!displayImageUrl || isLoading] comes
    first, then the reuse of the next layer, then the request; whatever the
    request throws is caught. *)
Definition handleGarmentSelect (garmentFile : File) (garmentInfo : WardrobeItem) (s : State)
  : Step :=
  match displayImageUrl s with
  | None => Done s
  | Some display =>
      if String.eqb display "" || isLoading s then Done s
      else if isNextGarment garmentInfo s then
        Done (setCurrentPoseIndex 0 (setCurrentOutfitIndex (fun prev => prev + 1) s))
      else
        let pending :=
          setLoadingMessage ("Applying " +:+ name garmentInfo +:+ " style...")
            (setIsLoading true (setError None s)) in
        Await pending (GenerateVirtualTryOnImage display garmentFile)
          (fun reply current =>
             finally
               match reply with
               | Ok newImageUrl =>
                   let currentPoseInstruction := poseKey (currentPoseIndex s) in
                   let '(images, s1) :=
                     newObject [(currentPoseInstruction, newImageUrl)] current in
                   let newLayer := {| garment := Some garmentInfo; poseImages := images |} in
                   setWardrobe (addToWardrobe garmentInfo)
                     (setCurrentOutfitIndex (fun prev => prev + 1)
                        (setOutfitHistory (appendLayer (currentOutfitIndex s) newLayer) s1))
               | Throw err =>
                   setError (Some (getFriendlyErrorMessage err "Failed to apply style")) current
               end)
  end.

(** The updater of [setOutfitHistory] shared by [handlePoseSelect] and
    [handleRegenerate]: the array is copied, the layer at [index] is the same
    object as before, and its [poseImages] is assigned in place. (Without a
    layer at [index] the updater would throw; a handler that completes in the
    state it suspended in has found that layer on entry. Where handlers are
    called during the wait, [updaterThrows] below tells when it throws and
    [advance] gives no next state.) *)
Definition storePoseImage (index : nat) (key value : string) (prev : State) : State :=
  match outfitHistory prev !! index with
  | Some updatedLayer => assignPoseImage (poseImages updatedLayer) key value prev
  | None => prev
  end.

(** [handlePoseSelect]. With the cursor off the history [currentLayer] is
    [undefined] and reading [currentLayer.poseImages] throws before any
    setter is called and outside the [try]: the state stays as it is. *)
Definition handlePoseSelect (newIndex : nat) (s : State) : Step :=
  if isLoading s || Nat.eqb (length (outfitHistory s)) 0
     || Nat.eqb newIndex (currentPoseIndex s) then Done s
  else
    let poseInstruction := poseKey newIndex in
    match outfitHistory s !! currentOutfitIndex s with
    | None => Done s
    | Some currentLayer =>
        if truthy (pi_get poseInstruction (deref s (poseImages currentLayer))) then
          Done (setCurrentPoseIndex newIndex s)
        else
          match head (pi_values (deref s (poseImages currentLayer))) with
          | None => Done s
          | Some baseImageForPoseChange =>
              if String.eqb baseImageForPoseChange "" then Done s
              else
                let prevPoseIndex := currentPoseIndex s in
                let pending :=
                  setCurrentPoseIndex newIndex
                    (setLoadingMessage "Changing pose..."
                       (setIsLoading true (setError None s))) in
                Await pending (GeneratePoseVariation baseImageForPoseChange poseInstruction)
                  (fun reply current =>
                     finally
                       match reply with
                       | Ok newImageUrl =>
                           storePoseImage (currentOutfitIndex s) poseInstruction newImageUrl
                             current
                       | Throw err =>
                           setCurrentPoseIndex prevPoseIndex
                             (setError
                                (Some (getFriendlyErrorMessage err "Failed to change pose"))
                                current)
                       end)
          end
    end.

(** [handleImageAdjustment]. [currentLayer] is read inside the [try], after
    the [await]: without a current layer [currentLayer.garment] throws a
    [TypeError] that the [catch] block reports like a failure of the service. *)
Definition handleImageAdjustment (prompt : string) (sceneImage : option File) (s : State)
  : Step :=
  match displayImageUrl s with
  | None => Done s
  | Some display =>
      if String.eqb display "" || isLoading s then Done s
      else
        let pending :=
          setLoadingMessage "Adjusting image..." (setIsLoading true (setError None s)) in
        Await pending (AdjustImage display prompt sceneImage)
          (fun reply current =>
             finally
               match reply with
               | Ok newImageUrl =>
                   let currentPoseInstruction := poseKey (currentPoseIndex s) in
                   match outfitHistory s !! currentOutfitIndex s with
                   | Some currentLayer =>
                       let '(images, s1) :=
                         newObject [(currentPoseInstruction, newImageUrl)] current in
                       let newLayer :=
                         {| garment := garment currentLayer; poseImages := images |} in
                       setCurrentOutfitIndex (fun prev => prev + 1)
                         (setOutfitHistory (appendLayer (currentOutfitIndex s) newLayer) s1)
                   | None =>
                       setError
                         (Some (getFriendlyErrorMessage (TypeError "garment")
                                  "Failed to adjust image"))
                         current
                   end
               | Throw err =>
                   setError (Some (getFriendlyErrorMessage err "Failed to adjust image"))
                     current
               end)
  end.

(** [handleRegenerate]. *)
Definition handleRegenerate (s : State) : Step :=
  if isLoading s || Nat.eqb (length (outfitHistory s)) 0 then Done s
  else
    match outfitHistory s !! currentOutfitIndex s with
    | None => Done s
    | Some currentLayer =>
        let noBase := Done (setError (Some "No base image available to regenerate from.") s) in
        match head (pi_values (deref s (poseImages currentLayer))) with
        | None => noBase
        | Some baseImageForRegen =>
            if String.eqb baseImageForRegen "" then noBase
            else
              let poseInstruction := poseKey (currentPoseIndex s) in
              let pending :=
                setLoadingMessage "Regenerating portrait..."
                  (setIsLoading true (setError None s)) in
              Await pending (GeneratePoseVariation baseImageForRegen poseInstruction)
                (fun reply current =>
                   finally
                     match reply with
                     | Ok newImageUrl =>
                         storePoseImage (currentOutfitIndex s) poseInstruction newImageUrl
                           current
                     | Throw err =>
                         setError
                           (Some (getFriendlyErrorMessage err "Failed to regenerate portrait"))
                           current
                     end)
        end
    end.

Definition handleUndo (s : State) : State :=
  if Nat.ltb 0 (currentOutfitIndex s) then setCurrentOutfitIndex (fun prev => prev - 1) s
  else s.

Definition handleRedo (s : State) : State :=
  if (Z.of_nat (currentOutfitIndex s) <? Z.of_nat (length (outfitHistory s)) - 1)%Z
  then setCurrentOutfitIndex (fun prev => prev + 1) s
  else s.

(** *** Operations and sessions *)

(** The operations of the outfit history, each with the answer of the
    generation service should the handler ask it. *)
Inductive Operation : Type :=
| Initialize (baseImage : string)
| ApplyGarment (garmentFile : File) (garmentInfo : WardrobeItem) (reply : Result)
| SelectPose (poseIndex : nat) (reply : Result)
| ApplyAdjustment (prompt : string) (sceneImage : option File) (reply : Result)
| RegenerateCurrent (reply : Result)
| Undo
| Redo
| SessionReset.

(** One operation, run to its end before the next one starts. *)
Definition perform (op : Operation) (s : State) : State :=
  match op with
  | Initialize baseImage => handleModelFinalized baseImage s
  | ApplyGarment garmentFile garmentInfo reply =>
      complete (handleGarmentSelect garmentFile garmentInfo s) reply
  | SelectPose poseIndex reply => complete (handlePoseSelect poseIndex s) reply
  | ApplyAdjustment prompt sceneImage reply =>
      complete (handleImageAdjustment prompt sceneImage s) reply
  | RegenerateCurrent reply => complete (handleRegenerate s) reply
  | Undo => handleUndo s
  | Redo => handleRedo s
  | SessionReset => handleStartOver s
  end.

Fixpoint run (ops : list Operation) (s : State) : State :=
  match ops with
  | [] => s
  | op :: rest => run rest (perform op s)
  end.

(** The states of a session: what sequences of operations lead to from the
    first render. *)
Inductive reachable : State -> Prop :=
| reachable_initial : reachable initialState
| reachable_perform (op : Operation) (s : State) :
    reachable s -> reachable (perform op s).

(** The entry guard [if (!displayImageUrl || isLoading) return;] lets the
    handler through. *)
Definition ready (s : State) : bool := truthy (displayImageUrl s) && negb (isLoading s).

(** A successful [applyGarment] or [applyAdjustment]: the guard is passed,
    and either the next layer is reused or the service returns an image (for
    an adjustment the current layer must exist too: otherwise reading
    [currentLayer.garment] throws and the [catch] block reports it). *)
Definition succeeds (op : Operation) (s : State) : bool :=
  match op with
  | ApplyGarment _ garmentInfo reply => ready s && (isNextGarment garmentInfo s || isOk reply)
  | ApplyAdjustment _ _ reply =>
      ready s && isOk reply
        && bool_decide (is_Some (outfitHistory s !! currentOutfitIndex s))
  | _ => false
  end.

(** Every operation of the sequence succeeds in the state it is applied to. *)
Fixpoint allSucceed (ops : list Operation) (s : State) : bool :=
  match ops with
  | [] => true
  | op :: rest => succeeds op s && allSucceed rest (perform op s)
  end.

End Handlers.

(** *** What an observer sees of the history *)

(** A layer with its [poseImages] object read out of the store. *)
Definition layerView (s : State) (layer : OutfitLayer) : option WardrobeItem * PoseImages :=
  (garment layer, deref s (poseImages layer)).

Definition historyView (s : State) : list (option WardrobeItem * PoseImages) :=
  layerView s <$> outfitHistory s.

(** The whole state as the component renders it: every cell, the layers with
    their images. *)
Definition snapshot (s : State) :=
  (modelImageUrl s, historyView s, currentOutfitIndex s, isLoading s, loadingMessage s,
   error s, currentPoseIndex s, isSheetCollapsed s, wardrobe s).

(** The layers refer to distinct objects of the store. Every layer is built
    with an object literal of its own, so this holds throughout a session
    ([reachable_wf]). *)
Definition wf (s : State) : Prop :=
  NoDup (poseImages <$> outfitHistory s) /\
  Forall (fun layer => poseImages layer < length (objects s)) (outfitHistory s).

(** The cursor is on a layer, or nothing has been generated yet. *)
Definition indexValid (s : State) : Prop :=
  (outfitHistory s = [] /\ modelImageUrl s = None) \/
  currentOutfitIndex s < length (outfitHistory s).

(** The cursor is on the last layer. *)
Definition atTip (s : State) : Prop :=
  currentOutfitIndex s + 1 = length (outfitHistory s).



(** *** Sample data *)

Definition sampleFriendly (err : Thrown) (context : string) : string :=
  match err with
  | Error message => context +:+ ": " +:+ message
  | TypeError property => context +:+ ": cannot read " +:+ property
  end.

Definition shirt : WardrobeItem :=
  {| id := "shirt-1"; name := "Oxford shirt"; url := "/wardrobe/shirt.png" |}.
Definition blazer : WardrobeItem :=
  {| id := "blazer-1"; name := "Navy blazer"; url := "/wardrobe/blazer.png" |}.
Definition scarf : WardrobeItem :=
  {| id := "scarf-7"; name := "Silk scarf"; url := "blob:upload/scarf" |}.
Definition sampleWardrobe : list WardrobeItem := [shirt; blazer].

Definition avatar : string := "data:image/png;base64,AVATAR".
Definition withShirt : string := "data:image/png;base64,SHIRT".
Definition withBlazer : string := "data:image/png;base64,BLAZER".
Definition brighter : string := "data:image/png;base64,BRIGHT".
Definition sideways : string := "data:image/png;base64,SIDE".

Definition sampleRun (ops : list Operation) : State :=
  run sampleFriendly sampleWardrobe ops (initialState sampleWardrobe).

(** The avatar alone. *)
Definition stateBase : State := sampleRun [Initialize avatar].

(** The shirt, then an adjustment, then two undos: three layers, the cursor
    on the first. *)
Definition stateRewound : State :=
  sampleRun [ Initialize avatar;
              ApplyGarment "shirt.png" shirt (Ok withShirt);
              ApplyAdjustment "Make the lighting brighter and more vibrant." None (Ok brighter);
              Undo; Undo ].

(** [stateRewound] while a pose change is in flight. *)
Definition stateBusy : State :=
  match handlePoseSelect sampleFriendly 2 stateRewound with
  | Await pending _ _ => pending
  | Done s => s
  end.


(** The shirt seen in the second pose: two layers, the second with two
    images. *)
Definition stateShirtSideways : State :=
  sampleRun [ Initialize avatar;
              ApplyGarment "shirt.png" shirt (Ok withShirt);
              SelectPose 1 (Ok sideways) ].

(** *** More of a session *)

(** The step of the four handlers that may ask the service. *)
Definition asyncStep (getFriendlyErrorMessage : Thrown -> string -> string)
    (op : Operation) (s : State) : option Step :=
  match op with
  | ApplyGarment garmentFile garmentInfo _ =>
      Some (handleGarmentSelect getFriendlyErrorMessage garmentFile garmentInfo s)
  | SelectPose poseIndex _ => Some (handlePoseSelect getFriendlyErrorMessage poseIndex s)
  | ApplyAdjustment prompt sceneImage _ =>
      Some (handleImageAdjustment getFriendlyErrorMessage prompt sceneImage s)
  | RegenerateCurrent _ => Some (handleRegenerate getFriendlyErrorMessage s)
  | _ => None
  end.

(** The second argument each handler gives [getFriendlyErrorMessage]. *)
Definition failureContext (op : Operation) : string :=
  match op with
  | ApplyGarment _ _ _ => "Failed to apply style"
  | SelectPose _ _ => "Failed to change pose"
  | ApplyAdjustment _ _ _ => "Failed to adjust image"
  | RegenerateCurrent _ => "Failed to regenerate portrait"
  | _ => ""
  end.

(** The image an operation brings in: the base image, or the one the service
    returns. *)
Definition imageOf (op : Operation) : option string :=
  match op with
  | Initialize baseImage => Some baseImage
  | ApplyGarment _ _ (Ok image) | SelectPose _ (Ok image)
  | ApplyAdjustment _ _ (Ok image) | RegenerateCurrent (Ok image) => Some image
  | _ => None
  end.

(** An operation whose image, if it brings one, is not the empty string (the
    service returns data URLs). *)
Definition genuine (op : Operation) : bool :=
  match imageOf op with
  | Some image => negb (String.eqb image "")
  | None => true
  end.


(** No object of the store is empty, and none holds an empty image. *)
Definition objectsNonEmpty (s : State) : Prop := Forall (fun obj => obj <> []) (objects s).
Definition imagesNonEmpty (s : State) : Prop :=
  Forall (fun obj => Forall (fun entry => snd entry <> "") obj) (objects s).

(** The garments worn in the layers are entries of the wardrobe (by
    identifier). *)
Definition wornInWardrobe (s : State) : Prop :=
  Forall (fun layer =>
            match garment layer with
            | Some g => id g ∈ (id <$> wardrobe s)
            | None => True
            end)
         (outfitHistory s).

(** The identifier a layer contributes to [activeGarmentIds]. *)
Definition layerIds (layer : OutfitLayer) : list string :=
  match garment layer with
  | Some g => if decide (id g = "") then [] else [id g]
  | None => []
  end.

(** *** Handlers called while a request is pending *)

(** [handleUndo], [handleRedo], [handleStartOver] and [handleModelFinalized]
    do not read [isLoading], and [handleStartOver] clears it: they take
    effect while a generating handler waits for the service, and the
    resumption of that handler then meets a state other than the one it
    left. *)

(** A request in flight: the operation whose handler sent it, with the answer
    the service will give, and the render the handler was called in, whose
    values its resumption reads. *)
Record Pending : Type := mkPending { caller : Operation; captured : State }.

(** The component between two events: its latest render, and the requests in
    flight, oldest first. *)
Record Live : Type := mkLive { rendered : State; inFlight : list Pending }.

(** What happens next: a handler is called, as the latest render made it, or
    the n-th request in flight settles. *)
Inductive Tick : Type :=
| Invoke (op : Operation)
| Settles (n : nat).

(** The answer an operation carries for the request of its handler. *)
Definition replyOf (op : Operation) : option Result :=
  match op with
  | ApplyGarment _ _ reply | SelectPose _ reply | ApplyAdjustment _ _ reply
  | RegenerateCurrent reply => Some reply
  | _ => None
  end.

(** [{!modelImageUrl ? <StartScreen onModelFinalized={handleModelFinalized} />
    : ...}]: the start screen holds [handleModelFinalized]; the canvas and
    the panels, rendered in its place once there is a model image, hold every
    other handler. *)
Definition mounted (op : Operation) (s : State) : bool :=
  match op with
  | Initialize _ => negb (truthy (modelImageUrl s))
  | _ => truthy (modelImageUrl s)
  end.

(** The updater [handlePoseSelect] and [handleRegenerate] pass to
    [setOutfitHistory] reads [updatedLayer.poseImages] of the layer at the
    captured index of the history of the moment it runs. Without a layer
    there it throws a [TypeError] while React renders, outside the [try] of
    the handler: the component is unmounted. *)
Definition updaterThrows (op : Operation) (captured current : State) : bool :=
  match op with
  | SelectPose _ (Ok _) | RegenerateCurrent (Ok _) =>
      match outfitHistory current !! currentOutfitIndex captured with
      | Some _ => false
      | None => true
      end
  | _ => false
  end.

Section Interleaving.

Variable getFriendlyErrorMessage : Thrown -> string -> string.
Variable defaultWardrobe : list WardrobeItem.

Definition initialLive : Live := mkLive (initialState defaultWardrobe) [].

(** One tick. A handler that reaches its [await] leaves its pending state
    and joins the requests in flight; any other call takes effect at once. A
    request that settles resumes its handler on the render of that moment.
    There is no next state when no such request is in flight, or when the
    resumption unmounts the component. Whether the screen that holds the
    handler is rendered is not asked here: [wired] below asks it. *)
Definition advance (t : Tick) (l : Live) : option Live :=
  match t with
  | Invoke op =>
      match asyncStep getFriendlyErrorMessage op (rendered l) with
      | Some (Await pending _ _) =>
          Some (mkLive pending (inFlight l ++ [mkPending op (rendered l)]))
      | Some (Done s) => Some (mkLive s (inFlight l))
      | None =>
          Some (mkLive (perform getFriendlyErrorMessage defaultWardrobe op (rendered l))
                       (inFlight l))
      end
  | Settles n =>
      match inFlight l !! n with
      | Some p =>
          if updaterThrows (caller p) (captured p) (rendered l) then None
          else
            match asyncStep getFriendlyErrorMessage (caller p) (captured p),
                  replyOf (caller p) with
            | Some (Await _ _ resume), Some reply =>
                Some (mkLive (resume reply (rendered l)) (delete n (inFlight l)))
            | _, _ => None
            end
      | None => None
      end
  end.

(** A schedule of ticks each of which [allowed] admits, from a given
    moment on. *)
Fixpoint play (allowed : Tick -> Live -> bool) (ticks : list Tick) (l : Live) : option Live :=
  match ticks with
  | [] => Some l
  | t :: rest =>
      if allowed t l then
        match advance t l with
        | Some l' => play allowed rest l'
        | None => None
        end
      else None
  end.

(** The moments of a session whose ticks [allowed] admits. *)
Inductive liveUnder (allowed : Tick -> Live -> bool) : Live -> Prop :=
| liveUnder_initial : liveUnder allowed initialLive
| liveUnder_advance (t : Tick) (l l' : Live) :
    liveUnder allowed l -> allowed t l = true -> advance t l = Some l' ->
    liveUnder allowed l'.

End Interleaving.

(** Any tick at any moment. *)
Definition anyTick (t : Tick) (l : Live) : bool := true.

(** A handler is called only from the screen that is rendered. *)
Definition wired (t : Tick) (l : Live) : bool :=
  match t with
  | Invoke op => mounted op (rendered l)
  | Settles _ => true
  end.

(** [handleStartOver] is not called while a request is in flight. *)
Definition resetWhenIdle (t : Tick) (l : Live) : bool :=
  match t with
  | Invoke SessionReset => match inFlight l with [] => true | _ :: _ => false end
  | _ => true
  end.

(** The base image and every image the service returns are non-empty. *)
Definition genuineTick (t : Tick) (l : Live) : bool :=
  match t with
  | Invoke op => genuine op
  | Settles _ => true
  end.

(** A tick that leaves the model image, the layers, the images and the
    wardrobe alone. *)
Definition sameData (s s' : State) : Prop :=
  modelImageUrl s' = modelImageUrl s /\ outfitHistory s' = outfitHistory s
  /\ objects s' = objects s /\ wardrobe s' = wardrobe s.

(** The layers refer to objects of the store, none of them empty. *)
Definition stored (s : State) : Prop :=
  Forall (fun layer => poseImages layer < length (objects s)) (outfitHistory s)
  /\ objectsNonEmpty s.

(** At most one request, and the busy flag says whether there is one. *)
Definition oneAtATime (l : Live) : Prop :=
  (inFlight l = [] /\ isLoading (rendered l) = false)
  \/ (exists p, inFlight l = [p] /\ isLoading (rendered l) = true).

(** The images of the store are not empty, and neither will be those the
    requests in flight bring. *)
Definition genuineImages (l : Live) : Prop :=
  imagesNonEmpty (rendered l) /\ Forall (fun p => genuine (caller p) = true) (inFlight l).

(** The garment of the layer under the cursor of a state is in a wardrobe. *)
Definition currentGarmentIn (w : list WardrobeItem) (s : State) : Prop :=
  match outfitHistory s !! currentOutfitIndex s with
  | Some layer =>
      match garment layer with
      | Some g => id g ∈ (id <$> w)
      | None => True
      end
  | None => True
  end.

(** The garments worn, and those the requests in flight will inherit from
    the layer they were sent from, are in the wardrobe. *)
Definition wornAndPending (l : Live) : Prop :=
  wornInWardrobe (rendered l)
  /\ Forall (fun p => currentGarmentIn (wardrobe (rendered l)) (captured p)) (inFlight l).

(** *** Sample schedules *)

Definition samplePlayUnder (allowed : Tick -> Live -> bool) (ticks : list Tick) : Live :=
  default (initialLive sampleWardrobe)
    (play sampleFriendly sampleWardrobe allowed ticks (initialLive sampleWardrobe)).

Definition samplePlay (ticks : list Tick) : Live := samplePlayUnder wired ticks.

(** The shirt applied and undone; then the blazer is asked for, redo is
    pressed while the service works, and the service returns the image. *)
Definition redoDuringTryOn : list Tick :=
  [ Invoke (Initialize avatar);
    Invoke (ApplyGarment "shirt.png" shirt (Ok withShirt)); Settles 0;
    Invoke Undo;
    Invoke (ApplyGarment "blazer.png" blazer (Ok withBlazer));
    Invoke Redo;
    Settles 0 ].

(** The second pose generated; then the third is asked for, Start Over is
    pressed while the service works, and the request fails. *)
Definition resetDuringPoseChange : list Tick :=
  [ Invoke (Initialize avatar);
    Invoke (SelectPose 1 (Ok sideways)); Settles 0;
    Invoke (SelectPose 2 (Throw (Error "quota exceeded")));
    Invoke SessionReset;
    Settles 0 ].

(** The shirt is asked for, Start Over is pressed while the service works,
    and the service returns the image. *)
Definition resetDuringTryOn : list Tick :=
  [ Invoke (Initialize avatar);
    Invoke (ApplyGarment "shirt.png" shirt (Ok withShirt));
    Invoke SessionReset;
    Settles 0 ].

(** Start Over and a new base image while the shirt is generated, then a
    pose change: two requests are in flight. *)
Definition twoInFlight : list Tick :=
  [ Invoke (Initialize avatar);
    Invoke (ApplyGarment "shirt.png" shirt (Ok withShirt));
    Invoke SessionReset;
    Invoke (Initialize avatar);
    Invoke (SelectPose 1 (Ok sideways)) ].

(** The scarf applied; then an adjustment is asked for, Start Over is
    pressed while the service works, and the service returns the image. *)
Definition resetDuringAdjustment : list Tick :=
  [ Invoke (Initialize avatar);
    Invoke (ApplyGarment "scarf.png" scarf (Ok withShirt)); Settles 0;
    Invoke (ApplyAdjustment "Use a softer light." None (Ok brighter));
    Invoke SessionReset;
    Settles 0 ].

(** Undo and redo pressed while the scarf and then an adjustment are
    generated; no Start Over. *)
Definition calmSchedule : list Tick :=
  [ Invoke (Initialize avatar);
    Invoke (ApplyGarment "scarf.png" scarf (Ok withShirt));
    Invoke Undo;
    Settles 0;
    Invoke (ApplyAdjustment "Use a softer light." None (Ok brighter));
    Invoke Undo;
    Settles 0 ].

(** The same, then Start Over with nothing in flight, a new base image and
    a pose change that is still pending. *)
Definition calmThenBusy : list Tick :=
  calmSchedule
    ++ [ Invoke SessionReset;
         Invoke (Initialize avatar);
         Invoke (SelectPose 1 (Ok sideways)) ].

End App.

(** ** The generation service: building the requests *)

Module GeminiRequests.
Import GeminiService.

(** Strings are sequences of code units below 256 (data URLs, MIME types and
    the prompts are ASCII); of the line terminators a regular expression
    knows, line feed and carriage return are among them. *)
Definition newline : string := String (Ascii.ascii_of_nat 10) EmptyString.
Definition quote : string := String (Ascii.ascii_of_nat 34) EmptyString.

Definition isLineTerminator (c : Ascii.ascii) : bool :=
  Ascii.eqb c (Ascii.ascii_of_nat 10) || Ascii.eqb c (Ascii.ascii_of_nat 13).

(** Why a call does not return: something was thrown, or the [FileReader]
    reported an error for a file ([reader.onerror]). *)
Inductive Failure : Type :=
| Raised (err : Thrown)
| ReadError (file : string).

(** The outcome of a function of the service module (for an async one: the
    settled promise). *)
Inductive Outcome (A : Type) : Type :=
| Returns (a : A)
| Fails (why : Failure).
Arguments Returns {A} a.
Arguments Fails {A} why.

(** Sequencing: a failure ends the function there. *)
Definition andThen {A B : Type} (o : Outcome A) (k : A -> Outcome B) : Outcome B :=
  match o with
  | Returns a => k a
  | Fails why => Fails why
  end.

Notation "'let*' x ':=' o 'in' k" := (andThen o (fun x => k))
  (at level 10, x name, o at level 100, k at level 200).

(** [s.split(separator)] for a separator of one character: the pieces
    between the separators, at least one. *)
Fixpoint split (separator : Ascii.ascii) (s : string) : list string :=
  match s with
  | EmptyString => [EmptyString]
  | String c rest =>
      if Ascii.eqb c separator then EmptyString :: split separator rest
      else
        match split separator rest with
        | piece :: pieces => String c piece :: pieces
        | [] => [String c EmptyString]
        end
  end.

(** [(.*?);] tried at the start of [s]: the characters before the first
    semicolon, none of them a line terminator. *)
Fixpoint lazyToSemicolon (s : string) : option string :=
  match s with
  | EmptyString => None
  | String c rest =>
      if Ascii.eqb c (Ascii.ascii_of_nat 59) then Some EmptyString
      else if isLineTerminator c then None
      else String c <$> lazyToSemicolon rest
  end.

(** [s.match(/:(.*?);/)]: the group of the leftmost match, if there is one. *)
Fixpoint mimeMatch (s : string) : option string :=
  match s with
  | EmptyString => None
  | String c rest =>
      if Ascii.eqb c (Ascii.ascii_of_nat 58) then
        match lazyToSemicolon rest with
        | Some group => Some group
        | None => mimeMatch rest
        end
      else mimeMatch rest
  end.

Definition dataUrlToParts (dataUrl : string) : Outcome InlineData :=
  match split (Ascii.ascii_of_nat 44) dataUrl with
  | head :: body :: _ =>
      match mimeMatch head with
      | Some group =>
          if String.eqb group "" then
            Fails (Raised (Error "Could not parse MIME type from data URL"))
          else Returns {| mimeType := Some group; data := Some body |}
      | None => Fails (Raised (Error "Could not parse MIME type from data URL"))
      end
  | _ => Fails (Raised (Error "Invalid data URL"))
  end.

Definition dataUrlToPart (dataUrl : string) : Outcome Part :=
  let* image := dataUrlToParts dataUrl in
  Returns {| inlineData := Some image; partText := None |}.

(** [{ text: prompt }] *)
Definition textPart (prompt : string) : Part :=
  {| inlineData := None; partText := Some prompt |}.

Inductive Modality : Type := IMAGE | TEXT.

(** The argument of [ai.models.generateContent]. *)
Record GenerateContentParameters : Type :=
  { model : string; contents : Content; responseModalities : list Modality }.

Definition modelName : string := "gemini-2.5-flash-image-preview".

Definition modelPrompt : string :=
  "You are an expert portrait photographer AI. Transform the person in this image "
  +:+ "into a professional-looking AI avatar. The background must be a clean, neutral "
  +:+ "studio backdrop (light gray, #f0f0f0). The person should have a neutral, "
  +:+ "professional expression suitable for a headshot. Preserve the person's "
  +:+ "identity, unique features, and body type. Ensure the final image is "
  +:+ "photorealistic and high-quality. Return ONLY the final image.".

Definition tryOnPrompt : string :=
  "You are an expert AI portrait studio assistant. You will be given a 'base "
  +:+ "portrait' (the 'model image') and a 'style image' (the 'garment image'). Your "
  +:+ "task is to create a new photorealistic portrait where the person from the "
  +:+ "'base portrait' is wearing the clothing item from the 'style image'."
  +:+ newline
  +:+ newline
  +:+ "**Crucial Rules:**"
  +:+ newline
  +:+ "1.  **Complete Style Application:** You MUST completely REMOVE and REPLACE the "
  +:+ "corresponding clothing item worn by the person in the 'base portrait' with the "
  +:+ "new item from the 'style image'. No part of the original clothing (e.g., "
  +:+ "collars, sleeves, patterns) should be visible."
  +:+ newline
  +:+ "2.  **Preserve the Person:** The person's face, hair, body shape, and pose "
  +:+ "from the 'base portrait' MUST remain unchanged."
  +:+ newline
  +:+ "3.  **Preserve the Background:** The entire background from the 'base "
  +:+ "portrait' MUST be preserved perfectly."
  +:+ newline
  +:+ "4.  **Apply the Garment:** Realistically fit the new garment onto the person. "
  +:+ "It should adapt to their pose with natural folds, shadows, and lighting "
  +:+ "consistent with the original scene."
  +:+ newline
  +:+ "5.  **Output:** Return ONLY the final, edited portrait. Do not include any "
  +:+ "text.".

Definition posePrompt (poseInstruction : string) : string :=
  "You are an expert AI portrait photographer. Take this portrait and regenerate "
  +:+ "it from a different perspective. The person, their clothing, and the "
  +:+ "background style must remain identical. The new perspective should be: "
  +:+ quote +:+ poseInstruction +:+ quote
  +:+ ". Return ONLY the final image.".

Definition adjustSystemPrompt : string :=
  "You are an expert AI photo editor. You will receive a 'base image', a text "
  +:+ "'instruction', and an optional 'scene image'. Your task is to edit the 'base "
  +:+ "image' according to the 'instruction'. If a 'scene image' is provided, use it "
  +:+ "as a reference for the background, style, or objects to be added."
  +:+ newline
  +:+ newline
  +:+ "**Rules:**"
  +:+ newline
  +:+ "1.  **Follow Instructions:** Precisely follow the text 'instruction' to modify "
  +:+ "the 'base image'. This could involve changing the background, adding or "
  +:+ "removing objects, changing pose, adjusting lighting, etc."
  +:+ newline
  +:+ "2.  **Preserve Identity:** The person's identity, face, and essential features "
  +:+ "must be preserved unless the instruction explicitly asks to change them (e.g., "
  +:+ "'add glasses')."
  +:+ newline
  +:+ "3.  **Use Scene Image (if provided):** If a 'scene image' is included, "
  +:+ "incorporate it into the final result as instructed (e.g., as a new "
  +:+ "background)."
  +:+ newline
  +:+ "4.  **Seamless Integration:** Edits must be photorealistic and seamlessly "
  +:+ "blended with the original image."
  +:+ newline
  +:+ "5.  **Output:** Return ONLY the final, edited image. Do not add any text.".

Definition adjustPrompt (instruction : string) : string :=
  adjustSystemPrompt +:+ newline +:+ newline +:+ "Instruction: "
    +:+ quote +:+ instruction +:+ quote.

Section Calls.

(** The surroundings of the module: [trim], what [FileReader.readAsDataURL]
    yields for a file, and what the model answers to a request. *)
Variable trim : string -> string.
Variable readAsDataURL : string -> Outcome string.
Variable generateContent : GenerateContentParameters -> Outcome GenerateContentResponse.

Definition fileToPart (file : string) : Outcome Part :=
  let* dataUrl := readAsDataURL file in
  let* image := dataUrlToParts dataUrl in
  Returns {| inlineData := Some image; partText := None |}.

(** The end the four exported functions share: the request with the parts
    built, and [handleApiResponse] on the answer. *)
Definition askModel (requestParts : list Part) : Outcome string :=
  let* response := generateContent
                {| model := modelName;
                   contents := {| parts := Some requestParts |};
                   responseModalities := [IMAGE; TEXT] |} in
  match handleApiResponse trim response with
  | Ok image => Returns image
  | Throw err => Fails (Raised err)
  end.

Definition generateModelImage (userImage : string) : Outcome string :=
  let* userImagePart := fileToPart userImage in
  askModel [userImagePart; textPart modelPrompt].

Definition generateVirtualTryOnImage (modelImageUrl : string) (garmentImage : string)
  : Outcome string :=
  let* modelImagePart := dataUrlToPart modelImageUrl in
  let* garmentImagePart := fileToPart garmentImage in
  askModel [modelImagePart; garmentImagePart; textPart tryOnPrompt].

Definition generatePoseVariation (tryOnImageUrl : string) (poseInstruction : string)
  : Outcome string :=
  let* tryOnImagePart := dataUrlToPart tryOnImageUrl in
  askModel [tryOnImagePart; textPart (posePrompt poseInstruction)].

Definition adjustImage (baseImageUrl : string) (instruction : string)
    (sceneImage : option string) : Outcome string :=
  let* baseImagePart := dataUrlToPart baseImageUrl in
  let* requestParts :=
    (match sceneImage with
     | Some file =>
         let* sceneImagePart := fileToPart file in
         Returns [baseImagePart; sceneImagePart]
     | None => Returns [baseImagePart]
     end) in
  askModel (requestParts ++ [textPart (adjustPrompt instruction)]).

(** A call of one of the three functions [App] imports, or of the one the
    start screen uses. *)
Inductive Call : Type :=
| CallModelImage (userImage : string)
| CallVirtualTryOn (modelImageUrl : string) (garmentImage : string)
| CallPoseVariation (tryOnImageUrl : string) (poseInstruction : string)
| CallAdjustImage (baseImageUrl : string) (instruction : string) (sceneImage : option string).

Definition invoke (call : Call) : Outcome string :=
  match call with
  | CallModelImage userImage => generateModelImage userImage
  | CallVirtualTryOn modelImageUrl garmentImage =>
      generateVirtualTryOnImage modelImageUrl garmentImage
  | CallPoseVariation tryOnImageUrl poseInstruction =>
      generatePoseVariation tryOnImageUrl poseInstruction
  | CallAdjustImage baseImageUrl instruction sceneImage =>
      adjustImage baseImageUrl instruction sceneImage
  end.

(** The image a call works from, for the three that take one. *)
Definition baseImageOf (call : Call) : option string :=
  match call with
  | CallModelImage _ => None
  | CallVirtualTryOn modelImageUrl _ => Some modelImageUrl
  | CallPoseVariation tryOnImageUrl _ => Some tryOnImageUrl
  | CallAdjustImage baseImageUrl _ _ => Some baseImageUrl
  end.

End Calls.

(** A string without a given character. *)
Fixpoint lacks (c : Ascii.ascii) (s : string) : bool :=
  match s with
  | EmptyString => true
  | String a rest => negb (Ascii.eqb a c) && lacks c rest
  end.

(** A MIME type that survives the way through a data URL: not empty, and
    free of commas, semicolons and line ends. *)
Definition cleanMime (m : string) : bool :=
  negb (String.eqb m "") && lacks (Ascii.ascii_of_nat 44) m
    && lacks (Ascii.ascii_of_nat 59) m
    && lacks (Ascii.ascii_of_nat 10) m && lacks (Ascii.ascii_of_nat 13) m.

(** *** Sample data *)

Definition sampleReader (file : string) : Outcome string :=
  if String.eqb file "" then Fails (ReadError file)
  else Returns ("data:image/jpeg;base64," +:+ file).

Definition sampleModel (request : GenerateContentParameters)
  : Outcome GenerateContentResponse :=
  Returns {| promptFeedback := None;
             candidates := Some [ {| content := Some {| parts := parts (contents request) |};
                                     finishReason := Some "STOP" |} ];
             text := None |}.

Definition jpegPart : Part :=
  {| inlineData := Some {| mimeType := Some "image/jpeg"; data := Some "/9j/4AAQSkZJRg==" |};
     partText := None |}.

(** An answer whose first candidate only talks and whose second carries two
    pictures after a sentence. *)
Definition twoCandidates : GenerateContentResponse :=
  {| promptFeedback := None;
     candidates :=
       Some [ {| content := Some {| parts := Some [textPart "Here is your portrait."] |};
                 finishReason := Some "STOP" |};
              {| content := Some {| parts := Some [textPart "Two takes."; pngPart; jpegPart] |};
                 finishReason := Some "STOP" |} ];
     text := Some "Here is your portrait." |}.

End GeminiRequests.

(** ** The footer: the rotating suggestion *)

Module Footer.

Definition REMIX_SUGGESTIONS : list string :=
  [ "Remix idea: Generate a contact sheet of your best portraits.";
    "Remix idea: Add professional backgrounds (office, outdoors).";
    "Remix idea: Add accessories like glasses or subtle jewelry.";
    "Remix idea: Add different lighting styles (e.g., studio, natural).";
    "Remix idea: Let users save their favorite portraits to a gallery.";
    "Remix idea: Generate different color variations for styles." ].

(** The updater the interval runs every four seconds. *)
Definition nextSuggestion (prevIndex : nat) : nat :=
  (prevIndex + 1) mod length REMIX_SUGGESTIONS.

(** [REMIX_SUGGESTIONS[suggestionIndex]] *)
Definition shownSuggestion (suggestionIndex : nat) : option string :=
  REMIX_SUGGESTIONS !! suggestionIndex.

End Footer.

(** ** The adjustment panel *)

Module AdjustmentPanel.

(** The state cells of the panel. *)
Record Panel : Type := mkPanel {
  prompt : string;
  sceneImage : option string;
  sceneImageUrl : option string
}.

Definition initialPanel : Panel := mkPanel "" None None.

(** What a handler does besides setting state: it calls [onAdjustImage], or
    empties the file input through its ref. *)
Inductive Effect : Type :=
| OnAdjustImage (instruction : string) (scene : option string)
| ResetFileInput.

Section Panel.

(** [String.prototype.trim], [URL.createObjectURL], and whether the file
    input is mounted ([fileInputRef.current]). *)
Variable trim : string -> string.
Variable createObjectURL : string -> string.
Variable inputMounted : bool.

(** [e.target.files] is [null] or a list of files. *)
Definition handleFileChange (files : option (list string)) (p : Panel) : Panel :=
  match files with
  | Some (file :: _) => mkPanel (prompt p) (Some file) (Some (createObjectURL file))
  | _ => p
  end.

Definition clearSceneImage (p : Panel) : Panel * list Effect :=
  (mkPanel (prompt p) None None, if inputMounted then [ResetFileInput] else []).

Definition handleSubmit (isLoading : bool) (p : Panel) : Panel * list Effect :=
  if String.eqb (trim (prompt p)) "" || isLoading then (p, [])
  else
    let '(cleared, effects) := clearSceneImage (mkPanel "" (sceneImage p) (sceneImageUrl p)) in
    (cleared, OnAdjustImage (prompt p) (sceneImage p) :: effects).

Definition handlePresetClick (presetPrompt : string) (p : Panel) : Panel * list Effect :=
  (p, [OnAdjustImage presetPrompt None]).

(** What the user does with the panel; [isLoading] is the prop of the
    moment. *)
Inductive Event : Type :=
| Typed (text : string)
| FilesChosen (files : option (list string))
| SceneRemoved
| Submitted (isLoading : bool)
| PresetClicked (presetPrompt : string).

Definition handle (e : Event) (p : Panel) : Panel * list Effect :=
  match e with
  | Typed text => (mkPanel text (sceneImage p) (sceneImageUrl p), [])
  | FilesChosen files => (handleFileChange files p, [])
  | SceneRemoved => clearSceneImage p
  | Submitted isLoading => handleSubmit isLoading p
  | PresetClicked presetPrompt => handlePresetClick presetPrompt p
  end.

(** The panel after a sequence of events, and everything it did. *)
Fixpoint handleAll (events : list Event) (p : Panel) : Panel * list Effect :=
  match events with
  | [] => (p, [])
  | e :: rest =>
      let '(p1, effects1) := handle e p in
      let '(p2, effects2) := handleAll rest p1 in
      (p2, (effects1 ++ effects2)%list)
  end.

End Panel.

(** An instruction the panel may send: one that was typed and is not blank,
    or the prompt of a preset button that was clicked. *)
Definition sendable (trim : string -> string) (events : list Event) (effect : Effect) : Prop :=
  match effect with
  | OnAdjustImage instruction scene =>
      (String.eqb (trim instruction) "" = false /\ In (Typed instruction) events)
      \/ (scene = None /\ In (PresetClicked instruction) events)
  | ResetFileInput => True
  end.

(** The preview goes with the attached file, and a prompt in the field is
    one that was typed. *)
Definition consistent (createObjectURL : string -> string) (seen : list Event) (p : Panel)
  : Prop :=
  sceneImageUrl p = createObjectURL <$> sceneImage p
  /\ (prompt p = "" \/ In (Typed (prompt p)) seen).

Definition sampleObjectURL (file : string) : string := "blob:" +:+ file.

Definition sampleEvents : list Event :=
  [ Typed "add a blue tie"; FilesChosen (Some ["office.jpg"]); Submitted true;
    Submitted false; Submitted false; Typed "   "; Submitted false;
    PresetClicked "Use a clean, neutral gray studio backdrop." ].

End AdjustmentPanel.

(** * Properties *)

(** ** The generation service *)

Module GeminiServiceFacts.
Import GeminiService.

Lemma truthy_Some (v : option string) :
  truthy v = true <-> exists s, v = Some s /\ s <> "".
Proof.
  destruct v as [s|]; simpl.
  - rewrite negb_true_iff, String.eqb_neq. split.
    + intros H. exists s. split; [reflexivity | exact H].
    + intros (s' & Heq & Hne). injection Heq as ->. exact Hne.
  - split; [discriminate | intros (s & Heq & _); discriminate].
Qed.

Lemma truthy_blockReason (response : GenerateContentResponse) :
  truthy (responseBlockReason response) = true <-> blockReasonPresent response.
Proof.
  rewrite truthy_Some. unfold responseBlockReason, blockReasonPresent. split.
  - intros (reason & Hr & Hne).
    destruct (promptFeedback response) as [feedback|]; [|discriminate].
    exists feedback, reason. auto.
  - intros (feedback & reason & -> & Hr & Hne). exists reason. auto.
Qed.

Lemma prefix_append (p rest : string) : String.prefix p (p +:+ rest) = true.
Proof.
  induction p as [|c p IH]; simpl.
  - destruct rest; reflexivity.
  - destruct (Ascii.ascii_dec c c) as [_|Hne]; [exact IH | contradiction].
Qed.

Lemma find_inlineData (ps : list Part) :
  is_Some (match List.find (fun part => bool_decide (is_Some (inlineData part))) ps with
           | None => None
           | Some imagePart => inlineData imagePart
           end)
  <-> exists part, part ∈ ps /\ is_Some (inlineData part).
Proof.
  induction ps as [|p ps IH]; simpl.
  - split.
    + intros [x Hx]. discriminate.
    + intros (part & Hin & _). inversion Hin.
  - case_bool_decide as Hp.
    + split; [intros _; exists p; split; [left | exact Hp] | intros _; exact Hp].
    + rewrite IH. split.
      * intros (part & Hin & Hsome). exists part. split; [right; exact Hin | exact Hsome].
      * intros (part & Hin & Hsome). inversion Hin; subst; [contradiction|].
        exists part. auto.
Qed.

Lemma imagePartOf_is_Some (candidate : Candidate) :
  is_Some (imagePartOf candidate)
  <-> exists c part ps,
        content candidate = Some c /\ parts c = Some ps /\
        part ∈ ps /\ is_Some (inlineData part).
Proof.
  unfold imagePartOf.
  destruct (content candidate) as [c|].
  - destruct (parts c) as [ps|] eqn:Hps.
    + rewrite find_inlineData. split.
      * intros (part & Hin & Hsome). exists c, part, ps. auto.
      * intros (c' & part & ps' & Hc & Hps' & Hin & Hsome).
        injection Hc as <-. rewrite Hps in Hps'. injection Hps' as <-.
        exists part. auto.
    + split.
      * intros [x Hx]. discriminate.
      * intros (c' & part & ps' & Hc & Hps' & _).
        injection Hc as <-. rewrite Hps in Hps'. discriminate.
  - split.
    + intros [x Hx]. discriminate.
    + intros (c' & part & ps' & Hc & _). discriminate.
Qed.

Lemma firstImage_is_Some (cs : list Candidate) :
  is_Some (firstImage cs)
  <-> exists candidate c part ps,
        candidate ∈ cs /\ content candidate = Some c /\ parts c = Some ps /\
        part ∈ ps /\ is_Some (inlineData part).
Proof.
  induction cs as [|candidate cs IH]; simpl.
  - split.
    + intros [x Hx]. discriminate.
    + intros (candidate & c & part & ps & Hin & _). inversion Hin.
  - destruct (imagePartOf candidate) as [img|] eqn:Himg.
    + split; [|intros _; eexists; reflexivity].
      intros _.
      assert (Hsome : is_Some (imagePartOf candidate)) by (rewrite Himg; eexists; reflexivity).
      apply imagePartOf_is_Some in Hsome as (c & part & ps & Hc & Hps & Hin & Hsome).
      exists candidate, c, part, ps. split; [left|]; auto.
    + rewrite IH. split.
      * intros (cand & c & part & ps & Hin & Hrest).
        exists cand, c, part, ps. split; [right; exact Hin | exact Hrest].
      * intros (cand & c & part & ps & Hin & Hc & Hps & Hpart & Hsome).
        inversion Hin; subst.
        -- assert (Hs : is_Some (imagePartOf candidate)).
           { apply imagePartOf_is_Some. exists c, part, ps. auto. }
           rewrite Himg in Hs. destruct Hs as [x Hx]. discriminate.
        -- exists cand, c, part, ps. auto.
Qed.

Lemma firstImage_hasInlineImage (response : GenerateContentResponse) :
  is_Some (firstImage (default [] (candidates response))) <-> hasInlineImage response.
Proof. apply firstImage_is_Some. Qed.

Lemma halted_test (response : GenerateContentResponse) :
  truthy (firstFinishReason response)
    && negb (String.eqb (default "" (firstFinishReason response)) "STOP") = true
  <-> haltedReason response.
Proof.
  rewrite andb_true_iff, truthy_Some, negb_true_iff, String.eqb_neq.
  unfold firstFinishReason, haltedReason. split.
  - intros [(reason & Hr & Hne) Hstop].
    destruct (candidates response) as [cs|]; [|discriminate].
    destruct cs as [|candidate rest]; simpl in *; [discriminate|].
    rewrite Hr in Hstop. simpl in Hstop.
    exists (candidate :: rest), candidate, rest, reason. auto.
  - intros (cs & candidate & rest & reason & -> & -> & Hr & Hne & Hstop).
    simpl. rewrite Hr. simpl. split; [exists reason|]; auto.
Qed.

Lemma failureKind_blocked (response : GenerateContentResponse) :
  failureKind (Throw (Error (blockedMessage response))) = Some ContentBlocked.
Proof. unfold failureKind, blockedMessage. now rewrite prefix_append. Qed.

Lemma failureKind_halted (reason : string) :
  failureKind (Throw (Error (haltedMessage reason))) = Some GenerationHalted.
Proof.
  unfold failureKind, haltedMessage.
  replace (String.prefix blockedPrefix (haltedPrefix +:+ reason
             +:+ ". This often relates to safety settings.")) with false by reflexivity.
  now rewrite prefix_append.
Qed.

Lemma failureKind_noImage (trim : string -> string) (response : GenerateContentResponse) :
  failureKind (Throw (Error (noImageMessage trim response))) = Some NoImageReturned.
Proof.
  unfold failureKind, noImageMessage. cbv zeta.
  set (rest := if truthy (trim <$> text response) then _ else _).
  replace (String.prefix blockedPrefix (noImagePrefix +:+ rest)) with false by reflexivity.
  replace (String.prefix haltedPrefix (noImagePrefix +:+ rest)) with false by reflexivity.
  now rewrite prefix_append.
Qed.

(** C9 (as amended). [handleApiResponse] returns an image reference exactly
    when no block reason is present and some candidate of the response holds
    an inline image part. In every other case it throws, and the message names
    one kind of failure: content blocked when a block reason is present
    (whatever the candidates hold), else generation halted when there is no
    image and the first candidate's finish reason is present and not "STOP",
    else no image returned. *)
Theorem handleApiResponse_outcome (trim : string -> string)
    (response : GenerateContentResponse) :
  ((exists image, handleApiResponse trim response = Ok image)
     <-> (~ blockReasonPresent response /\ hasInlineImage response))
  /\ classified response (handleApiResponse trim response).
Proof.
  unfold classified, handleApiResponse.
  destruct (truthy (responseBlockReason response)) eqn:Hblock.
  - apply truthy_blockReason in Hblock. split.
    + split; [intros [image Himg]; discriminate | intros [Hnot _]; contradiction].
    + left. split; [exact Hblock | apply failureKind_blocked].
  - assert (Hnot : ~ blockReasonPresent response).
    { rewrite <- truthy_blockReason, Hblock. discriminate. }
    destruct (firstImage (default [] (candidates response))) as [img|] eqn:Himg.
    + assert (Hhas : hasInlineImage response).
      { apply firstImage_hasInlineImage. rewrite Himg. eexists; reflexivity. }
      split.
      * split; [intros _; split; assumption | intros _; eexists; reflexivity].
      * right; left. split; [exact Hnot|]. split; [exact Hhas|]. eexists; reflexivity.
    + assert (Hnone : ~ hasInlineImage response).
      { rewrite <- firstImage_hasInlineImage, Himg. intros [x Hx]. discriminate. }
      cbv zeta.
      destruct (truthy (firstFinishReason response)
                && negb (String.eqb (default "" (firstFinishReason response)) "STOP"))
        eqn:Hhalt.
      * apply halted_test in Hhalt. split.
        -- split; [intros [image Hi]; discriminate | intros [_ Hhas]; contradiction].
        -- right; right; left.
           split; [exact Hnot | split; [exact Hnone | split; [exact Hhalt |]]].
           apply failureKind_halted.
      * assert (Hnh : ~ haltedReason response).
        { rewrite <- halted_test, Hhalt. discriminate. }
        split.
        -- split; [intros [image Hi]; discriminate | intros [_ Hhas]; contradiction].
        -- right; right; right.
           split; [exact Hnot | split; [exact Hnone | split; [exact Hnh |]]].
           apply failureKind_noImage.
Qed.

(** C9, the claim as written fails: a response with a block reason and an
    inline image part in its first candidate makes [handleApiResponse] throw
    "Request was blocked", so it holds an image and no image is returned. *)
Lemma handleApiResponse_blocked_despite_image :
  hasInlineImage blockedWithImage
  /\ ~ (exists image, handleApiResponse asciiTrim blockedWithImage = Ok image)
  /\ handleApiResponse asciiTrim blockedWithImage
       = Throw (Error "Request was blocked. Reason: SAFETY. ").
Proof.
  split; [|split].
  - exists {| content := Some {| parts := Some [pngPart] |}; finishReason := Some "STOP" |},
      {| parts := Some [pngPart] |}, pngPart, [pngPart].
    simpl. repeat split; try (left; fail); try reflexivity.
    eexists; reflexivity.
  - intros [image Himg]. vm_compute in Himg. discriminate.
  - reflexivity.
Qed.
End GeminiServiceFacts.

(** ** The outfit history *)

Module AppFacts.
Import App.
Local Open Scope list_scope.

(** *** [poseImages] objects *)

Lemma pi_get_set_eq (key value : string) (obj : PoseImages) :
  pi_get key (pi_set key value obj) = Some value.
Proof.
  induction obj as [|[k v] rest IH]; simpl.
  - now rewrite String.eqb_refl.
  - destruct (String.eqb k key) eqn:Hk; simpl; rewrite Hk; [reflexivity | exact IH].
Qed.

Lemma pi_get_set_ne (key key' value : string) (obj : PoseImages) :
  key' <> key -> pi_get key' (pi_set key value obj) = pi_get key' obj.
Proof.
  intros Hne. induction obj as [|[k v] rest IH]; simpl.
  - destruct (String.eqb key key') eqn:Hk; [|reflexivity].
    apply String.eqb_eq in Hk. congruence.
  - destruct (String.eqb k key) eqn:Hk; simpl.
    + apply String.eqb_eq in Hk. subst k.
      destruct (String.eqb key key') eqn:Hk'; [|reflexivity].
      apply String.eqb_eq in Hk'. congruence.
    + now rewrite IH.
Qed.

Lemma pi_get_in_keys (key : string) (obj : PoseImages) :
  is_Some (pi_get key obj) <-> In key (pi_keys obj).
Proof.
  induction obj as [|[k v] rest IH]; simpl.
  - split; [intros [x Hx]; discriminate | contradiction].
  - destruct (String.eqb k key) eqn:Hk.
    + apply String.eqb_eq in Hk. split; [intros _; left; exact Hk | intros _; eexists; reflexivity].
    + apply String.eqb_neq in Hk. rewrite IH. split; [tauto | intros [Heq|Hin]; [contradiction | exact Hin]].
Qed.

(** *** The object store *)

Lemma deref_newObject_old (obj : PoseImages) (s : State) (r : Ref) :
  r < length (objects s) -> deref (snd (newObject obj s)) r = deref s r.
Proof.
  intros Hr. unfold deref, newObject. simpl. now rewrite lookup_app_l.
Qed.

Lemma deref_newObject_new (obj : PoseImages) (s : State) :
  deref (snd (newObject obj s)) (fst (newObject obj s)) = obj.
Proof.
  unfold deref, newObject. simpl. now rewrite list_lookup_middle.
Qed.

Lemma deref_assign_eq (r : Ref) (key value : string) (s : State) :
  r < length (objects s) ->
  deref (assignPoseImage r key value s) r = pi_set key value (deref s r).
Proof.
  intros Hr. unfold deref, assignPoseImage. simpl.
  rewrite list_lookup_alter_eq.
  destruct (objects s !! r) as [obj|] eqn:Hobj; [reflexivity|].
  apply lookup_ge_None in Hobj. lia.
Qed.

Lemma deref_assign_ne (r r' : Ref) (key value : string) (s : State) :
  r' <> r -> deref (assignPoseImage r key value s) r' = deref s r'.
Proof.
  intros Hne. unfold deref, assignPoseImage. simpl.
  now rewrite list_lookup_alter_ne.
Qed.

Section Properties.

Variable getFriendlyErrorMessage : Thrown -> string -> string.
Variable defaultWardrobe : list WardrobeItem.

(** *** Initialisation *)

Lemma historyView_handleModelFinalized (url : string) (s : State) :
  historyView (handleModelFinalized url s) = [(None, [(poseKey 0, url)])].
Proof.
  unfold historyView, handleModelFinalized, layerView, deref. simpl.
  now rewrite list_lookup_middle.
Qed.

(** [handleModelFinalized] puts the base image in [modelImageUrl], replaces
    the history by the single layer
    [{garment: null, poseImages: {firstPoseKey: baseImage}}] and sets the
    cursor to 0. It has no call of [setCurrentPoseIndex]: the pose index
    stays as it was. Calling it again with the same image changes nothing an
    observer sees. *)
Lemma handleModelFinalized_replaces (url : string) (s : State) :
  modelImageUrl (handleModelFinalized url s) = Some url
  /\ historyView (handleModelFinalized url s) = [(None, [(poseKey 0, url)])]
  /\ currentOutfitIndex (handleModelFinalized url s) = 0
  /\ currentPoseIndex (handleModelFinalized url s) = currentPoseIndex s
  /\ snapshot (handleModelFinalized url (handleModelFinalized url s))
     = snapshot (handleModelFinalized url s).
Proof.
  split; [reflexivity|]. split; [apply historyView_handleModelFinalized|].
  split; [reflexivity|]. split; [reflexivity|].
  unfold snapshot. rewrite !historyView_handleModelFinalized. reflexivity.
Qed.

(** *** The displayed image *)

(** C6. When the current layer's [poseImages] is not empty, [displayImageUrl]
    is defined: it is the image under the current pose key when the layer has
    that key, and the first inserted image of the layer otherwise. *)
Theorem displayImageUrl_defined (s : State) (layer : OutfitLayer) :
  outfitHistory s !! currentOutfitIndex s = Some layer ->
  deref s (poseImages layer) <> [] ->
  is_Some (displayImageUrl s)
  /\ (forall image,
        pi_get (poseKey (currentPoseIndex s)) (deref s (poseImages layer)) = Some image ->
        displayImageUrl s = Some image)
  /\ (~ In (poseKey (currentPoseIndex s)) (pi_keys (deref s (poseImages layer))) ->
      displayImageUrl s = head (pi_values (deref s (poseImages layer)))).
Proof.
  intros Hlayer Hne. unfold displayImageUrl.
  destruct (outfitHistory s) as [|l0 ls] eqn:Hh; [discriminate|].
  simpl (Nat.eqb _ _). cbv iota. rewrite Hlayer.
  destruct (pi_get (poseKey (currentPoseIndex s)) (deref s (poseImages layer)))
    as [image|] eqn:Hget.
  - split; [eexists; reflexivity|]. split.
    + intros image' Heq. exact Heq.
    + intros Hnotin. exfalso. apply Hnotin, pi_get_in_keys. rewrite Hget. eexists; reflexivity.
  - split; [|split].
    + destruct (deref s (poseImages layer)) as [|[k v] rest]; [contradiction|].
      eexists; reflexivity.
    + intros image Heq. discriminate.
    + intros _. reflexivity.
Qed.

(** *** Layers seen through the store *)

Lemma ready_spec (s : State) :
  ready s = true <->
  exists display, displayImageUrl s = Some display /\ display <> "" /\ isLoading s = false.
Proof.
  unfold ready. rewrite andb_true_iff, negb_true_iff. unfold truthy. split.
  - intros [Hd Hl]. destruct (displayImageUrl s) as [display|]; [|discriminate].
    exists display. rewrite negb_true_iff, String.eqb_neq in Hd. auto.
  - intros (display & -> & Hne & Hl). rewrite negb_true_iff, String.eqb_neq. auto.
Qed.

Lemma layerView_same_objects (s s' : State) (layer : OutfitLayer) :
  objects s' = objects s -> layerView s' layer = layerView s layer.
Proof. intros Ho. unfold layerView, deref. now rewrite Ho. Qed.

Lemma historyView_same (s s' : State) :
  outfitHistory s' = outfitHistory s -> objects s' = objects s ->
  historyView s' = historyView s.
Proof.
  intros Hh Ho. unfold historyView. rewrite Hh.
  apply list_fmap_ext. intros i layer _. now apply layerView_same_objects.
Qed.

Lemma layerView_grown (s s' : State) (extra : list PoseImages) (layers : list OutfitLayer) :
  objects s' = objects s ++ extra ->
  Forall (fun layer => poseImages layer < length (objects s)) layers ->
  layerView s' <$> layers = layerView s <$> layers.
Proof.
  intros Ho Hall. apply list_fmap_ext. intros i layer Hi.
  unfold layerView, deref. rewrite Ho, lookup_app_l; [reflexivity|].
  rewrite Forall_lookup in Hall. exact (Hall i layer Hi).
Qed.

Lemma wf_distinct (s : State) (i j : nat) (a b : OutfitLayer) :
  wf s -> outfitHistory s !! i = Some a -> outfitHistory s !! j = Some b ->
  poseImages a = poseImages b -> i = j.
Proof.
  intros [Hnd _] Ha Hb Heq.
  apply (NoDup_lookup _ i j (poseImages a) Hnd); rewrite list_lookup_fmap.
  - now rewrite Ha.
  - rewrite Hb. simpl. now rewrite Heq.
Qed.

Lemma wf_in_store (s : State) (i : nat) (layer : OutfitLayer) :
  wf s -> outfitHistory s !! i = Some layer -> poseImages layer < length (objects s).
Proof. intros [_ Hall] Hi. rewrite Forall_lookup in Hall. exact (Hall i layer Hi). Qed.

(** *** Adjustments *)

(** C1. From a history of length N with the cursor on k < N-1, a successful
    [handleImageAdjustment] (the guard is passed and the service returns an
    image) leaves a history of length k+2: layers 0..k as they were, then one
    new layer with the garment of layer k and a [poseImages] holding exactly
    the current pose key with the produced image; the cursor is on k+1. *)
Theorem handleImageAdjustment_truncates
    (prompt : string) (sceneImage : option File) (image : string) (s : State) :
  wf s ->
  currentOutfitIndex s + 1 < length (outfitHistory s) ->
  ready s = true ->
  exists currentLayer,
    outfitHistory s !! currentOutfitIndex s = Some currentLayer
    /\ historyView
         (complete (handleImageAdjustment getFriendlyErrorMessage prompt sceneImage s)
                   (Ok image))
       = take (currentOutfitIndex s + 1) (historyView s)
           ++ [(garment currentLayer, [(poseKey (currentPoseIndex s), image)])]
    /\ length (outfitHistory
                 (complete (handleImageAdjustment getFriendlyErrorMessage prompt sceneImage s)
                           (Ok image)))
       = currentOutfitIndex s + 2
    /\ currentOutfitIndex
         (complete (handleImageAdjustment getFriendlyErrorMessage prompt sceneImage s)
                   (Ok image))
       = currentOutfitIndex s + 1.
Proof.
  intros [Hnd Hall] Hlt Hready.
  apply ready_spec in Hready as (display & Hd & Hne & Hl).
  destruct (lookup_lt_is_Some_2 (outfitHistory s) (currentOutfitIndex s)) as [layer Hlayer];
    [lia|].
  exists layer. split; [exact Hlayer|].
  unfold handleImageAdjustment. rewrite Hd, Hl.
  apply String.eqb_neq in Hne. rewrite Hne. simpl. rewrite Hlayer. simpl.
  split; [|split].
  - unfold historyView. simpl. unfold appendLayer.
    rewrite fmap_app, <- fmap_take. f_equal.
    + apply (layerView_grown s _ [[(poseKey (currentPoseIndex s), image)]]);
        [reflexivity | now apply Forall_take].
    + unfold layerView, deref. simpl. now rewrite list_lookup_middle.
  - unfold appendLayer. rewrite length_app, length_take. simpl. lia.
  - reflexivity.
Qed.

(** *** Reusing the next layer *)

(** C2 (as amended). When the entry guard of [handleGarmentSelect] is passed
    (an image is displayed, nothing is in flight) and the layer after the
    cursor exists with the identifier of the garment applied, the handler
    asks the service nothing and appends no layer: the cursor advances by
    one, [currentPoseIndex] becomes 0, history and wardrobe stay as they
    are. When the guard is not passed (something is in flight, or there is
    nothing to display) the handler returns at once and changes nothing,
    whatever the next layer is. *)
Theorem handleGarmentSelect_reuses_next
    (garmentFile : File) (garmentInfo g : WardrobeItem) (reply : Result)
    (nextLayer : OutfitLayer) (s : State) :
  (ready s = true ->
   outfitHistory s !! (currentOutfitIndex s + 1) = Some nextLayer ->
   garment nextLayer = Some g ->
   id g = id garmentInfo ->
   requested (handleGarmentSelect getFriendlyErrorMessage garmentFile garmentInfo s) = None
   /\ outfitHistory
        (complete (handleGarmentSelect getFriendlyErrorMessage garmentFile garmentInfo s) reply)
      = outfitHistory s
   /\ historyView
        (complete (handleGarmentSelect getFriendlyErrorMessage garmentFile garmentInfo s) reply)
      = historyView s
   /\ currentOutfitIndex
        (complete (handleGarmentSelect getFriendlyErrorMessage garmentFile garmentInfo s) reply)
      = currentOutfitIndex s + 1
   /\ currentPoseIndex
        (complete (handleGarmentSelect getFriendlyErrorMessage garmentFile garmentInfo s) reply)
      = 0
   /\ wardrobe
        (complete (handleGarmentSelect getFriendlyErrorMessage garmentFile garmentInfo s) reply)
      = wardrobe s)
  /\ (ready s = false ->
      handleGarmentSelect getFriendlyErrorMessage garmentFile garmentInfo s = Done s
      /\ requested (handleGarmentSelect getFriendlyErrorMessage garmentFile garmentInfo s)
         = None
      /\ complete (handleGarmentSelect getFriendlyErrorMessage garmentFile garmentInfo s) reply
         = s).
Proof.
  split.
  - intros Hready Hnext Hg Hid.
    apply ready_spec in Hready as (display & Hd & Hne & Hl).
    unfold handleGarmentSelect. rewrite Hd, Hl.
    apply String.eqb_neq in Hne. rewrite Hne. simpl.
    unfold isNextGarment. rewrite Hnext, Hg, Hid, String.eqb_refl. simpl.
    repeat split; reflexivity.
  - intros Hguard.
    assert (Hdone : handleGarmentSelect getFriendlyErrorMessage garmentFile garmentInfo s
                    = Done s).
    { unfold ready, truthy in Hguard. unfold handleGarmentSelect.
      destruct (displayImageUrl s) as [display|]; [|reflexivity].
      destruct (String.eqb display ""); [reflexivity|].
      destruct (isLoading s); [reflexivity | discriminate]. }
    rewrite Hdone. repeat split; reflexivity.
Qed.

(** *** Pose changes *)

(** When [handlePoseSelect] reaches the service: nothing is in flight, the
    pose differs from the current one, the current layer has no (non-empty)
    image for it, and its first image is there to start from. *)
Lemma handlePoseSelect_requests (newIndex : nat) (s : State) (request : Request) :
  requested (handlePoseSelect getFriendlyErrorMessage newIndex s) = Some request ->
  isLoading s = false /\ newIndex <> currentPoseIndex s /\
  exists currentLayer base,
    outfitHistory s !! currentOutfitIndex s = Some currentLayer
    /\ truthy (pi_get (poseKey newIndex) (deref s (poseImages currentLayer))) = false
    /\ head (pi_values (deref s (poseImages currentLayer))) = Some base
    /\ base <> ""
    /\ request = GeneratePoseVariation base (poseKey newIndex)
    /\ pendingState (handlePoseSelect getFriendlyErrorMessage newIndex s)
       = Some (setCurrentPoseIndex newIndex
                 (setLoadingMessage "Changing pose..."
                    (setIsLoading true (setError None s)))).
Proof.
  unfold handlePoseSelect.
  destruct (isLoading s) eqn:Hl; [discriminate|].
  destruct (Nat.eqb (length (outfitHistory s)) 0); [discriminate|].
  destruct (Nat.eqb newIndex (currentPoseIndex s)) eqn:Hp; [discriminate|].
  apply Nat.eqb_neq in Hp. simpl.
  destruct (outfitHistory s !! currentOutfitIndex s) as [layer|]; [|discriminate].
  destruct (truthy (pi_get (poseKey newIndex) (deref s (poseImages layer)))) eqn:Ht;
    [discriminate|].
  destruct (head (pi_values (deref s (poseImages layer)))) as [base|] eqn:Hb; [|discriminate].
  destruct (String.eqb base "") eqn:He; [discriminate|].
  apply String.eqb_neq in He. simpl. intros [= <-].
  split; [reflexivity|]. split; [exact Hp|].
  exists layer, base. repeat split; auto.
Qed.

(** C4. If [handlePoseSelect] asks the service for a pose and the call fails,
    then at the end [currentPoseIndex] is what it was before the handler ran
    (it was the requested index while the call was pending), the history and
    the images of every layer are unchanged, [error] holds the message made
    from the failure, and the busy flag is clear. *)
Theorem handlePoseSelect_rolls_back (newIndex : nat) (err : Thrown) (s : State) :
  is_Some (requested (handlePoseSelect getFriendlyErrorMessage newIndex s)) ->
  (currentPoseIndex <$> pendingState (handlePoseSelect getFriendlyErrorMessage newIndex s))
    = Some newIndex
  /\ currentPoseIndex
       (complete (handlePoseSelect getFriendlyErrorMessage newIndex s) (Throw err))
     = currentPoseIndex s
  /\ outfitHistory
       (complete (handlePoseSelect getFriendlyErrorMessage newIndex s) (Throw err))
     = outfitHistory s
  /\ historyView
       (complete (handlePoseSelect getFriendlyErrorMessage newIndex s) (Throw err))
     = historyView s
  /\ error (complete (handlePoseSelect getFriendlyErrorMessage newIndex s) (Throw err))
     = Some (getFriendlyErrorMessage err "Failed to change pose")
  /\ isLoading (complete (handlePoseSelect getFriendlyErrorMessage newIndex s) (Throw err))
     = false.
Proof.
  intros [request Hreq].
  destruct (handlePoseSelect_requests _ _ _ Hreq)
    as (Hl & Hp & layer & base & Hlayer & Ht & Hb & Hne & -> & Hpending).
  rewrite Hpending. split; [reflexivity|].
  revert Hreq. unfold handlePoseSelect. rewrite Hl.
  destruct (Nat.eqb (length (outfitHistory s)) 0); [discriminate|].
  apply Nat.eqb_neq in Hp. rewrite Hp. simpl. rewrite Hlayer, Ht, Hb.
  apply String.eqb_neq in Hne. rewrite Hne. simpl. intros _.
  repeat split; reflexivity.
Qed.

(** *** Regeneration *)

Lemma handleRegenerate_requests (s : State) (request : Request) :
  requested (handleRegenerate getFriendlyErrorMessage s) = Some request ->
  isLoading s = false /\
  exists currentLayer base,
    outfitHistory s !! currentOutfitIndex s = Some currentLayer
    /\ head (pi_values (deref s (poseImages currentLayer))) = Some base
    /\ base <> ""
    /\ request = GeneratePoseVariation base (poseKey (currentPoseIndex s))
    /\ forall image,
         complete (handleRegenerate getFriendlyErrorMessage s) (Ok image)
         = finally
             (assignPoseImage (poseImages currentLayer) (poseKey (currentPoseIndex s)) image
                (setLoadingMessage "Regenerating portrait..."
                   (setIsLoading true (setError None s)))).
Proof.
  unfold handleRegenerate.
  destruct (isLoading s) eqn:Hl; [discriminate|].
  destruct (Nat.eqb (length (outfitHistory s)) 0); [discriminate|]. simpl.
  destruct (outfitHistory s !! currentOutfitIndex s) as [layer|] eqn:Hlayer; [|discriminate].
  destruct (head (pi_values (deref s (poseImages layer)))) as [base|] eqn:Hb; [|discriminate].
  destruct (String.eqb base "") eqn:He; [discriminate|].
  apply String.eqb_neq in He. simpl. intros [= <-].
  split; [reflexivity|].
  exists layer, base. repeat split; auto.
  intros image. unfold storePoseImage. simpl. now rewrite Hlayer.
Qed.

(** C10. A successful [handleRegenerate] (the service is asked and returns an
    image) keeps the sequence of layers, their garments, the cursor and
    [currentPoseIndex]; the current layer now has the new image under the
    current pose key and its other keys as before; every other layer has the
    images it had. *)
Theorem handleRegenerate_frame (image : string) (s : State) :
  wf s ->
  is_Some (requested (handleRegenerate getFriendlyErrorMessage s)) ->
  outfitHistory (complete (handleRegenerate getFriendlyErrorMessage s) (Ok image))
    = outfitHistory s
  /\ currentOutfitIndex (complete (handleRegenerate getFriendlyErrorMessage s) (Ok image))
     = currentOutfitIndex s
  /\ currentPoseIndex (complete (handleRegenerate getFriendlyErrorMessage s) (Ok image))
     = currentPoseIndex s
  /\ exists currentLayer,
       outfitHistory s !! currentOutfitIndex s = Some currentLayer
       /\ pi_get (poseKey (currentPoseIndex s))
            (deref (complete (handleRegenerate getFriendlyErrorMessage s) (Ok image))
                   (poseImages currentLayer))
          = Some image
       /\ (forall key, key <> poseKey (currentPoseIndex s) ->
             pi_get key
               (deref (complete (handleRegenerate getFriendlyErrorMessage s) (Ok image))
                      (poseImages currentLayer))
             = pi_get key (deref s (poseImages currentLayer)))
       /\ (forall j layer, j <> currentOutfitIndex s ->
             outfitHistory s !! j = Some layer ->
             layerView (complete (handleRegenerate getFriendlyErrorMessage s) (Ok image)) layer
             = layerView s layer).
Proof.
  intros Hwf [request Hreq].
  destruct (handleRegenerate_requests _ _ Hreq)
    as (Hl & layer & base & Hlayer & Hb & Hne & -> & Hrun).
  rewrite Hrun. clear Hrun Hreq.
  split; [reflexivity|]. split; [reflexivity|]. split; [reflexivity|].
  exists layer. split; [exact Hlayer|].
  pose proof (wf_in_store _ _ _ Hwf Hlayer) as Hin.
  assert (Hcur : deref (finally
             (assignPoseImage (poseImages layer) (poseKey (currentPoseIndex s)) image
                (setLoadingMessage "Regenerating portrait..."
                   (setIsLoading true (setError None s))))) (poseImages layer)
           = pi_set (poseKey (currentPoseIndex s)) image (deref s (poseImages layer))).
  { exact (deref_assign_eq (poseImages layer) _ image _ Hin). }
  split; [|split].
  - rewrite Hcur. apply pi_get_set_eq.
  - intros key Hkey. rewrite Hcur. now apply pi_get_set_ne.
  - intros j other Hj Hother. unfold layerView. f_equal.
    transitivity
      (deref (assignPoseImage (poseImages layer) (poseKey (currentPoseIndex s)) image s)
             (poseImages other)); [reflexivity|].
    apply deref_assign_ne.
    intros Heq. apply Hj. exact (wf_distinct s j _ other layer Hwf Hother Hlayer Heq).
Qed.

(** *** Invariants of a session *)

Lemma fresh_layer_distinct
    (history : list OutfitLayer) (objs : list PoseImages) (n : nat)
    (g : option WardrobeItem) (obj : PoseImages) :
  NoDup (poseImages <$> history) ->
  Forall (fun layer => poseImages layer < length objs) history ->
  NoDup (poseImages <$> appendLayer n {| garment := g; poseImages := length objs |} history)
  /\ Forall (fun layer => poseImages layer < length (objs ++ [obj]))
       (appendLayer n {| garment := g; poseImages := length objs |} history).
Proof.
  intros Hnd Hall. unfold appendLayer. split.
  - rewrite fmap_app, fmap_take.
    pose proof (sublist_take (poseImages <$> history) (n + 1)) as Hr'.
    apply NoDup_app. split; [|split].
    + eapply sublist_NoDup; [exact Hnd | apply sublist_take].
    + intros r Hr Hnew. simpl in Hnew. apply list_elem_of_singleton in Hnew. subst r.
      pose proof (elem_of_sublist _ _ _ Hr Hr') as Hold.
      apply list_elem_of_fmap in Hold as (layer & Heq & Hin).
      rewrite Forall_forall in Hall. specialize (Hall layer Hin). simpl in Hall. lia.
    + simpl. apply NoDup_singleton.
  - rewrite length_app. simpl. apply Forall_app. split.
    + apply Forall_take. eapply Forall_impl; [exact Hall|]. simpl. intros layer Hl. lia.
    + apply Forall_singleton. simpl. lia.
Qed.

Lemma wf_same_layers (s s' : State) :
  outfitHistory s' = outfitHistory s -> length (objects s') = length (objects s) ->
  wf s -> wf s'.
Proof. intros Hh Ho [Hnd Hall]. unfold wf. rewrite Hh, Ho. auto. Qed.

Lemma wf_handleModelFinalized (url : string) (s : State) : wf (handleModelFinalized url s).
Proof.
  split; simpl.
  - apply NoDup_singleton.
  - apply Forall_singleton. simpl. rewrite length_app. simpl. lia.
Qed.

Lemma wf_perform (op : Operation) (s : State) :
  wf s -> wf (perform getFriendlyErrorMessage defaultWardrobe op s).
Proof.
  intros Hwf. pose proof Hwf as [Hnd Hall].
  destruct op as [url|file info reply|i reply|prompt scene reply|reply| | |]; simpl.
  - apply wf_handleModelFinalized.
  - unfold handleGarmentSelect.
    destruct (displayImageUrl s) as [display|]; [|exact Hwf].
    destruct (String.eqb display "" || isLoading s); [exact Hwf|].
    destruct (isNextGarment info s); [exact Hwf|].
    destruct reply as [image|err]; [|exact Hwf]. simpl.
    apply (fresh_layer_distinct _ _ _ _ _ Hnd Hall).
  - unfold handlePoseSelect.
    destruct (isLoading s || Nat.eqb (length (outfitHistory s)) 0
              || Nat.eqb i (currentPoseIndex s)); [exact Hwf|].
    destruct (outfitHistory s !! currentOutfitIndex s) as [layer|] eqn:Hlayer; [|exact Hwf].
    destruct (truthy _); [exact Hwf|].
    destruct (head _) as [base|]; [|exact Hwf].
    destruct (String.eqb base ""); [exact Hwf|].
    destruct reply as [image|err]; [|exact Hwf]. simpl.
    apply (wf_same_layers s); [| |exact Hwf];
      unfold storePoseImage; simpl; rewrite Hlayer; simpl;
      [reflexivity | apply length_alter].
  - unfold handleImageAdjustment.
    destruct (displayImageUrl s) as [display|]; [|exact Hwf].
    destruct (String.eqb display "" || isLoading s); [exact Hwf|].
    destruct reply as [image|err]; [|exact Hwf]. simpl.
    destruct (outfitHistory s !! currentOutfitIndex s) as [layer|]; [|exact Hwf].
    apply (fresh_layer_distinct _ _ _ _ _ Hnd Hall).
  - unfold handleRegenerate.
    destruct (isLoading s || Nat.eqb (length (outfitHistory s)) 0); [exact Hwf|].
    destruct (outfitHistory s !! currentOutfitIndex s) as [layer|] eqn:Hlayer; [|exact Hwf].
    destruct (head _) as [base|]; [|exact Hwf].
    destruct (String.eqb base ""); [exact Hwf|].
    destruct reply as [image|err]; [|exact Hwf]. simpl.
    apply (wf_same_layers s); [| |exact Hwf];
      unfold storePoseImage; simpl; rewrite Hlayer; simpl;
      [reflexivity | apply length_alter].
  - unfold handleUndo. destruct (Nat.ltb 0 (currentOutfitIndex s)); exact Hwf.
  - unfold handleRedo. destruct (Z.ltb _ _); exact Hwf.
  - split; simpl; constructor.
Qed.

(** Throughout a session the layers refer to distinct objects of the store. *)
Lemma reachable_wf (s : State) :
  reachable getFriendlyErrorMessage defaultWardrobe s -> wf s.
Proof.
  induction 1 as [|op s _ IH].
  - split; simpl; constructor.
  - now apply wf_perform.
Qed.

(** An image is displayed only with the cursor on a layer. *)
Lemma displayed_in_range (s : State) (display : string) :
  indexValid s -> displayImageUrl s = Some display ->
  currentOutfitIndex s < length (outfitHistory s).
Proof.
  intros [[Hnil Hmodel]|Hlt] Hd; [|exact Hlt].
  unfold displayImageUrl in Hd. rewrite Hnil in Hd. simpl in Hd. congruence.
Qed.

Lemma isNextGarment_in_range (garmentInfo : WardrobeItem) (s : State) :
  isNextGarment garmentInfo s = true ->
  currentOutfitIndex s + 1 < length (outfitHistory s).
Proof.
  unfold isNextGarment.
  destruct (outfitHistory s !! (currentOutfitIndex s + 1)) as [layer|] eqn:Hnext;
    [|discriminate].
  intros _. now apply lookup_lt_Some in Hnext.
Qed.

Lemma length_appendLayer (index : nat) (newLayer : OutfitLayer) (history : list OutfitLayer) :
  index < length history -> length (appendLayer index newLayer history) = index + 2.
Proof. intros Hlt. unfold appendLayer. rewrite length_app, length_take. simpl. lia. Qed.

Lemma indexValid_perform (op : Operation) (s : State) :
  indexValid s -> indexValid (perform getFriendlyErrorMessage defaultWardrobe op s).
Proof.
  intros Hv.
  destruct op as [url|file info reply|i reply|prompt scene reply|reply| | |]; simpl.
  - right. simpl. lia.
  - unfold handleGarmentSelect.
    destruct (displayImageUrl s) as [display|] eqn:Hd; [|exact Hv].
    destruct (String.eqb display "" || isLoading s); [exact Hv|].
    destruct (isNextGarment info s) eqn:Hnext.
    + right. simpl. now apply isNextGarment_in_range in Hnext.
    + destruct reply as [image|err]; [|exact Hv].
      right. simpl. rewrite length_appendLayer; [lia|].
      exact (displayed_in_range s display Hv Hd).
  - unfold handlePoseSelect.
    destruct (isLoading s || Nat.eqb (length (outfitHistory s)) 0
              || Nat.eqb i (currentPoseIndex s)); [exact Hv|].
    destruct (outfitHistory s !! currentOutfitIndex s) as [layer|] eqn:Hlayer; [|exact Hv].
    destruct (truthy _); [exact Hv|].
    destruct (head _) as [base|]; [|exact Hv].
    destruct (String.eqb base ""); [exact Hv|].
    destruct reply as [image|err]; [|exact Hv].
    simpl. unfold storePoseImage. simpl. rewrite Hlayer. exact Hv.
  - unfold handleImageAdjustment.
    destruct (displayImageUrl s) as [display|] eqn:Hd; [|exact Hv].
    destruct (String.eqb display "" || isLoading s); [exact Hv|].
    destruct reply as [image|err]; [|exact Hv]. simpl.
    destruct (outfitHistory s !! currentOutfitIndex s) as [layer|] eqn:Hlayer; [|exact Hv].
    right. simpl. rewrite length_appendLayer; [lia|].
    now apply lookup_lt_Some in Hlayer.
  - unfold handleRegenerate.
    destruct (isLoading s || Nat.eqb (length (outfitHistory s)) 0); [exact Hv|].
    destruct (outfitHistory s !! currentOutfitIndex s) as [layer|] eqn:Hlayer; [|exact Hv].
    destruct (head _) as [base|]; [|exact Hv].
    destruct (String.eqb base ""); [exact Hv|].
    destruct reply as [image|err]; [|exact Hv].
    simpl. unfold storePoseImage. simpl. rewrite Hlayer. exact Hv.
  - unfold handleUndo. destruct (Nat.ltb 0 (currentOutfitIndex s)) eqn:Hpos; [|exact Hv].
    destruct Hv as [Hempty|Hlt]; [left; exact Hempty|]. right. simpl. lia.
  - unfold handleRedo.
    destruct (Z.ltb _ _) eqn:Hnext; [|exact Hv].
    apply Z.ltb_lt in Hnext. right. simpl. lia.
  - left. split; reflexivity.
Qed.

Lemma reachable_indexValid (s : State) :
  reachable getFriendlyErrorMessage defaultWardrobe s -> indexValid s.
Proof.
  induction 1 as [|op s _ IH].
  - left. split; reflexivity.
  - now apply indexValid_perform.
Qed.

(** When every operation runs to its end before the next one starts (no
    handler is called while a request is pending), a non-empty history has
    its cursor on one of its layers. *)
Lemma currentOutfitIndex_in_range (s : State) :
  reachable getFriendlyErrorMessage defaultWardrobe s ->
  outfitHistory s <> [] ->
  0 <= currentOutfitIndex s < length (outfitHistory s).
Proof.
  intros Hreach Hne. split; [lia|].
  destruct (reachable_indexValid s Hreach) as [[Hnil _]|Hlt]; [contradiction | exact Hlt].
Qed.

(** *** The wardrobe *)






(** *** Undo and redo *)

Lemma atTip_handleModelFinalized (url : string) (s : State) :
  atTip (handleModelFinalized url s).
Proof. reflexivity. Qed.

Lemma atTip_no_next (garmentInfo : WardrobeItem) (s : State) :
  atTip s -> isNextGarment garmentInfo s = false.
Proof.
  unfold atTip, isNextGarment. intros Htip.
  rewrite (lookup_ge_None_2 (outfitHistory s) (currentOutfitIndex s + 1)); [reflexivity | lia].
Qed.

Lemma atTip_appendLayer (s : State) (newLayer : OutfitLayer) :
  atTip s ->
  currentOutfitIndex s + 1 + 1
  = length (appendLayer (currentOutfitIndex s) newLayer (outfitHistory s)).
Proof.
  unfold atTip. intros Htip. rewrite length_appendLayer; lia.
Qed.

(** A successful garment or adjustment from the tip ends on the new tip. *)
Lemma atTip_succeeds (op : Operation) (s : State) :
  atTip s -> succeeds op s = true ->
  atTip (perform getFriendlyErrorMessage defaultWardrobe op s).
Proof.
  intros Htip Hok.
  destruct op as [url|file info reply|i reply|prompt scene reply|reply| | |];
    simpl in Hok; try discriminate.
  - apply andb_true_iff in Hok as [Hready Hreply].
    apply ready_spec in Hready as (display & Hd & Hne & Hl).
    rewrite (atTip_no_next info s Htip) in Hreply. simpl in Hreply.
    destruct reply as [image|err]; [|discriminate].
    simpl. unfold handleGarmentSelect. rewrite Hd, Hl, (atTip_no_next info s Htip).
    apply String.eqb_neq in Hne. rewrite Hne. simpl.
    unfold atTip. simpl. now apply atTip_appendLayer.
  - apply andb_true_iff in Hok as [Hok Hlayer].
    apply andb_true_iff in Hok as [Hready Hreply].
    apply ready_spec in Hready as (display & Hd & Hne & Hl).
    destruct reply as [image|err]; [|discriminate].
    apply bool_decide_eq_true in Hlayer as [layer Hlayer].
    simpl. unfold handleImageAdjustment. rewrite Hd, Hl.
    apply String.eqb_neq in Hne. rewrite Hne. simpl. rewrite Hlayer.
    unfold atTip. simpl. now apply atTip_appendLayer.
Qed.

Lemma atTip_run (ops : list Operation) (s : State) :
  atTip s -> allSucceed getFriendlyErrorMessage defaultWardrobe ops s = true ->
  atTip (run getFriendlyErrorMessage defaultWardrobe ops s).
Proof.
  revert s. induction ops as [|op ops IH]; intros s Htip Hall; simpl in *.
  - exact Htip.
  - apply andb_true_iff in Hall as [Hop Hrest].
    apply IH; [now apply atTip_succeeds | exact Hrest].
Qed.

(** On the tip, undo then redo comes back to the very same state. *)
Lemma undo_redo_at_tip (s : State) : atTip s -> handleRedo (handleUndo s) = s.
Proof.
  unfold atTip, handleRedo, handleUndo. destruct s as [m h k l msg e p c w o]. simpl.
  intros Htip. destruct k as [|k]; simpl.
  - match goal with |- context [Z.ltb ?a ?b] => destruct (Z.ltb_spec a b) end;
      [lia | reflexivity].
  - match goal with |- context [Z.ltb ?a ?b] => destruct (Z.ltb_spec a b) end; [|lia].
    unfold setCurrentOutfitIndex. simpl. f_equal. lia.
Qed.

(** C3. After initialisation and any sequence of successful garment and
    adjustment operations the cursor is on the tip of the history, and undo
    followed by redo gives back the history (the layers and their images)
    and the cursor of before the undo; indeed the whole state. *)
Theorem undo_redo_round_trip (url : string) (ops : list Operation) (s0 : State) :
  allSucceed getFriendlyErrorMessage defaultWardrobe ops (handleModelFinalized url s0) = true ->
  atTip (run getFriendlyErrorMessage defaultWardrobe ops (handleModelFinalized url s0))
  /\ historyView
       (handleRedo
          (handleUndo
             (run getFriendlyErrorMessage defaultWardrobe ops (handleModelFinalized url s0))))
     = historyView
         (run getFriendlyErrorMessage defaultWardrobe ops (handleModelFinalized url s0))
  /\ currentOutfitIndex
       (handleRedo
          (handleUndo
             (run getFriendlyErrorMessage defaultWardrobe ops (handleModelFinalized url s0))))
     = currentOutfitIndex
         (run getFriendlyErrorMessage defaultWardrobe ops (handleModelFinalized url s0))
  /\ handleRedo
       (handleUndo
          (run getFriendlyErrorMessage defaultWardrobe ops (handleModelFinalized url s0)))
     = run getFriendlyErrorMessage defaultWardrobe ops (handleModelFinalized url s0).
Proof.
  intros Hall.
  pose proof (atTip_run ops _ (atTip_handleModelFinalized url s0) Hall) as Htip.
  rewrite (undo_redo_at_tip _ Htip). auto.
Qed.

(** Inside the history (not on its first layer) undo then redo is the
    identity as well, so the round trip also holds after a reused layer. *)
Lemma undo_redo_inside (s : State) :
  0 < currentOutfitIndex s < length (outfitHistory s) -> handleRedo (handleUndo s) = s.
Proof.
  unfold handleRedo, handleUndo. destruct s as [m h k l msg e p c w o]. simpl.
  intros [Hpos Hlt]. destruct k as [|k]; [lia|]. simpl.
  match goal with |- context [Z.ltb ?a ?b] => destruct (Z.ltb_spec a b) end; [|lia].
  unfold setCurrentOutfitIndex. simpl. f_equal. lia.
Qed.

(** A successful operation moves the cursor one layer forward. *)
Lemma succeeds_advances (op : Operation) (s : State) :
  succeeds op s = true ->
  currentOutfitIndex (perform getFriendlyErrorMessage defaultWardrobe op s)
  = currentOutfitIndex s + 1.
Proof.
  intros Hok.
  destruct op as [url|file info reply|i reply|prompt scene reply|reply| | |];
    simpl in Hok; try discriminate.
  - apply andb_true_iff in Hok as [Hready Hreply].
    apply ready_spec in Hready as (display & Hd & Hne & Hl).
    simpl. unfold handleGarmentSelect. rewrite Hd, Hl.
    apply String.eqb_neq in Hne. rewrite Hne. simpl.
    destruct (isNextGarment info s); [reflexivity|].
    destruct reply as [image|err]; [reflexivity | discriminate].
  - apply andb_true_iff in Hok as [Hok Hlayer].
    apply andb_true_iff in Hok as [Hready Hreply].
    apply ready_spec in Hready as (display & Hd & Hne & Hl).
    destruct reply as [image|err]; [|discriminate].
    apply bool_decide_eq_true in Hlayer as [layer Hlayer].
    simpl. unfold handleImageAdjustment. rewrite Hd, Hl.
    apply String.eqb_neq in Hne. rewrite Hne. simpl. now rewrite Hlayer.
Qed.

Lemma reachable_run (ops : list Operation) (s : State) :
  reachable getFriendlyErrorMessage defaultWardrobe s ->
  reachable getFriendlyErrorMessage defaultWardrobe
            (run getFriendlyErrorMessage defaultWardrobe ops s).
Proof.
  revert s. induction ops as [|op ops IH]; intros s Hs; simpl; [exact Hs|].
  apply IH. now constructor.
Qed.

(** *** The start screen *)

Lemma startScreen_perform (op : Operation) (s : State) :
  (modelImageUrl s = None -> outfitHistory s = [] /\ currentPoseIndex s = 0) ->
  modelImageUrl (perform getFriendlyErrorMessage defaultWardrobe op s) = None ->
  outfitHistory (perform getFriendlyErrorMessage defaultWardrobe op s) = []
  /\ currentPoseIndex (perform getFriendlyErrorMessage defaultWardrobe op s) = 0.
Proof.
  intros IH.
  destruct op as [url|file info reply|i reply|prompt scene reply|reply| | |]; simpl;
    unfold handleGarmentSelect, handlePoseSelect, handleImageAdjustment, handleRegenerate,
      handleUndo, handleRedo, displayImageUrl, storePoseImage;
    repeat (case_match; simpl in * ); subst; try discriminate; intros Hm;
    try (destruct (IH Hm) as [Hh Hp]; rewrite ?Hh, ?Hp in *; simpl in *;
         try discriminate; try congruence; auto).
  all: try (split; reflexivity).
Qed.

(** When every operation runs to its end before the next one starts: while
    there is no model image (the start screen is shown, the only place
    [handleModelFinalized] is wired to) the history is empty and the pose
    index is 0, and [handleModelFinalized], which leaves the pose index
    alone, starts the history on pose 0. *)
Lemma reachable_startScreen (s : State) :
  reachable getFriendlyErrorMessage defaultWardrobe s ->
  modelImageUrl s = None ->
  outfitHistory s = [] /\ currentPoseIndex s = 0
  /\ forall url, currentPoseIndex (handleModelFinalized url s) = 0.
Proof.
  intros Hreach.
  assert (Hinv : modelImageUrl s = None -> outfitHistory s = [] /\ currentPoseIndex s = 0).
  { induction Hreach as [|op s _ IH]; [intros _; split; reflexivity|].
    now apply startScreen_perform. }
  intros Hm. destruct (Hinv Hm) as [Hh Hp]. auto.
Qed.

End Properties.

(** *** The sample session *)

Lemma sampleRun_reachable (ops : list Operation) :
  reachable sampleFriendly sampleWardrobe (sampleRun ops).
Proof. apply reachable_run. constructor. Qed.


(** C2, the claim as written fails: while a pose change is in flight the
    layer after the cursor holds the shirt, and [handleGarmentSelect] for the
    shirt returns at its guard with the cursor where it was. *)
Lemma handleGarmentSelect_busy_ignored :
  (exists nextLayer,
     outfitHistory stateBusy !! (currentOutfitIndex stateBusy + 1) = Some nextLayer
     /\ garment nextLayer = Some shirt)
  /\ complete (handleGarmentSelect sampleFriendly "shirt.png" shirt stateBusy) (Ok withShirt)
     = stateBusy
  /\ currentOutfitIndex
       (complete (handleGarmentSelect sampleFriendly "shirt.png" shirt stateBusy)
                 (Ok withShirt))
     <> currentOutfitIndex stateBusy + 1.
Proof.
  split; [|split].
  - exists {| garment := Some shirt; poseImages := 1 |}. split; reflexivity.
  - reflexivity.
  - discriminate.
Qed.

(** *** Handlers called while a request is pending *)

(** C7. The cursor leaves the history when redo is pressed while a try-on is
    pending. With the layers of the avatar and the shirt and the cursor back
    on the avatar, [handleGarmentSelect] asks for the blazer; [handleRedo],
    which does not read [isLoading], moves the cursor to 1; when the image
    arrives the resumption cuts the history after the index it captured, 0,
    appends the new layer and adds one to the cursor of that moment: two
    layers, the cursor on 2. No layer is under the cursor: the display falls
    back on the model image and [handleRegenerate] returns without a
    request. *)
Theorem handleRedo_during_try_on_leaves_range :
  let l := samplePlay redoDuringTryOn in
  play sampleFriendly sampleWardrobe wired redoDuringTryOn (initialLive sampleWardrobe)
    = Some l
  /\ inFlight l = []
  /\ length (outfitHistory (rendered l)) = 2
  /\ currentOutfitIndex (rendered l) = 2
  /\ outfitHistory (rendered l) <> []
  /\ ~ currentOutfitIndex (rendered l) < length (outfitHistory (rendered l))
  /\ outfitHistory (rendered l) !! currentOutfitIndex (rendered l) = None
  /\ displayImageUrl (rendered l) = modelImageUrl (rendered l)
  /\ handleRegenerate sampleFriendly (rendered l) = Done (rendered l).
Proof.
  intros l. split; [vm_compute; reflexivity|]. split; [vm_compute; reflexivity|].
  split; [vm_compute; reflexivity|]. split; [vm_compute; reflexivity|].
  split; [vm_compute; discriminate|]. split; [vm_compute; lia|].
  split; [vm_compute; reflexivity|]. split; vm_compute; reflexivity.
Qed.

(** C5. [handleModelFinalized] starts a history on the second pose. With the
    second pose selected, [handlePoseSelect] asks for the third; Start Over
    is pressed while the service works ([handleStartOver] sets
    [currentPoseIndex] to 0); the request fails and the [catch] block of
    [handlePoseSelect] puts [currentPoseIndex] back on the pose it captured,
    1. The start screen is shown (no model image), and
    [handleModelFinalized], which sets the model image, the history and the
    cursor but not [currentPoseIndex], leaves it on 1. *)
Theorem handleModelFinalized_after_reset_keeps_pose :
  let l := samplePlay resetDuringPoseChange in
  play sampleFriendly sampleWardrobe wired resetDuringPoseChange (initialLive sampleWardrobe)
    = Some l
  /\ inFlight l = []
  /\ modelImageUrl (rendered l) = None
  /\ outfitHistory (rendered l) = []
  /\ currentPoseIndex (rendered l) = 1
  /\ mounted (Initialize avatar) (rendered l) = true
  /\ advance sampleFriendly sampleWardrobe (Invoke (Initialize avatar)) l
     = Some (mkLive (handleModelFinalized avatar (rendered l)) [])
  /\ historyView (handleModelFinalized avatar (rendered l)) = [(None, [(poseKey 0, avatar)])]
  /\ currentOutfitIndex (handleModelFinalized avatar (rendered l)) = 0
  /\ currentPoseIndex (handleModelFinalized avatar (rendered l)) = 1
  /\ currentPoseIndex (handleModelFinalized avatar (rendered l)) <> 0.
Proof.
  intros l. do 10 (split; [vm_compute; reflexivity|]). vm_compute. discriminate.
Qed.

(** The theorems above at states of the sample session. *)

Lemma handleImageAdjustment_truncates_witness :
  wf stateRewound
  /\ currentOutfitIndex stateRewound + 1 < length (outfitHistory stateRewound)
  /\ ready stateRewound = true
  /\ let s' := complete (handleImageAdjustment sampleFriendly "Use a softer light." None
                           stateRewound) (Ok brighter) in
     exists currentLayer,
       outfitHistory stateRewound !! currentOutfitIndex stateRewound = Some currentLayer
       /\ historyView s'
          = take (currentOutfitIndex stateRewound + 1) (historyView stateRewound)
              ++ [(garment currentLayer, [(poseKey (currentPoseIndex stateRewound), brighter)])]
       /\ length (outfitHistory s') = currentOutfitIndex stateRewound + 2
       /\ currentOutfitIndex s' = currentOutfitIndex stateRewound + 1.
Proof.
  assert (Hwf : wf stateRewound)
    by exact (reachable_wf sampleFriendly sampleWardrobe _ (sampleRun_reachable _)).
  assert (Hlt : currentOutfitIndex stateRewound + 1 < length (outfitHistory stateRewound))
    by (vm_compute; lia).
  assert (Hready : ready stateRewound = true) by reflexivity.
  split; [exact Hwf|]. split; [exact Hlt|]. split; [exact Hready|].
  exact (handleImageAdjustment_truncates sampleFriendly "Use a softer light." None brighter
           stateRewound Hwf Hlt Hready).
Defined.

Lemma handleGarmentSelect_reuses_next_witness :
  (ready stateRewound = true
   /\ outfitHistory stateRewound !! (currentOutfitIndex stateRewound + 1)
      = Some {| garment := Some shirt; poseImages := 1 |}
   /\ let s' := complete (handleGarmentSelect sampleFriendly "shirt.png" shirt stateRewound)
                         (Throw (Error "unused")) in
      requested (handleGarmentSelect sampleFriendly "shirt.png" shirt stateRewound) = None
      /\ outfitHistory s' = outfitHistory stateRewound
      /\ historyView s' = historyView stateRewound
      /\ currentOutfitIndex s' = currentOutfitIndex stateRewound + 1
      /\ currentPoseIndex s' = 0
      /\ wardrobe s' = wardrobe stateRewound)
  /\ (ready stateBusy = false
      /\ handleGarmentSelect sampleFriendly "shirt.png" shirt stateBusy = Done stateBusy)
  /\ (ready (initialState sampleWardrobe) = false
      /\ handleGarmentSelect sampleFriendly "shirt.png" shirt (initialState sampleWardrobe)
         = Done (initialState sampleWardrobe)).
Proof.
  assert (Hready : ready stateRewound = true) by reflexivity.
  assert (Hnext : outfitHistory stateRewound !! (currentOutfitIndex stateRewound + 1)
                  = Some {| garment := Some shirt; poseImages := 1 |}) by reflexivity.
  assert (Hbusy : ready stateBusy = false) by reflexivity.
  assert (Hnone : ready (initialState sampleWardrobe) = false) by reflexivity.
  split; [|split].
  - split; [exact Hready|]. split; [exact Hnext|].
    exact (proj1 (handleGarmentSelect_reuses_next sampleFriendly "shirt.png" shirt shirt
                    (Throw (Error "unused")) _ stateRewound)
             Hready Hnext eq_refl eq_refl).
  - split; [exact Hbusy|].
    exact (proj1 (proj2 (handleGarmentSelect_reuses_next sampleFriendly "shirt.png" shirt shirt
                           (Ok withShirt) {| garment := Some shirt; poseImages := 1 |}
                           stateBusy)
                    Hbusy)).
  - split; [exact Hnone|].
    exact (proj1 (proj2 (handleGarmentSelect_reuses_next sampleFriendly "shirt.png" shirt shirt
                           (Ok withShirt) {| garment := Some shirt; poseImages := 1 |}
                           (initialState sampleWardrobe))
                    Hnone)).
Defined.

Lemma undo_redo_round_trip_witness :
  let ops := [ ApplyGarment "shirt.png" shirt (Ok withShirt);
               ApplyAdjustment "Use a softer light." None (Ok brighter);
               ApplyGarment "blazer.png" blazer (Ok withBlazer) ] in
  let s0 := initialState sampleWardrobe in
  allSucceed sampleFriendly sampleWardrobe ops (handleModelFinalized avatar s0) = true
  /\ atTip (run sampleFriendly sampleWardrobe ops (handleModelFinalized avatar s0))
  /\ historyView
       (handleRedo
          (handleUndo (run sampleFriendly sampleWardrobe ops (handleModelFinalized avatar s0))))
     = historyView (run sampleFriendly sampleWardrobe ops (handleModelFinalized avatar s0))
  /\ currentOutfitIndex
       (handleRedo
          (handleUndo (run sampleFriendly sampleWardrobe ops (handleModelFinalized avatar s0))))
     = currentOutfitIndex
         (run sampleFriendly sampleWardrobe ops (handleModelFinalized avatar s0))
  /\ handleRedo
       (handleUndo (run sampleFriendly sampleWardrobe ops (handleModelFinalized avatar s0)))
     = run sampleFriendly sampleWardrobe ops (handleModelFinalized avatar s0).
Proof.
  intros ops s0.
  assert (Hall : allSucceed sampleFriendly sampleWardrobe ops
                   (handleModelFinalized avatar s0) = true) by reflexivity.
  split; [exact Hall|].
  exact (undo_redo_round_trip sampleFriendly sampleWardrobe avatar ops s0 Hall).
Defined.

Lemma handlePoseSelect_rolls_back_witness :
  is_Some (requested (handlePoseSelect sampleFriendly 2 stateRewound))
  /\ let s' := complete (handlePoseSelect sampleFriendly 2 stateRewound)
                        (Throw (Error "quota exceeded")) in
     (currentPoseIndex <$> pendingState (handlePoseSelect sampleFriendly 2 stateRewound))
       = Some 2
     /\ currentPoseIndex s' = currentPoseIndex stateRewound
     /\ outfitHistory s' = outfitHistory stateRewound
     /\ historyView s' = historyView stateRewound
     /\ error s' = Some (sampleFriendly (Error "quota exceeded") "Failed to change pose")
     /\ isLoading s' = false.
Proof.
  assert (Hreq : is_Some (requested (handlePoseSelect sampleFriendly 2 stateRewound)))
    by (eexists; reflexivity).
  split; [exact Hreq|].
  exact (handlePoseSelect_rolls_back sampleFriendly 2 (Error "quota exceeded") stateRewound
           Hreq).
Defined.

Lemma displayImageUrl_defined_witness :
  let layer := {| garment := None; poseImages := 0 |} in
  outfitHistory stateBusy !! currentOutfitIndex stateBusy = Some layer
  /\ deref stateBusy (poseImages layer) <> []
  /\ is_Some (displayImageUrl stateBusy)
  /\ (forall image,
        pi_get (poseKey (currentPoseIndex stateBusy)) (deref stateBusy (poseImages layer))
        = Some image ->
        displayImageUrl stateBusy = Some image)
  /\ (~ In (poseKey (currentPoseIndex stateBusy))
          (pi_keys (deref stateBusy (poseImages layer))) ->
      displayImageUrl stateBusy = head (pi_values (deref stateBusy (poseImages layer)))).
Proof.
  intros layer.
  assert (Hlayer : outfitHistory stateBusy !! currentOutfitIndex stateBusy = Some layer)
    by reflexivity.
  assert (Hne : deref stateBusy (poseImages layer) <> []) by discriminate.
  split; [exact Hlayer|]. split; [exact Hne|].
  exact (displayImageUrl_defined stateBusy layer Hlayer Hne).
Defined.


Lemma handleRegenerate_frame_witness :
  wf stateShirtSideways
  /\ is_Some (requested (handleRegenerate sampleFriendly stateShirtSideways))
  /\ let s' := complete (handleRegenerate sampleFriendly stateShirtSideways) (Ok brighter) in
     outfitHistory s' = outfitHistory stateShirtSideways
     /\ currentOutfitIndex s' = currentOutfitIndex stateShirtSideways
     /\ currentPoseIndex s' = currentPoseIndex stateShirtSideways
     /\ exists currentLayer,
          outfitHistory stateShirtSideways !! currentOutfitIndex stateShirtSideways
          = Some currentLayer
          /\ pi_get (poseKey (currentPoseIndex stateShirtSideways))
               (deref s' (poseImages currentLayer))
             = Some brighter
          /\ (forall key, key <> poseKey (currentPoseIndex stateShirtSideways) ->
                pi_get key (deref s' (poseImages currentLayer))
                = pi_get key (deref stateShirtSideways (poseImages currentLayer)))
          /\ (forall j layer, j <> currentOutfitIndex stateShirtSideways ->
                outfitHistory stateShirtSideways !! j = Some layer ->
                layerView s' layer = layerView stateShirtSideways layer).
Proof.
  assert (Hwf : wf stateShirtSideways)
    by exact (reachable_wf sampleFriendly sampleWardrobe _ (sampleRun_reachable _)).
  assert (Hreq : is_Some (requested (handleRegenerate sampleFriendly stateShirtSideways)))
    by (eexists; reflexivity).
  split; [exact Hwf|]. split; [exact Hreq|].
  exact (handleRegenerate_frame sampleFriendly brighter stateShirtSideways Hwf Hreq).
Defined.

End AppFacts.

(** ** The generation service: requests *)

Module GeminiRequestsFacts.
Import GeminiService GeminiRequests GeminiServiceFacts.
Local Open Scope list_scope.

(** *** Splitting and matching *)

Lemma split_cons (c : Ascii.ascii) (s : string) :
  exists piece pieces, split c s = piece :: pieces.
Proof.
  induction s as [|a s (piece & pieces & IH)]; simpl; [eauto|].
  destruct (Ascii.eqb a c); [eauto|]. rewrite IH. eauto.
Qed.

Lemma split_lacks (c : Ascii.ascii) (s : string) :
  lacks c s = true -> split c s = [s].
Proof.
  induction s as [|a s IH]; simpl; [reflexivity|].
  intros [Ha Hs]%andb_true_iff. apply negb_true_iff in Ha. rewrite Ha, IH; auto.
Qed.

Lemma split_app_lacks (c : Ascii.ascii) (a rest : string) :
  lacks c a = true ->
  split c (a +:+ rest)
  = match split c rest with
    | piece :: pieces => (a +:+ piece) :: pieces
    | [] => [a]
    end.
Proof.
  induction a as [|x a IH].
  - intros _. change ("" +:+ rest) with rest.
    destruct (split_cons c rest) as (piece & pieces & Hs). rewrite Hs. reflexivity.
  - intros [Hx Ha]%andb_true_iff. apply negb_true_iff in Hx.
    change (String x a +:+ rest) with (String x (a +:+ rest)).
    cbn [split]. rewrite Hx, IH by exact Ha.
    destruct (split_cons c rest) as (piece & pieces & Hs). rewrite Hs. reflexivity.
Qed.

(** No piece of a split holds the separator, and there are two pieces or
    more exactly when the string holds it. *)
Lemma split_pieces_lack (c : Ascii.ascii) (s : string) :
  Forall (fun piece => lacks c piece = true) (split c s).
Proof.
  induction s as [|a s IH]; simpl; [repeat constructor|].
  destruct (Ascii.eqb a c) eqn:Ha; [constructor; [reflexivity | exact IH]|].
  destruct (split c s) as [|piece pieces]; [repeat constructor; simpl; now rewrite Ha|].
  inversion IH; subst. constructor; [simpl; rewrite Ha; simpl; assumption | assumption].
Qed.

Lemma split_single (c : Ascii.ascii) (s : string) :
  (exists piece, split c s = [piece]) <-> lacks c s = true.
Proof.
  split.
  - induction s as [|a s IH]; cbn [split lacks]; intros [piece Heq]; [reflexivity|].
    destruct (Ascii.eqb a c) eqn:Ha; cbn [negb andb].
    + destruct (split_cons c s) as (p & ps & Hs). rewrite Hs in Heq. discriminate.
    + apply IH. destruct (split_cons c s) as (p & ps & Hs). rewrite Hs in *.
      inversion Heq; subst. eauto.
  - intros H. rewrite (split_lacks c s H). eauto.
Qed.

Lemma lacks_app (c : Ascii.ascii) (a b : string) :
  lacks c (a +:+ b) = lacks c a && lacks c b.
Proof.
  induction a as [|x a IH]; [reflexivity|].
  change (String x a +:+ b) with (String x (a +:+ b)). cbn [lacks].
  now rewrite IH, andb_assoc.
Qed.

Lemma lazyToSemicolon_app (m rest : string) :
  lacks (Ascii.ascii_of_nat 59) m = true ->
  lacks (Ascii.ascii_of_nat 10) m = true ->
  lacks (Ascii.ascii_of_nat 13) m = true ->
  lazyToSemicolon (m +:+ String (Ascii.ascii_of_nat 59) rest) = Some m.
Proof.
  induction m as [|x m IH]; [reflexivity|].
  change (String x m +:+ String (Ascii.ascii_of_nat 59) rest)
    with (String x (m +:+ String (Ascii.ascii_of_nat 59) rest)).
  cbn [lacks lazyToSemicolon].
  intros [H1 H1']%andb_true_iff [H2 H2']%andb_true_iff [H3 H3']%andb_true_iff.
  apply negb_true_iff in H1, H2, H3.
  unfold isLineTerminator. rewrite H1, H2, H3. cbn [orb]. now rewrite IH.
Qed.

(** The group of a match is free of semicolons and line ends, and of
    whatever the matched string is free of. *)
Lemma lazyToSemicolon_group (s group : string) :
  lazyToSemicolon s = Some group ->
  lacks (Ascii.ascii_of_nat 59) group = true
  /\ lacks (Ascii.ascii_of_nat 10) group = true
  /\ lacks (Ascii.ascii_of_nat 13) group = true
  /\ forall c, lacks c s = true -> lacks c group = true.
Proof.
  revert group. induction s as [|x s IH]; simpl; [discriminate|]. intros group.
  destruct (Ascii.eqb x (Ascii.ascii_of_nat 59)) eqn:H1.
  - intros [= <-]. simpl. auto.
  - unfold isLineTerminator.
    destruct (Ascii.eqb x (Ascii.ascii_of_nat 10)) eqn:H2; [discriminate|].
    destruct (Ascii.eqb x (Ascii.ascii_of_nat 13)) eqn:H3; [discriminate|]. simpl.
    destruct (lazyToSemicolon s) as [g|]; [|discriminate].
    intros [= <-]. destruct (IH g eq_refl) as (I1 & I2 & I3 & I4).
    simpl. rewrite H1, H2, H3, I1, I2, I3. simpl. repeat split; try reflexivity.
    intros c [Hx Hs]%andb_true_iff. rewrite Hx. simpl. auto.
Qed.

Lemma mimeMatch_group (s group : string) :
  mimeMatch s = Some group ->
  lacks (Ascii.ascii_of_nat 59) group = true
  /\ lacks (Ascii.ascii_of_nat 10) group = true
  /\ lacks (Ascii.ascii_of_nat 13) group = true
  /\ forall c, lacks c s = true -> lacks c group = true.
Proof.
  induction s as [|x s IH]; simpl; [discriminate|].
  assert (Hrest : mimeMatch s = Some group ->
                  lacks (Ascii.ascii_of_nat 59) group = true
                  /\ lacks (Ascii.ascii_of_nat 10) group = true
                  /\ lacks (Ascii.ascii_of_nat 13) group = true
                  /\ forall c, lacks c (String x s) = true -> lacks c group = true).
  { intros H. destruct (IH H) as (I1 & I2 & I3 & I4). repeat split; try assumption.
    intros c [_ Hs]%andb_true_iff. auto. }
  destruct (Ascii.eqb x (Ascii.ascii_of_nat 58)); [|exact Hrest].
  destruct (lazyToSemicolon s) as [g|] eqn:Hg; [|exact Hrest].
  intros [= <-]. destruct (lazyToSemicolon_group s g Hg) as (I1 & I2 & I3 & I4).
  repeat split; try assumption. intros c [_ Hs]%andb_true_iff. auto.
Qed.

Lemma cleanMime_spec (m : string) :
  cleanMime m = true <->
  m <> "" /\ lacks (Ascii.ascii_of_nat 44) m = true
  /\ lacks (Ascii.ascii_of_nat 59) m = true
  /\ lacks (Ascii.ascii_of_nat 10) m = true /\ lacks (Ascii.ascii_of_nat 13) m = true.
Proof.
  unfold cleanMime. rewrite !andb_true_iff, negb_true_iff, String.eqb_neq. tauto.
Qed.

Lemma dataUrlToParts_encoded (m d : string) :
  cleanMime m = true -> lacks (Ascii.ascii_of_nat 44) d = true ->
  dataUrlToParts (dataUrl {| mimeType := Some m; data := Some d |})
  = Returns {| mimeType := Some m; data := Some d |}.
Proof.
  intros (Hne & Hcomma & Hsemi & Hlf & Hcr)%cleanMime_spec Hd.
  unfold dataUrlToParts, dataUrl. simpl interpolate.
  rewrite (split_app_lacks _ "data:") by reflexivity.
  rewrite (split_app_lacks _ m) by exact Hcomma.
  change (";base64," +:+ d) with (";base64" +:+ String (Ascii.ascii_of_nat 44) d).
  rewrite (split_app_lacks _ ";base64") by reflexivity.
  simpl (split _ (String _ d)). rewrite (split_lacks _ d Hd).
  change (mimeMatch ("data:" +:+ m +:+ ";base64" +:+ ""))
    with (match lazyToSemicolon (m +:+ String (Ascii.ascii_of_nat 59) "base64") with
          | Some group => Some group
          | None => mimeMatch (m +:+ String (Ascii.ascii_of_nat 59) "base64")
          end).
  rewrite (lazyToSemicolon_app m "base64" Hsemi Hlf Hcr).
  apply String.eqb_neq in Hne. now rewrite Hne.
Qed.

(** *** Data URLs *)

(** X1. What [handleApiResponse] makes of an inline image is read back by
    [dataUrlToPart] as the same MIME type and data, when the MIME type is not
    empty and has no comma, semicolon or line end, and the data has no
    comma. *)
Theorem dataUrl_round_trip (img : InlineData) :
  cleanMime (interpolate (mimeType img)) = true ->
  lacks (Ascii.ascii_of_nat 44) (interpolate (data img)) = true ->
  dataUrlToPart (dataUrl img)
  = Returns {| inlineData := Some {| mimeType := Some (interpolate (mimeType img));
                                     data := Some (interpolate (data img)) |};
               partText := None |}.
Proof.
  intros Hm Hd. unfold dataUrlToPart.
  change (dataUrl img)
    with (dataUrl {| mimeType := Some (interpolate (mimeType img));
                     data := Some (interpolate (data img)) |}).
  now rewrite (dataUrlToParts_encoded _ _ Hm Hd).
Qed.

Lemma dataUrlToParts_returns (url : string) (img : InlineData) :
  dataUrlToParts url = Returns img ->
  exists m d,
    img = {| mimeType := Some m; data := Some d |}
    /\ cleanMime m = true
    /\ lacks (Ascii.ascii_of_nat 44) d = true
    /\ lacks (Ascii.ascii_of_nat 44) url = false.
Proof.
  unfold dataUrlToParts. intros H.
  pose proof (split_pieces_lack (Ascii.ascii_of_nat 44) url) as Hpieces.
  destruct (lacks (Ascii.ascii_of_nat 44) url) eqn:Hurl.
  { rewrite (split_lacks _ _ Hurl) in H. discriminate. }
  destruct (split (Ascii.ascii_of_nat 44) url) as [|head [|body rest]]; try discriminate.
  inversion Hpieces as [|? ? Hhead Htail]; subst.
  inversion Htail as [|? ? Hbody _]; subst.
  destruct (mimeMatch head) as [group|] eqn:Hmatch; [|discriminate].
  destruct (String.eqb group "") eqn:Hempty; [discriminate|].
  injection H as <-. exists group, body.
  destruct (mimeMatch_group head group Hmatch) as (H1 & H2 & H3 & H4).
  split; [reflexivity|]. split; [|split; [exact Hbody | reflexivity]].
  apply cleanMime_spec. apply String.eqb_neq in Hempty. auto.
Qed.

(** X2. Whatever [dataUrlToParts] returns has a non-empty MIME type without
    comma, semicolon or line end and data without comma, so that writing it
    as a data URL again and parsing that gives the same parts; and it
    returns only for a URL that holds a comma. *)
Theorem dataUrlToParts_normalises (url : string) (img : InlineData) :
  dataUrlToParts url = Returns img ->
  cleanMime (interpolate (mimeType img)) = true
  /\ lacks (Ascii.ascii_of_nat 44) (interpolate (data img)) = true
  /\ lacks (Ascii.ascii_of_nat 44) url = false
  /\ dataUrlToParts (dataUrl img) = Returns img.
Proof.
  intros H. destruct (dataUrlToParts_returns url img H) as (m & d & -> & Hm & Hd & Hurl).
  simpl. repeat split; try assumption. now apply dataUrlToParts_encoded.
Qed.

(** X3. [dataUrlToParts] throws "Invalid data URL" exactly for the strings
    without a comma; with a comma it returns or throws "Could not parse MIME
    type from data URL". *)
Theorem dataUrlToParts_invalid_iff (url : string) :
  (dataUrlToParts url = Fails (Raised (Error "Invalid data URL"))
   <-> lacks (Ascii.ascii_of_nat 44) url = true)
  /\ (lacks (Ascii.ascii_of_nat 44) url = false ->
      (exists img, dataUrlToParts url = Returns img)
      \/ dataUrlToParts url
         = Fails (Raised (Error "Could not parse MIME type from data URL"))).
Proof.
  unfold dataUrlToParts.
  destruct (lacks (Ascii.ascii_of_nat 44) url) eqn:Hurl.
  - rewrite (split_lacks _ _ Hurl). split; [tauto | discriminate].
  - assert (Htwo : exists head body rest,
               split (Ascii.ascii_of_nat 44) url = head :: body :: rest).
    { destruct (split_cons (Ascii.ascii_of_nat 44) url) as (head & pieces & Hs).
      destruct pieces as [|body rest]; [|eauto].
      assert (Hone : lacks (Ascii.ascii_of_nat 44) url = true)
        by (apply split_single; eauto).
      congruence. }
    destruct Htwo as (head & body & rest & ->).
    destruct (mimeMatch head) as [group|]; [destruct (String.eqb group "")|];
      (split; [split; discriminate | intros _; eauto]).
Qed.

(** *** Answers and calls *)

Lemma find_first_inline (ps1 ps2 : list Part) (part : Part) (img : InlineData) :
  Forall (fun q => inlineData q = None) ps1 -> inlineData part = Some img ->
  List.find (fun q => bool_decide (is_Some (inlineData q))) (ps1 ++ part :: ps2) = Some part.
Proof.
  intros Hnone Hpart. induction Hnone as [|q ps1 Hq _ IH]; simpl.
  - rewrite bool_decide_eq_true_2; [reflexivity | rewrite Hpart; eauto].
  - rewrite bool_decide_eq_false_2; [exact IH|]. rewrite Hq. intros [x Hx]. discriminate.
Qed.

Lemma imagePartOf_none (candidate : Candidate) :
  (forall ct ps, content candidate = Some ct -> parts ct = Some ps ->
                 Forall (fun q => inlineData q = None) ps) ->
  imagePartOf candidate = None.
Proof.
  intros Hnone. destruct (imagePartOf candidate) as [img|] eqn:Himg; [|reflexivity].
  assert (Hsome : is_Some (imagePartOf candidate)) by (rewrite Himg; eauto).
  apply imagePartOf_is_Some in Hsome as (ct & part & ps & Hct & Hps & Hin & [x Hx]).
  specialize (Hnone ct ps Hct Hps). rewrite Forall_forall in Hnone.
  rewrite (Hnone part Hin) in Hx. discriminate.
Qed.

(** X4. Without a block reason, [handleApiResponse] returns the first inline
    part of the first candidate that has one: candidates before it without
    inline data, and parts before it in its own candidate, are passed over,
    and what comes after is not looked at. *)
Theorem handleApiResponse_first_image (trim : string -> string)
    (response : GenerateContentResponse) (before after : list Candidate)
    (candidate : Candidate) (ct : Content) (ps1 ps2 : list Part) (part : Part)
    (img : InlineData) :
  ~ blockReasonPresent response ->
  candidates response = Some (before ++ candidate :: after) ->
  Forall (fun c => forall ct' ps, content c = Some ct' -> parts ct' = Some ps ->
                                  Forall (fun q => inlineData q = None) ps) before ->
  content candidate = Some ct ->
  parts ct = Some (ps1 ++ part :: ps2) ->
  Forall (fun q => inlineData q = None) ps1 ->
  inlineData part = Some img ->
  handleApiResponse trim response = Ok (dataUrl img).
Proof.
  intros Hblock Hcs Hbefore Hct Hps Hps1 Hpart.
  unfold handleApiResponse.
  destruct (truthy (responseBlockReason response)) eqn:Ht.
  { apply truthy_blockReason in Ht. contradiction. }
  rewrite Hcs. simpl default. clear Hcs.
  assert (Hfirst : firstImage (before ++ candidate :: after) = Some img).
  { induction Hbefore as [|c before Hc _ IH]; simpl.
    - unfold imagePartOf. rewrite Hct, Hps, (find_first_inline _ _ _ _ Hps1 Hpart), Hpart.
      reflexivity.
    - rewrite (imagePartOf_none c Hc). exact IH. }
  now rewrite Hfirst.
Qed.

Lemma handleApiResponse_Ok (trim : string -> string) (response : GenerateContentResponse)
    (url : string) :
  handleApiResponse trim response = Ok url -> exists img, url = dataUrl img.
Proof.
  unfold handleApiResponse.
  destruct (truthy (responseBlockReason response)); [discriminate|].
  destruct (firstImage _) as [img|]; [intros [= <-]; eauto|].
  cbv zeta. destruct (_ && _); discriminate.
Qed.

Lemma dataUrl_shape (img : InlineData) :
  String.prefix "data:" (dataUrl img) = true
  /\ dataUrl img <> ""
  /\ lacks (Ascii.ascii_of_nat 44) (dataUrl img) = false.
Proof.
  unfold dataUrl. split; [apply prefix_append|]. split; [discriminate|].
  rewrite !lacks_app. simpl. now rewrite !andb_false_r.
Qed.

Section Calls.

Variable trim : string -> string.
Variable readAsDataURL : string -> Outcome string.
Variable generateContent : GenerateContentParameters -> Outcome GenerateContentResponse.

Lemma askModel_Returns (requestParts : list Part) (url : string) :
  askModel trim generateContent requestParts = Returns url -> exists img, url = dataUrl img.
Proof.
  unfold askModel, andThen.
  destruct (generateContent _) as [response|why]; [|discriminate].
  destruct (handleApiResponse trim response) as [image|err] eqn:Hr; [|discriminate].
  intros [= <-]. eapply handleApiResponse_Ok, Hr.
Qed.

Lemma invoke_Returns (call : Call) (url : string) :
  invoke trim readAsDataURL generateContent call = Returns url ->
  exists img, url = dataUrl img.
Proof.
  destruct call as [userImage|modelImageUrl garmentImage|tryOnImageUrl poseInstruction
                    |baseImageUrl instruction sceneImage]; simpl;
    unfold generateModelImage, generateVirtualTryOnImage, generatePoseVariation,
      adjustImage, andThen;
    repeat (case_match; try discriminate); apply askModel_Returns.
Qed.

(** X5. Whatever one of the four generation functions returns is a data URL:
    it starts with "data:", is not empty and holds a comma, so that
    [dataUrlToParts] never rejects it as an invalid data URL when it is the
    base image of the next call. *)
Theorem invoke_returns_data_url (call : Call) (url : string) :
  invoke trim readAsDataURL generateContent call = Returns url ->
  String.prefix "data:" url = true
  /\ url <> ""
  /\ dataUrlToParts url <> Fails (Raised (Error "Invalid data URL")).
Proof.
  intros H. destruct (invoke_Returns call url H) as [img ->].
  destruct (dataUrl_shape img) as (Hprefix & Hne & Hcomma).
  split; [exact Hprefix|]. split; [exact Hne|].
  intros Hinvalid. unfold dataUrlToParts in Hinvalid.
  destruct (split_cons (Ascii.ascii_of_nat 44) (dataUrl img)) as (head & pieces & Hs).
  destruct pieces as [|body rest].
  - assert (Hone : lacks (Ascii.ascii_of_nat 44) (dataUrl img) = true)
      by (apply split_single; eauto).
    congruence.
  - rewrite Hs in Hinvalid.
    destruct (mimeMatch head) as [group|]; [destruct (String.eqb group "")|];
      discriminate.
Qed.

(** X6. A base image without a comma makes the try-on, the pose variation and
    the adjustment fail with "Invalid data URL", whatever the file reader
    and the model would do: the garment or scene file is not read and the
    model is not asked. *)
Theorem invoke_invalid_base (call : Call) (base : string) :
  baseImageOf call = Some base ->
  lacks (Ascii.ascii_of_nat 44) base = true ->
  invoke trim readAsDataURL generateContent call
  = Fails (Raised (Error "Invalid data URL")).
Proof.
  intros Hbase Hcomma.
  destruct call as [userImage|modelImageUrl garmentImage|tryOnImageUrl poseInstruction
                    |baseImageUrl instruction sceneImage]; simpl in *;
    try discriminate; injection Hbase as ->;
    unfold generateVirtualTryOnImage, generatePoseVariation, adjustImage, dataUrlToPart,
      dataUrlToParts; rewrite (split_lacks _ _ Hcomma); reflexivity.
Qed.

End Calls.

(** The theorems above on sample data. *)

Lemma dataUrl_round_trip_witness :
  let img := {| mimeType := Some "image/png"; data := Some "iVBORw0KGgo=" |} in
  cleanMime (interpolate (mimeType img)) = true
  /\ lacks (Ascii.ascii_of_nat 44) (interpolate (data img)) = true
  /\ dataUrlToPart (dataUrl img)
     = Returns {| inlineData := Some {| mimeType := Some (interpolate (mimeType img));
                                        data := Some (interpolate (data img)) |};
                  partText := None |}.
Proof.
  intros img.
  assert (Hm : cleanMime (interpolate (mimeType img)) = true) by reflexivity.
  assert (Hd : lacks (Ascii.ascii_of_nat 44) (interpolate (data img)) = true) by reflexivity.
  split; [exact Hm|]. split; [exact Hd|]. exact (dataUrl_round_trip img Hm Hd).
Defined.

Lemma dataUrlToParts_normalises_witness :
  let url := "data:image/jpeg;charset=binary;base64,AAAA,BBBB" in
  let img := {| mimeType := Some "image/jpeg"; data := Some "AAAA" |} in
  dataUrlToParts url = Returns img
  /\ cleanMime (interpolate (mimeType img)) = true
  /\ lacks (Ascii.ascii_of_nat 44) (interpolate (data img)) = true
  /\ lacks (Ascii.ascii_of_nat 44) url = false
  /\ dataUrlToParts (dataUrl img) = Returns img.
Proof.
  intros url img.
  assert (H : dataUrlToParts url = Returns img) by reflexivity.
  split; [exact H|]. exact (dataUrlToParts_normalises url img H).
Defined.

Lemma handleApiResponse_first_image_witness :
  ~ blockReasonPresent twoCandidates
  /\ handleApiResponse asciiTrim twoCandidates
     = Ok (dataUrl {| mimeType := Some "image/png"; data := Some "iVBORw0KGgo=" |}).
Proof.
  assert (Hblock : ~ blockReasonPresent twoCandidates).
  { intros (feedback & reason & Hf & _). discriminate. }
  split; [exact Hblock|].
  refine (handleApiResponse_first_image asciiTrim twoCandidates
            [ {| content := Some {| parts := Some [textPart "Here is your portrait."] |};
                 finishReason := Some "STOP" |} ]
            []
            {| content := Some {| parts := Some [textPart "Two takes."; pngPart; jpegPart] |};
               finishReason := Some "STOP" |}
            {| parts := Some [textPart "Two takes."; pngPart; jpegPart] |}
            [textPart "Two takes."] [jpegPart] pngPart
            {| mimeType := Some "image/png"; data := Some "iVBORw0KGgo=" |}
            Hblock eq_refl _ eq_refl eq_refl _ eq_refl).
  - constructor; [|constructor]. intros ct' ps Hct Hps.
    injection Hct as <-. injection Hps as <-. repeat constructor.
  - repeat constructor.
Defined.

Lemma invoke_returns_data_url_witness :
  let call := CallPoseVariation "data:image/png;base64,AAAA" "Side profile, looking thoughtful" in
  invoke asciiTrim sampleReader sampleModel call = Returns "data:image/png;base64,AAAA"
  /\ String.prefix "data:" "data:image/png;base64,AAAA" = true
  /\ "data:image/png;base64,AAAA" <> ""
  /\ dataUrlToParts "data:image/png;base64,AAAA" <> Fails (Raised (Error "Invalid data URL")).
Proof.
  intros call.
  assert (H : invoke asciiTrim sampleReader sampleModel call
              = Returns "data:image/png;base64,AAAA") by reflexivity.
  split; [exact H|].
  exact (invoke_returns_data_url asciiTrim sampleReader sampleModel call _ H).
Defined.

Lemma invoke_invalid_base_witness :
  let call := CallVirtualTryOn "https://example.org/portrait.png" "shirt.png" in
  baseImageOf call = Some "https://example.org/portrait.png"
  /\ lacks (Ascii.ascii_of_nat 44) "https://example.org/portrait.png" = true
  /\ invoke asciiTrim sampleReader sampleModel call
     = Fails (Raised (Error "Invalid data URL")).
Proof.
  intros call.
  assert (Hb : baseImageOf call = Some "https://example.org/portrait.png") by reflexivity.
  assert (Hc : lacks (Ascii.ascii_of_nat 44) "https://example.org/portrait.png" = true)
    by reflexivity.
  split; [exact Hb|]. split; [exact Hc|].
  exact (invoke_invalid_base asciiTrim sampleReader sampleModel call _ Hb Hc).
Defined.

End GeminiRequestsFacts.

(** ** Sessions of the outfit history *)

Module AppSessionFacts.
Import App AppFacts.
Local Open Scope list_scope.

Ltac unfold_handlers :=
  unfold handleGarmentSelect, handlePoseSelect, handleImageAdjustment, handleRegenerate,
    handleUndo, handleRedo, handleStartOver, handleModelFinalized, storePoseImage.

Ltac handler_cases := repeat (case_match; simpl in * ).

Lemma pi_set_nonempty (key value : string) (obj : PoseImages) : pi_set key value obj <> [].
Proof. destruct obj as [|[k v] rest]; simpl; [|destruct (String.eqb k key)]; discriminate. Qed.

Lemma pi_set_values (key value : string) (obj : PoseImages) :
  value <> "" -> Forall (fun entry => snd entry <> "") obj ->
  Forall (fun entry => snd entry <> "") (pi_set key value obj).
Proof.
  intros Hv Hall. induction Hall as [|[k v] rest Hkv Hrest IH]; simpl.
  - repeat constructor. exact Hv.
  - destruct (String.eqb k key); constructor; auto.
Qed.

Lemma pi_get_nonempty (key image : string) (obj : PoseImages) :
  Forall (fun entry => snd entry <> "") obj -> pi_get key obj = Some image -> image <> "".
Proof.
  intros Hall. induction Hall as [|[k v] rest Hkv _ IH]; simpl; [discriminate|].
  destruct (String.eqb k key); [intros [= <-]; exact Hkv | exact IH].
Qed.

Section Sessions.

Variable getFriendlyErrorMessage : Thrown -> string -> string.
Variable defaultWardrobe : list WardrobeItem.

#[local] Abbreviation perform' := (perform getFriendlyErrorMessage defaultWardrobe).
#[local] Abbreviation reachable' := (reachable getFriendlyErrorMessage defaultWardrobe).
#[local] Abbreviation run' := (run getFriendlyErrorMessage defaultWardrobe).





Lemma appendLayer_nonempty (index : nat) (layer : OutfitLayer) (history : list OutfitLayer) :
  appendLayer index layer history <> [].
Proof. unfold appendLayer. destruct (take (index + 1) history); discriminate. Qed.




(** *** Requests *)

(** X13. Whichever of the four generating handlers has asked the service,
    if the call fails the handler leaves the history, the images, the cursor,
    the pose index and the wardrobe as they were before it ran, puts the
    message made from the failure and its own context in [error], and clears
    the busy flag and the loading message. *)
Theorem failed_request_changes_nothing
    (op : Operation) (st : Step) (err : Thrown) (s : State) :
  asyncStep getFriendlyErrorMessage op s = Some st ->
  is_Some (requested st) ->
  outfitHistory (complete st (Throw err)) = outfitHistory s
  /\ objects (complete st (Throw err)) = objects s
  /\ currentOutfitIndex (complete st (Throw err)) = currentOutfitIndex s
  /\ currentPoseIndex (complete st (Throw err)) = currentPoseIndex s
  /\ wardrobe (complete st (Throw err)) = wardrobe s
  /\ modelImageUrl (complete st (Throw err)) = modelImageUrl s
  /\ error (complete st (Throw err))
     = Some (getFriendlyErrorMessage err (failureContext op))
  /\ isLoading (complete st (Throw err)) = false
  /\ loadingMessage (complete st (Throw err)) = "".
Proof.
  destruct op as [url|file info reply|i reply|prompt scene reply|reply| | |]; simpl;
    try discriminate; intros [= <-]; unfold_handlers;
    handler_cases; intros [request Hreq]; try discriminate; repeat split; reflexivity.
Qed.

(** *** Undo and redo *)

(** X15. [canUndo] and [canRedo] say exactly when the handlers move: where
    one is false its handler returns the state unchanged, where [canRedo]
    holds redo followed by undo comes back to the same state, and where
    [canUndo] holds on a cursor inside the history so does undo followed by
    redo. *)
Theorem undo_redo_guards (s : State) :
  (canUndo s = false -> handleUndo s = s)
  /\ (canRedo s = false -> handleRedo s = s)
  /\ (canRedo s = true -> handleUndo (handleRedo s) = s)
  /\ (canUndo s = true -> currentOutfitIndex s < length (outfitHistory s) ->
      handleRedo (handleUndo s) = s).
Proof.
  unfold canUndo, canRedo, handleUndo, handleRedo.
  destruct s as [m h k l msg e p c w o]. simpl.
  split; [intros ->; reflexivity|]. split; [intros ->; reflexivity|]. split.
  - intros Hredo. rewrite Hredo. simpl.
    replace (Nat.ltb 0 (k + 1)) with true by (symmetry; apply Nat.ltb_lt; lia).
    unfold setCurrentOutfitIndex. simpl. f_equal. lia.
  - intros Hundo Hlt. rewrite Hundo. simpl.
    apply Nat.ltb_lt in Hundo.
    match goal with |- context [Z.ltb ?a ?b] => destruct (Z.ltb_spec a b) end; [|lia].
    unfold setCurrentOutfitIndex. simpl. f_equal. lia.
Qed.

Lemma iter_handleUndo (n : nat) (s : State) :
  Nat.iter n handleUndo s = setCurrentOutfitIndex (fun k => k - n) s.
Proof.
  induction n as [|n IH]; simpl.
  - destruct s. unfold setCurrentOutfitIndex. simpl. f_equal. lia.
  - rewrite IH. unfold handleUndo, setCurrentOutfitIndex. simpl.
    destruct (Nat.ltb_spec 0 (currentOutfitIndex s - n)); simpl; f_equal; lia.
Qed.

Lemma iter_handleRedo (n : nat) (s : State) :
  currentOutfitIndex s < length (outfitHistory s) ->
  Nat.iter n handleRedo s
  = setCurrentOutfitIndex
      (fun k => Nat.min (k + n) (length (outfitHistory s) - 1)) s.
Proof.
  intros Hlt. induction n as [|n IH]; simpl.
  - destruct s. unfold setCurrentOutfitIndex. simpl in *. f_equal. lia.
  - rewrite IH. unfold handleRedo, setCurrentOutfitIndex. simpl.
    match goal with |- context [Z.ltb ?a ?b] => destruct (Z.ltb_spec a b) end;
      simpl; f_equal; lia.
Qed.

(** X16. Undo pressed n times moves the cursor n layers back and stops on
    layer 0; redo pressed n times, from a cursor on the history, moves it n
    layers forward and stops on the last layer. Nothing else changes, so as
    many redos as undos return to the starting layer whenever the undos did
    not hit layer 0. *)
Theorem repeated_undo_redo (n : nat) (s : State) :
  currentOutfitIndex s < length (outfitHistory s) ->
  Nat.iter n handleUndo s = setCurrentOutfitIndex (fun k => k - n) s
  /\ Nat.iter n handleRedo s
     = setCurrentOutfitIndex
         (fun k => Nat.min (k + n) (length (outfitHistory s) - 1)) s
  /\ (n <= currentOutfitIndex s -> Nat.iter n handleRedo (Nat.iter n handleUndo s) = s).
Proof.
  intros Hlt. split; [apply iter_handleUndo|]. split; [now apply iter_handleRedo|].
  intros Hn. rewrite iter_handleUndo, iter_handleRedo by (simpl; lia).
  destruct s as [m h k l msg e p c w o]. unfold setCurrentOutfitIndex. simpl in *.
  f_equal. lia.
Qed.

(** *** Pose variants *)

Lemma poseKey_distinct (p q : nat) :
  p < length POSE_INSTRUCTIONS -> q < length POSE_INSTRUCTIONS -> p <> q ->
  poseKey p <> poseKey q.
Proof.
  intros Hp Hq Hne Heq. apply Hne.
  assert (Hnd : List.NoDup POSE_INSTRUCTIONS).
  { apply NoDup_ListNoDup. apply (bool_decide_unpack _). vm_compute. exact I. }
  exact (proj1 (List.NoDup_nth POSE_INSTRUCTIONS "undefined") Hnd p q Hp Hq Heq).
Qed.

Lemma handlePoseSelect_completes (newIndex : nat) (image : string) (s : State) :
  is_Some (requested (handlePoseSelect getFriendlyErrorMessage newIndex s)) ->
  exists currentLayer,
    outfitHistory s !! currentOutfitIndex s = Some currentLayer
    /\ complete (handlePoseSelect getFriendlyErrorMessage newIndex s) (Ok image)
       = finally
           (assignPoseImage (poseImages currentLayer) (poseKey newIndex) image
              (setCurrentPoseIndex newIndex
                 (setLoadingMessage "Changing pose..."
                    (setIsLoading true (setError None s))))).
Proof.
  intros [request Hreq].
  destruct (handlePoseSelect_requests _ _ _ _ Hreq)
    as (Hl & Hp & layer & base & Hlayer & Ht & Hb & Hne & _ & _).
  exists layer. split; [exact Hlayer|].
  unfold handlePoseSelect. rewrite Hl.
  destruct (Nat.eqb (length (outfitHistory s)) 0) eqn:Hlen.
  { apply Nat.eqb_eq in Hlen. apply lookup_lt_Some in Hlayer. lia. }
  apply Nat.eqb_neq in Hp. rewrite Hp. simpl. rewrite Hlayer, Ht, Hb.
  apply String.eqb_neq in Hne. rewrite Hne. simpl.
  unfold storePoseImage. simpl. now rewrite Hlayer.
Qed.

Lemma displayImageUrl_current (s : State) (layer : OutfitLayer) (image : string) :
  outfitHistory s !! currentOutfitIndex s = Some layer ->
  pi_get (poseKey (currentPoseIndex s)) (deref s (poseImages layer)) = Some image ->
  displayImageUrl s = Some image.
Proof.
  intros Hlayer Hget. unfold displayImageUrl.
  destruct (outfitHistory s) as [|l0 ls] eqn:Hh; [discriminate|].
  simpl Nat.eqb. cbv iota. now rewrite Hlayer, Hget.
Qed.

(** X17. A successful pose change (the service is asked and returns an image)
    adds the image to the current layer under the key of the new pose and
    selects that pose: the new image is displayed and its key is among
    [availablePoseKeys]; the other keys of the layer, the other layers, the
    sequence of layers and the cursor are as before. *)
Theorem pose_variant_added (newIndex : nat) (image : string) (s : State) :
  wf s ->
  is_Some (requested (handlePoseSelect getFriendlyErrorMessage newIndex s)) ->
  currentPoseIndex (complete (handlePoseSelect getFriendlyErrorMessage newIndex s) (Ok image))
    = newIndex
  /\ outfitHistory (complete (handlePoseSelect getFriendlyErrorMessage newIndex s) (Ok image))
     = outfitHistory s
  /\ currentOutfitIndex
       (complete (handlePoseSelect getFriendlyErrorMessage newIndex s) (Ok image))
     = currentOutfitIndex s
  /\ displayImageUrl
       (complete (handlePoseSelect getFriendlyErrorMessage newIndex s) (Ok image))
     = Some image
  /\ In (poseKey newIndex)
        (availablePoseKeys
           (complete (handlePoseSelect getFriendlyErrorMessage newIndex s) (Ok image)))
  /\ exists currentLayer,
       outfitHistory s !! currentOutfitIndex s = Some currentLayer
       /\ (forall key, key <> poseKey newIndex ->
             pi_get key
               (deref (complete (handlePoseSelect getFriendlyErrorMessage newIndex s)
                                (Ok image))
                      (poseImages currentLayer))
             = pi_get key (deref s (poseImages currentLayer)))
       /\ (forall j layer, j <> currentOutfitIndex s ->
             outfitHistory s !! j = Some layer ->
             layerView (complete (handlePoseSelect getFriendlyErrorMessage newIndex s)
                                 (Ok image)) layer
             = layerView s layer).
Proof.
  intros Hwf Hreq.
  destruct (handlePoseSelect_completes newIndex image s Hreq) as (layer & Hlayer & ->).
  pose proof (wf_in_store _ _ _ Hwf Hlayer) as Hin.
  set (s' := finally _).
  assert (Hcur : deref s' (poseImages layer)
                 = pi_set (poseKey newIndex) image (deref s (poseImages layer))).
  { exact (deref_assign_eq (poseImages layer) _ image _ Hin). }
  assert (Hlayer' : outfitHistory s' !! currentOutfitIndex s' = Some layer) by exact Hlayer.
  assert (Hget : pi_get (poseKey (currentPoseIndex s')) (deref s' (poseImages layer))
                 = Some image).
  { rewrite Hcur. apply pi_get_set_eq. }
  split; [reflexivity|]. split; [reflexivity|]. split; [reflexivity|].
  split; [exact (displayImageUrl_current s' layer image Hlayer' Hget)|].
  split.
  - unfold availablePoseKeys.
    destruct (outfitHistory s') as [|l0 ls] eqn:Hh; [discriminate|].
    simpl Nat.eqb. cbv iota. rewrite Hlayer'.
    apply pi_get_in_keys. exists image. exact Hget.
  - exists layer. split; [exact Hlayer|]. split.
    + intros key Hkey. rewrite Hcur. now apply pi_get_set_ne.
    + intros j other Hj Hother. unfold layerView. f_equal.
      transitivity
        (deref (assignPoseImage (poseImages layer) (poseKey newIndex) image s)
               (poseImages other)); [reflexivity|].
      apply deref_assign_ne. intros Heq. apply Hj.
      exact (wf_distinct s j _ other layer Hwf Hother Hlayer Heq).
Qed.

(** X18. Selecting a pose whose image the current layer already has (and
    nothing in flight) switches at once: no request, the pose index is the
    new one, that image is displayed, nothing else changes; and selecting
    the same pose again does nothing at all. *)
Theorem pose_switch_is_immediate
    (newIndex : nat) (layer : OutfitLayer) (image : string) (s : State) :
  isLoading s = false ->
  newIndex <> currentPoseIndex s ->
  outfitHistory s !! currentOutfitIndex s = Some layer ->
  pi_get (poseKey newIndex) (deref s (poseImages layer)) = Some image ->
  image <> "" ->
  handlePoseSelect getFriendlyErrorMessage newIndex s = Done (setCurrentPoseIndex newIndex s)
  /\ displayImageUrl (setCurrentPoseIndex newIndex s) = Some image
  /\ handlePoseSelect getFriendlyErrorMessage newIndex (setCurrentPoseIndex newIndex s)
     = Done (setCurrentPoseIndex newIndex s).
Proof.
  intros Hl Hp Hlayer Hget Hne.
  assert (Hlen : Nat.eqb (length (outfitHistory s)) 0 = false).
  { apply Nat.eqb_neq. apply lookup_lt_Some in Hlayer. lia. }
  split; [|split].
  - unfold handlePoseSelect. rewrite Hl, Hlen.
    apply Nat.eqb_neq in Hp. rewrite Hp. simpl. rewrite Hlayer, Hget. simpl.
    apply String.eqb_neq in Hne. now rewrite Hne.
  - now apply (displayImageUrl_current (setCurrentPoseIndex newIndex s) layer).
  - unfold handlePoseSelect. simpl. rewrite Hl, Hlen, Nat.eqb_refl. reflexivity.
Qed.

(** X19. Earlier variants are kept: after a pose of the catalogue has been
    generated from another pose of the catalogue whose image the layer has,
    selecting that earlier pose again asks nothing of the service and shows
    the image it had. *)
Theorem earlier_pose_is_kept
    (newIndex : nat) (image old : string) (layer : OutfitLayer) (s : State) :
  wf s ->
  currentPoseIndex s < length POSE_INSTRUCTIONS ->
  newIndex < length POSE_INSTRUCTIONS ->
  outfitHistory s !! currentOutfitIndex s = Some layer ->
  pi_get (poseKey (currentPoseIndex s)) (deref s (poseImages layer)) = Some old ->
  old <> "" ->
  is_Some (requested (handlePoseSelect getFriendlyErrorMessage newIndex s)) ->
  handlePoseSelect getFriendlyErrorMessage (currentPoseIndex s)
    (complete (handlePoseSelect getFriendlyErrorMessage newIndex s) (Ok image))
  = Done (setCurrentPoseIndex (currentPoseIndex s)
            (complete (handlePoseSelect getFriendlyErrorMessage newIndex s) (Ok image)))
  /\ displayImageUrl
       (setCurrentPoseIndex (currentPoseIndex s)
          (complete (handlePoseSelect getFriendlyErrorMessage newIndex s) (Ok image)))
     = Some old.
Proof.
  intros Hwf Hp Hq Hlayer Hold Hne Hreq.
  destruct Hreq as [request Hreq'].
  destruct (handlePoseSelect_requests _ _ _ _ Hreq') as (_ & Hdiff & _).
  destruct (handlePoseSelect_completes newIndex image s (ex_intro _ request Hreq'))
    as (layer' & Hlayer' & ->).
  rewrite Hlayer in Hlayer'. injection Hlayer' as <-.
  pose proof (wf_in_store _ _ _ Hwf Hlayer) as Hin.
  set (s' := finally _).
  assert (Hkeep : pi_get (poseKey (currentPoseIndex s)) (deref s' (poseImages layer))
                  = Some old).
  { transitivity (pi_get (poseKey (currentPoseIndex s))
                    (pi_set (poseKey newIndex) image (deref s (poseImages layer)))).
    - f_equal. exact (deref_assign_eq (poseImages layer) _ image _ Hin).
    - rewrite pi_get_set_ne; [exact Hold|]. now apply poseKey_distinct. }
  assert (Hl' : isLoading s' = false) by reflexivity.
  assert (Hp' : currentPoseIndex s <> currentPoseIndex s') by (simpl; congruence).
  assert (Hlayer' : outfitHistory s' !! currentOutfitIndex s' = Some layer) by exact Hlayer.
  assert (Hlen : Nat.eqb (length (outfitHistory s')) 0 = false).
  { apply Nat.eqb_neq. apply lookup_lt_Some in Hlayer'. lia. }
  split.
  - unfold handlePoseSelect. rewrite Hl', Hlen.
    apply Nat.eqb_neq in Hp'. rewrite Hp'. simpl orb. cbv iota.
    rewrite Hlayer', Hkeep. simpl truthy.
    apply String.eqb_neq in Hne. now rewrite Hne.
  - now apply (displayImageUrl_current (setCurrentPoseIndex (currentPoseIndex s) s') layer).
Qed.

(** *** New garments *)

Lemma elem_of_addToWardrobe (garmentInfo : WardrobeItem) (w : list WardrobeItem) :
  id garmentInfo ∈ (id <$> addToWardrobe garmentInfo w)
  /\ forall i, i ∈ (id <$> w) -> i ∈ (id <$> addToWardrobe garmentInfo w).
Proof.
  unfold addToWardrobe.
  destruct (List.find _ w) as [item|] eqn:Hfind.
  - split; [|auto]. apply List.find_some in Hfind as [Hin Heq].
    apply String.eqb_eq in Heq. rewrite <- Heq.
    apply list_elem_of_fmap. exists item. split; [reflexivity|].
    now apply list_elem_of_In.
  - rewrite fmap_app. split.
    + apply elem_of_app. right. simpl. left.
    + intros i Hi. apply elem_of_app. now left.
Qed.

(** X20. When the next layer is not the garment applied and the service
    returns an image, [handleGarmentSelect] asks for a try-on of the displayed
    image and leaves layers 0..k followed by one new layer with that garment
    and with the image under the current pose key. The cursor is on the new,
    last layer (redo is off, undo is on), the new image is displayed,
    [currentPoseIndex] stays as it was, and the wardrobe holds the
    garment. *)
Theorem garment_layer_appended
    (garmentFile : File) (garmentInfo : WardrobeItem) (image display : string) (s : State) :
  wf s ->
  displayImageUrl s = Some display -> display <> "" -> isLoading s = false ->
  currentOutfitIndex s < length (outfitHistory s) ->
  isNextGarment garmentInfo s = false ->
  requested (handleGarmentSelect getFriendlyErrorMessage garmentFile garmentInfo s)
    = Some (GenerateVirtualTryOnImage display garmentFile)
  /\ historyView
       (complete (handleGarmentSelect getFriendlyErrorMessage garmentFile garmentInfo s)
                 (Ok image))
     = take (currentOutfitIndex s + 1) (historyView s)
         ++ [(Some garmentInfo, [(poseKey (currentPoseIndex s), image)])]
  /\ currentOutfitIndex
       (complete (handleGarmentSelect getFriendlyErrorMessage garmentFile garmentInfo s)
                 (Ok image))
     = currentOutfitIndex s + 1
  /\ currentPoseIndex
       (complete (handleGarmentSelect getFriendlyErrorMessage garmentFile garmentInfo s)
                 (Ok image))
     = currentPoseIndex s
  /\ canRedo
       (complete (handleGarmentSelect getFriendlyErrorMessage garmentFile garmentInfo s)
                 (Ok image))
     = false
  /\ canUndo
       (complete (handleGarmentSelect getFriendlyErrorMessage garmentFile garmentInfo s)
                 (Ok image))
     = true
  /\ displayImageUrl
       (complete (handleGarmentSelect getFriendlyErrorMessage garmentFile garmentInfo s)
                 (Ok image))
     = Some image
  /\ id garmentInfo
       ∈ (id <$> wardrobe
                   (complete
                      (handleGarmentSelect getFriendlyErrorMessage garmentFile garmentInfo s)
                      (Ok image))).
Proof.
  intros [Hnd Hall] Hd Hne Hl Hlt Hnext.
  unfold handleGarmentSelect. rewrite Hd, Hl, Hnext.
  apply String.eqb_neq in Hne. rewrite Hne. simpl.
  split; [reflexivity|].
  assert (Hlen : length (take (currentOutfitIndex s + 1) (outfitHistory s))
                 = currentOutfitIndex s + 1) by (rewrite length_take; lia).
  split.
  { unfold historyView. simpl. unfold appendLayer.
    rewrite fmap_app, <- fmap_take. f_equal.
    - apply (layerView_grown s _ [[(poseKey (currentPoseIndex s), image)]]);
        [reflexivity | now apply Forall_take].
    - unfold layerView, deref. simpl. now rewrite list_lookup_middle. }
  split; [reflexivity|]. split; [reflexivity|].
  split.
  { unfold canRedo. simpl. unfold appendLayer. rewrite length_app, Hlen. simpl.
    apply Z.ltb_ge. lia. }
  split.
  { unfold canUndo. simpl. apply Nat.ltb_lt. lia. }
  split.
  { set (s' := finally _).
    apply (displayImageUrl_current s'
             {| garment := Some garmentInfo; poseImages := length (objects s) |}).
    - simpl. unfold appendLayer. apply list_lookup_middle. symmetry. exact Hlen.
    - unfold deref. simpl. rewrite list_lookup_middle by reflexivity. simpl.
      now rewrite String.eqb_refl. }
  simpl. exact (proj1 (elem_of_addToWardrobe garmentInfo (wardrobe s))).
Qed.

(** *** The garments worn *)

Lemma ids_of_layers (layers : list OutfitLayer) :
  filter (fun i => i <> "") (omap (fun layer => id <$> garment layer) layers)
  = concat (layerIds <$> layers).
Proof.
  induction layers as [|layer layers IH]; [reflexivity|].
  cbn [omap list_omap fmap list_fmap concat]. unfold layerIds at 1.
  destruct (garment layer) as [g|]; cbn [fmap option_fmap option_map]; [|exact IH].
  rewrite filter_cons. destruct (decide (id g = "")) as [Heq|Hne].
  - rewrite decide_False by tauto. exact IH.
  - rewrite decide_True by exact Hne. cbn [app]. now rewrite IH.
Qed.

Lemma activeGarmentIds_layers (s : State) :
  activeGarmentIds s
  = concat (layerIds <$> take (currentOutfitIndex s + 1) (outfitHistory s)).
Proof. apply ids_of_layers. Qed.

Lemma concat_layerIds_prefix (n m : nat) (history : list OutfitLayer) :
  n <= m ->
  concat (layerIds <$> take n history) `prefix_of` concat (layerIds <$> take m history).
Proof.
  intros Hnm. replace m with (n + (m - n)) by lia.
  rewrite <- take_take_drop, fmap_app, concat_app. now apply prefix_app_r.
Qed.

(** X21. Undo can only shorten the list of active garments and redo only
    lengthen it: the list after an undo is a prefix of the list before, and
    the list before a redo is a prefix of the list after. *)
Theorem activeGarmentIds_undo_redo (s : State) :
  activeGarmentIds (handleUndo s) `prefix_of` activeGarmentIds s
  /\ activeGarmentIds s `prefix_of` activeGarmentIds (handleRedo s).
Proof.
  rewrite !activeGarmentIds_layers. split.
  - unfold handleUndo. destruct (Nat.ltb 0 (currentOutfitIndex s)); [|reflexivity].
    simpl. apply concat_layerIds_prefix. lia.
  - unfold handleRedo. destruct (Z.ltb _ _); [|reflexivity].
    simpl. apply concat_layerIds_prefix. lia.
Qed.

Lemma activeGarmentIds_appended (s s' : State) (layer : OutfitLayer) :
  currentOutfitIndex s < length (outfitHistory s) ->
  outfitHistory s' = appendLayer (currentOutfitIndex s) layer (outfitHistory s) ->
  currentOutfitIndex s' = currentOutfitIndex s + 1 ->
  activeGarmentIds s' = activeGarmentIds s ++ layerIds layer.
Proof.
  intros Hlt Hh Hk. rewrite !activeGarmentIds_layers, Hh, Hk. unfold appendLayer.
  rewrite take_ge by (rewrite length_app, length_take; simpl; lia).
  rewrite fmap_app, concat_app. simpl. now rewrite app_nil_r.
Qed.

(** X22. A new garment adds its identifier at the end of the active garments,
    and an adjustment adds the identifier of the garment of the layer it
    adjusts, which is then listed once more (the list is no set). *)
Theorem activeGarmentIds_grow
    (garmentFile : File) (garmentInfo : WardrobeItem) (prompt : string)
    (sceneImage : option File) (image : string) (layer : OutfitLayer) (s : State) :
  ready s = true ->
  outfitHistory s !! currentOutfitIndex s = Some layer ->
  (isNextGarment garmentInfo s = false ->
   activeGarmentIds
     (complete (handleGarmentSelect getFriendlyErrorMessage garmentFile garmentInfo s)
               (Ok image))
   = activeGarmentIds s ++ layerIds {| garment := Some garmentInfo; poseImages := 0 |})
  /\ activeGarmentIds
       (complete (handleImageAdjustment getFriendlyErrorMessage prompt sceneImage s)
                 (Ok image))
     = activeGarmentIds s ++ layerIds layer.
Proof.
  intros Hready Hlayer.
  apply ready_spec in Hready as (display & Hd & Hne & Hl).
  pose proof (lookup_lt_Some _ _ _ Hlayer) as Hlt.
  apply String.eqb_neq in Hne.
  split.
  - intros Hnext.
    change (layerIds {| garment := Some garmentInfo; poseImages := 0 |})
      with (layerIds {| garment := Some garmentInfo; poseImages := length (objects s) |}).
    apply activeGarmentIds_appended; [exact Hlt| |];
      unfold handleGarmentSelect; rewrite Hd, Hl, Hnext, Hne; reflexivity.
  - change (layerIds layer)
      with (layerIds {| garment := garment layer; poseImages := length (objects s) |}).
    apply activeGarmentIds_appended; [exact Hlt| |];
      unfold handleImageAdjustment; rewrite Hd, Hl, Hne; simpl; rewrite Hlayer; reflexivity.
Qed.

(** *** The wardrobe and the history *)




End Sessions.

(** *** Handlers called while a request is pending *)

Section Interleaved.

Variable getFriendlyErrorMessage : Thrown -> string -> string.
Variable defaultWardrobe : list WardrobeItem.

#[local] Abbreviation advance' := (advance getFriendlyErrorMessage defaultWardrobe).
#[local] Abbreviation play' := (play getFriendlyErrorMessage defaultWardrobe).
#[local] Abbreviation liveUnder' := (liveUnder getFriendlyErrorMessage defaultWardrobe).

Ltac split_guards :=
  repeat match goal with
         | H : _ || _ = false |- _ => apply orb_false_elim in H; destruct H
         end.

Ltac invoke_solver :=
  handler_cases; intros; simplify_eq/=; split_guards;
  first [ solve [right; right; left; unfold sameData; repeat split; reflexivity]
        | solve [right; right; right; unfold sameData; repeat split; simpl; eauto] ].

(** What the call of a handler does: the initialisation, the reset, a change
    of the cursor, the pose index or the error only, or a request sent from
    an idle state, which sets the busy flag. *)
Lemma invoke_shape (op : Operation) (l l' : Live) :
  advance' (Invoke op) l = Some l' ->
  (exists url, op = Initialize url
     /\ rendered l' = handleModelFinalized url (rendered l)
     /\ inFlight l' = inFlight l)
  \/ (op = SessionReset
      /\ rendered l' = handleStartOver defaultWardrobe (rendered l)
      /\ inFlight l' = inFlight l)
  \/ (sameData (rendered l) (rendered l')
      /\ isLoading (rendered l') = isLoading (rendered l)
      /\ loadingMessage (rendered l') = loadingMessage (rendered l)
      /\ inFlight l' = inFlight l)
  \/ (sameData (rendered l) (rendered l')
      /\ isLoading (rendered l) = false
      /\ isLoading (rendered l') = true
      /\ is_Some (replyOf op)
      /\ inFlight l' = inFlight l ++ [mkPending op (rendered l)]).
Proof.
  unfold advance.
  destruct op as [url|file info reply|i reply|prompt scene reply|reply| | |];
    cbn [asyncStep perform].
  - intros [= <-]. left. eauto.
  - unfold handleGarmentSelect; invoke_solver.
  - unfold handlePoseSelect; invoke_solver.
  - unfold handleImageAdjustment; invoke_solver.
  - unfold handleRegenerate; invoke_solver.
  - intros [= <-]. right. right. left. unfold handleUndo, sameData.
    destruct (Nat.ltb _ _); repeat split; reflexivity.
  - intros [= <-]. right. right. left. unfold handleRedo, sameData.
    destruct (Z.ltb _ _); repeat split; reflexivity.
  - intros [= <-]. right. left. eauto.
Qed.

(** What the resumption of a handler does, in whatever state it finds: the
    busy flag and the loading message are cleared, and either nothing else
    of the data changes (the request failed), or a layer with a new object is
    appended after the captured index, or the image is assigned in the object
    of the layer at the captured index. *)
Lemma settles_shape (n : nat) (l l' : Live) :
  advance' (Settles n) l = Some l' ->
  exists p,
    inFlight l !! n = Some p
    /\ inFlight l' = delete n (inFlight l)
    /\ isLoading (rendered l') = false
    /\ loadingMessage (rendered l') = ""
    /\ modelImageUrl (rendered l') = modelImageUrl (rendered l)
    /\ ((outfitHistory (rendered l') = outfitHistory (rendered l)
         /\ objects (rendered l') = objects (rendered l)
         /\ wardrobe (rendered l') = wardrobe (rendered l))
        \/ (exists image g key,
              replyOf (caller p) = Some (Ok image)
              /\ objects (rendered l') = objects (rendered l) ++ [[(key, image)]]
              /\ outfitHistory (rendered l')
                 = appendLayer (currentOutfitIndex (captured p))
                     {| garment := g; poseImages := length (objects (rendered l)) |}
                     (outfitHistory (rendered l))
              /\ currentOutfitIndex (rendered l') = currentOutfitIndex (rendered l) + 1
              /\ ((exists info, g = Some info
                     /\ wardrobe (rendered l') = addToWardrobe info (wardrobe (rendered l)))
                  \/ (exists layer,
                        outfitHistory (captured p) !! currentOutfitIndex (captured p)
                        = Some layer
                        /\ g = garment layer
                        /\ wardrobe (rendered l') = wardrobe (rendered l))))
        \/ (exists image layer key,
              replyOf (caller p) = Some (Ok image)
              /\ outfitHistory (rendered l) !! currentOutfitIndex (captured p) = Some layer
              /\ objects (rendered l')
                 = alter (pi_set key image) (poseImages layer) (objects (rendered l))
              /\ outfitHistory (rendered l') = outfitHistory (rendered l)
              /\ wardrobe (rendered l') = wardrobe (rendered l))).
Proof.
  unfold advance. destruct (inFlight l !! n) as [[op cap]|] eqn:Hp; [|discriminate].
  cbn [caller captured].
  destruct (updaterThrows op cap (rendered l)) eqn:Hthrows; [discriminate|].
  intros H. exists (mkPending op cap). split; [reflexivity|]. revert H.
  destruct op as [url|file info reply|i reply|prompt scene reply|reply| | |];
    cbn [asyncStep replyOf caller captured]; try discriminate;
    destruct reply as [image|err];
    unfold handleGarmentSelect, handlePoseSelect, handleImageAdjustment, handleRegenerate,
      storePoseImage, updaterThrows in *;
    handler_cases; intros; simplify_eq/=;
    repeat match goal with
           | H : ?e = Some _ |- context [match ?e with _ => _ end] => rewrite H
           end; simpl;
    (split; [reflexivity|]); (split; [reflexivity|]); (split; [reflexivity|]);
    (split; [reflexivity|]).
  all: try solve [left; repeat split; reflexivity].
  all: try solve [right; left; do 3 eexists; repeat split; try reflexivity;
                  first [ left; eexists; split; reflexivity
                        | right; eexists; repeat split; eauto ]].
  all: solve [right; right; do 3 eexists; repeat split; try reflexivity; eauto].
Qed.

Lemma play_liveUnder (allowed : Tick -> Live -> bool) (ticks : list Tick) (l l' : Live) :
  liveUnder' allowed l -> play' allowed ticks l = Some l' -> liveUnder' allowed l'.
Proof.
  revert l. induction ticks as [|t rest IH]; simpl; intros l Hl.
  - intros [= <-]. exact Hl.
  - destruct (allowed t l) eqn:Hok; [|discriminate].
    destruct (advance' t l) as [l1|] eqn:Hadv; [|discriminate].
    apply IH. econstructor; eauto.
Qed.

(** **** The store *)

Lemma stored_appendLayer (s s' : State) (index : nat) (g : option WardrobeItem)
    (key image : string) :
  objects s' = objects s ++ [[(key, image)]] ->
  outfitHistory s'
  = appendLayer index {| garment := g; poseImages := length (objects s) |} (outfitHistory s) ->
  stored s -> stored s'.
Proof.
  intros Ho Hh [Hrefs Hobjs]. unfold stored, objectsNonEmpty. rewrite Ho, Hh. split.
  - unfold appendLayer. rewrite length_app. simpl. apply Forall_app. split.
    + apply Forall_take. eapply Forall_impl; [exact Hrefs|]. simpl. intros layer Hl. lia.
    + apply Forall_singleton. simpl. lia.
  - apply Forall_app. split; [exact Hobjs|]. repeat constructor. discriminate.
Qed.

Lemma stored_handleModelFinalized (url : string) (s : State) :
  objectsNonEmpty s -> stored (handleModelFinalized url s).
Proof.
  intros Hobjs. split; simpl.
  - apply Forall_singleton. simpl. rewrite length_app. simpl. lia.
  - unfold objectsNonEmpty. simpl. apply Forall_app. split; [exact Hobjs|].
    repeat constructor. discriminate.
Qed.

Lemma stored_advance (t : Tick) (l l' : Live) :
  advance' t l = Some l' -> stored (rendered l) -> stored (rendered l').
Proof.
  intros Hadv Hs. pose proof Hs as [Hrefs Hobjs]. destruct t as [op|n].
  - apply invoke_shape in Hadv
      as [(url & _ & -> & _)|[(_ & -> & _)
               |[((_ & Hh & Ho & _) & _)|((_ & Hh & Ho & _) & _)]]].
    + now apply stored_handleModelFinalized.
    + split; [constructor | exact Hobjs].
    + unfold stored, objectsNonEmpty. now rewrite Hh, Ho.
    + unfold stored, objectsNonEmpty. now rewrite Hh, Ho.
  - apply settles_shape in Hadv
      as (p & _ & _ & _ & _ & _
          & [(Hh & Ho & _)|[(image & g & key & _ & Ho & Hh & _)
                           |(image & layer & key & _ & Hlayer & Ho & Hh & _)]]).
    + unfold stored, objectsNonEmpty. now rewrite Hh, Ho.
    + exact (stored_appendLayer _ _ _ _ _ _ Ho Hh Hs).
    + unfold stored, objectsNonEmpty. rewrite Hh, Ho, length_alter. split; [exact Hrefs|].
      apply Forall_alter; [exact Hobjs|]. intros obj _ _. apply pi_set_nonempty.
Qed.

Lemma liveUnder_stored (allowed : Tick -> Live -> bool) (l : Live) :
  liveUnder' allowed l -> stored (rendered l).
Proof.
  induction 1 as [|t l l' _ IH _ Hadv]; [split; constructor|].
  exact (stored_advance t l l' Hadv IH).
Qed.

Lemma stored_layer (s : State) (layer : OutfitLayer) :
  stored s -> layer ∈ outfitHistory s ->
  exists obj, objects s !! poseImages layer = Some obj
              /\ deref s (poseImages layer) = obj /\ obj <> [].
Proof.
  intros [Hrefs Hobjs] Hin. rewrite Forall_forall in Hrefs.
  destruct (lookup_lt_is_Some_2 _ _ (Hrefs layer Hin)) as [obj Hobj].
  exists obj. split; [exact Hobj|]. split; [unfold deref; now rewrite Hobj|].
  unfold objectsNonEmpty in Hobjs. rewrite Forall_forall in Hobjs.
  apply Hobjs. eapply list_elem_of_lookup_2, Hobj.
Qed.

(** **** The model image and the history *)

Lemma model_history_advance (t : Tick) (l l' : Live) :
  advance' t l = Some l' ->
  (is_Some (modelImageUrl (rendered l)) -> outfitHistory (rendered l) <> []) ->
  is_Some (modelImageUrl (rendered l')) -> outfitHistory (rendered l') <> [].
Proof.
  intros Hadv IH. destruct t as [op|n].
  - apply invoke_shape in Hadv
      as [(url & _ & -> & _)|[(_ & -> & _)
               |[((Hm & Hh & _) & _)|((Hm & Hh & _) & _)]]].
    + intros _. discriminate.
    + intros [u Hu]. discriminate.
    + rewrite Hm, Hh. exact IH.
    + rewrite Hm, Hh. exact IH.
  - apply settles_shape in Hadv
      as (p & _ & _ & _ & _ & Hm
          & [(Hh & _)|[(image & g & key & _ & _ & Hh & _)|(image & layer & key & _ & _ & _ & Hh & _)]]);
      rewrite Hm, Hh; [exact IH | intros _; apply appendLayer_nonempty | exact IH].
Qed.

Lemma liveUnder_model_history (allowed : Tick -> Live -> bool) (l : Live) :
  liveUnder' allowed l ->
  is_Some (modelImageUrl (rendered l)) -> outfitHistory (rendered l) <> [].
Proof.
  induction 1 as [|t l l' _ IH _ Hadv]; [intros [u Hu]; discriminate|].
  exact (model_history_advance t l l' Hadv IH).
Qed.

(** X8. Whatever handlers are called while requests are pending, and in
    whatever order the requests settle, a model image never goes without a
    history: the dressing screen is shown only with at least one layer. (The
    converse fails: Start Over during a try-on leaves a layer and no model
    image, [reset_during_try_on].) *)
Theorem model_image_has_history (l : Live) :
  liveUnder' anyTick l ->
  is_Some (modelImageUrl (rendered l)) -> outfitHistory (rendered l) <> [].
Proof. apply liveUnder_model_history. Qed.

(** X9. Whatever handlers are called while requests are pending, with a
    model image there is an image to display: an image of the layer under the
    cursor, or the model image when the cursor is off the history. *)
Theorem display_on_dressing_screen (l : Live) (u : string) :
  liveUnder' anyTick l ->
  modelImageUrl (rendered l) = Some u ->
  is_Some (displayImageUrl (rendered l))
  /\ (outfitHistory (rendered l) !! currentOutfitIndex (rendered l) = None ->
      displayImageUrl (rendered l) = Some u)
  /\ (forall layer,
        outfitHistory (rendered l) !! currentOutfitIndex (rendered l) = Some layer ->
        exists image,
          displayImageUrl (rendered l) = Some image
          /\ image ∈ pi_values (deref (rendered l) (poseImages layer))).
Proof.
  intros Hlive Hm.
  pose proof (liveUnder_stored _ l Hlive) as Hs.
  assert (Hne : outfitHistory (rendered l) <> [])
    by (apply (liveUnder_model_history _ l Hlive); rewrite Hm; eauto).
  assert (Hlen : Nat.eqb (length (outfitHistory (rendered l))) 0 = false).
  { apply Nat.eqb_neq. destruct (outfitHistory (rendered l)); [contradiction | discriminate]. }
  assert (Hsome : forall layer,
             outfitHistory (rendered l) !! currentOutfitIndex (rendered l) = Some layer ->
             exists image,
               displayImageUrl (rendered l) = Some image
               /\ image ∈ pi_values (deref (rendered l) (poseImages layer))).
  { intros layer Hlayer. unfold displayImageUrl. rewrite Hlen, Hlayer.
    destruct (stored_layer _ layer Hs (list_elem_of_lookup_2 _ _ _ Hlayer))
      as (obj & _ & -> & Hobj).
    destruct (pi_get _ obj) as [image|] eqn:Hget.
    - exists image. split; [reflexivity|].
      clear -Hget. induction obj as [|[k v] rest IH]; simpl in *; [discriminate|].
      destruct (String.eqb k _); [injection Hget as <-; left | right; auto].
    - destruct obj as [|[k v] rest]; [contradiction|].
      exists v. split; [reflexivity | left]. }
  split; [|split].
  - destruct (outfitHistory (rendered l) !! currentOutfitIndex (rendered l))
      as [layer|] eqn:Hlayer.
    + destruct (Hsome layer eq_refl) as (image & -> & _). eauto.
    + unfold displayImageUrl. rewrite Hlen, Hlayer, Hm. eauto.
  - intros Hnone. unfold displayImageUrl. now rewrite Hlen, Hnone.
  - exact Hsome.
Qed.

(** **** The busy flag *)

Lemma idle_advance (t : Tick) (l l' : Live) :
  advance' t l = Some l' ->
  (inFlight l = [] -> isLoading (rendered l) = false /\ loadingMessage (rendered l) = "") ->
  inFlight l' = [] -> isLoading (rendered l') = false /\ loadingMessage (rendered l') = "".
Proof.
  intros Hadv IH. destruct t as [op|n].
  - apply invoke_shape in Hadv
      as [(url & _ & -> & ->)|[(_ & -> & _)
               |[(_ & -> & -> & ->)|(_ & _ & _ & _ & ->)]]].
    + exact IH.
    + intros _. split; reflexivity.
    + exact IH.
    + intros Habs. now apply app_nil in Habs as [_ Habs].
  - apply settles_shape in Hadv as (p & _ & _ & Hl & Hmsg & _). auto.
Qed.

(** X10. Whatever handlers are called while requests are pending, once no
    request is in flight the busy flag is clear and the loading message is
    empty: every resumption clears both, whether the request succeeded or
    failed and whatever happened while it waited. *)
Theorem idle_when_nothing_in_flight (l : Live) :
  liveUnder' anyTick l ->
  inFlight l = [] ->
  isLoading (rendered l) = false /\ loadingMessage (rendered l) = "".
Proof.
  induction 1 as [|t l l' _ IH _ Hadv]; [intros _; split; reflexivity|].
  exact (idle_advance t l l' Hadv IH).
Qed.

Lemma oneAtATime_advance (t : Tick) (l l' : Live) :
  resetWhenIdle t l = true -> advance' t l = Some l' -> oneAtATime l -> oneAtATime l'.
Proof.
  intros Hok Hadv IH. unfold oneAtATime in *. destruct t as [op|n].
  - apply invoke_shape in Hadv
      as [(url & _ & -> & ->)|[(-> & -> & ->)
               |[(_ & Hl & _ & ->)|(_ & Hidle & Hbusy & _ & ->)]]].
    + exact IH.
    + simpl in Hok. destruct (inFlight l); [|discriminate]. left. split; reflexivity.
    + rewrite Hl. exact IH.
    + destruct IH as [[-> _]|(p & _ & Habs)]; [|congruence].
      right. eexists. split; [reflexivity | exact Hbusy].
  - apply settles_shape in Hadv as (p & Hp & -> & Hl & _).
    destruct IH as [[Hnil _]|(p0 & Hone & _)].
    + rewrite Hnil in Hp. discriminate.
    + rewrite Hone in *. destruct n as [|n]; [|discriminate]. left. split; [reflexivity|exact Hl].
Qed.

(** X14. One request at a time, unless Start Over is pressed during the
    wait: in a session in which [handleStartOver] is only called with nothing
    in flight (whatever else is called while requests are pending), at most
    one request is in flight and the busy flag is set exactly while there is
    one. (Start Over clears the flag during the wait, and a second request
    can then be sent: [two_requests_after_reset].) *)
Theorem one_request_unless_reset (l : Live) :
  liveUnder' resetWhenIdle l ->
  length (inFlight l) <= 1
  /\ (isLoading (rendered l) = true <-> inFlight l <> []).
Proof.
  intros Hlive.
  assert (Hone : oneAtATime l).
  { induction Hlive as [|t l l' _ IH Hok Hadv]; [left; split; reflexivity|].
    exact (oneAtATime_advance t l l' Hok Hadv IH). }
  destruct Hone as [[-> Hl]|(p & -> & Hl)]; rewrite Hl; simpl.
  - split; [lia|]. split; [discriminate | congruence].
  - split; [lia|]. split; [discriminate | reflexivity].
Qed.

(** **** Genuine images *)

Lemma genuine_reply (op : Operation) (image : string) :
  genuine op = true -> replyOf op = Some (Ok image) -> image <> "".
Proof.
  unfold genuine.
  destruct op as [url|file info reply|i reply|prompt scene reply|reply| | |]; simpl;
    try discriminate; intros Hg [= ->]; simpl in Hg;
    apply negb_true_iff, String.eqb_neq in Hg; exact Hg.
Qed.

Lemma genuineImages_advance (t : Tick) (l l' : Live) :
  genuineTick t l = true -> advance' t l = Some l' -> genuineImages l -> genuineImages l'.
Proof.
  intros Hok Hadv [Himages Hflight]. unfold genuineImages, imagesNonEmpty in *.
  destruct t as [op|n].
  - simpl in Hok. apply invoke_shape in Hadv
      as [(url & -> & -> & ->)|[(_ & -> & ->)
               |[((_ & _ & Ho & _) & _ & _ & ->)|((_ & _ & Ho & _) & _ & _ & _ & ->)]]].
    + split; [|exact Hflight]. simpl. apply Forall_app. split; [exact Himages|].
      repeat constructor. simpl.
      unfold genuine in Hok. simpl in Hok. now apply negb_true_iff, String.eqb_neq in Hok.
    + split; [exact Himages | exact Hflight].
    + rewrite Ho. split; [exact Himages | exact Hflight].
    + rewrite Ho. split; [exact Himages|]. apply Forall_app. split; [exact Hflight|].
      repeat constructor. exact Hok.
  - apply settles_shape in Hadv
      as (p & Hp & -> & _ & _ & _
          & [(_ & Ho & _)|[(image & g & key & Hreply & Ho & _)
                          |(image & layer & key & Hreply & _ & Ho & _)]]).
    all: assert (Hgp : genuine (caller p) = true)
      by (rewrite Forall_forall in Hflight; apply Hflight;
          eapply list_elem_of_lookup_2, Hp).
    all: split; [|now apply Forall_delete]; rewrite Ho.
    + exact Himages.
    + apply Forall_app. split; [exact Himages|]. repeat constructor. simpl.
      exact (genuine_reply _ _ Hgp Hreply).
    + apply Forall_alter; [exact Himages|]. intros obj _ Hobj.
      apply pi_set_values; [exact (genuine_reply _ _ Hgp Hreply) | exact Hobj].
Qed.

Lemma liveUnder_genuineImages (l : Live) : liveUnder' genuineTick l -> genuineImages l.
Proof.
  induction 1 as [|t l l' _ IH Hok Hadv]; [split; constructor|].
  exact (genuineImages_advance t l l' Hok Hadv IH).
Qed.

(** X11. In a session in which the base images and the images the service
    returns are non-empty strings (the service returns data URLs), whatever
    handlers are called while requests are pending: on the dressing screen
    the displayed image is never empty, so the guard
    [!displayImageUrl || isLoading] of the garment and adjustment handlers
    tests the busy flag alone, and with the flag clear an adjustment, and a
    garment that is not the one of the next layer, always reach the service
    with the displayed image. *)
Theorem genuine_images_guard (l : Live) :
  liveUnder' genuineTick l ->
  truthy (modelImageUrl (rendered l)) = true ->
  truthy (displayImageUrl (rendered l)) = true
  /\ ready (rendered l) = negb (isLoading (rendered l))
  /\ (isLoading (rendered l) = false ->
      exists display,
        displayImageUrl (rendered l) = Some display
        /\ (forall prompt sceneImage,
              requested (handleImageAdjustment getFriendlyErrorMessage prompt sceneImage
                           (rendered l))
              = Some (AdjustImage display prompt sceneImage))
        /\ (forall garmentFile garmentInfo,
              isNextGarment garmentInfo (rendered l) = false ->
              requested (handleGarmentSelect getFriendlyErrorMessage garmentFile garmentInfo
                           (rendered l))
              = Some (GenerateVirtualTryOnImage display garmentFile))).
Proof.
  intros Hlive Hmodel.
  pose proof (liveUnder_stored _ l Hlive) as Hs.
  destruct (liveUnder_genuineImages l Hlive) as [Himages _].
  destruct (modelImageUrl (rendered l)) as [u|] eqn:Hm; [|discriminate].
  assert (Hne : outfitHistory (rendered l) <> [])
    by (apply (liveUnder_model_history _ l Hlive); rewrite Hm; eauto).
  assert (Hlen : Nat.eqb (length (outfitHistory (rendered l))) 0 = false).
  { apply Nat.eqb_neq. destruct (outfitHistory (rendered l)); [contradiction | discriminate]. }
  assert (Hd : exists display, displayImageUrl (rendered l) = Some display /\ display <> "").
  { unfold displayImageUrl. rewrite Hlen, Hm.
    destruct (outfitHistory (rendered l) !! currentOutfitIndex (rendered l))
      as [layer|] eqn:Hlayer.
    - destruct (stored_layer _ layer Hs (list_elem_of_lookup_2 _ _ _ Hlayer))
        as (obj & Hobj & -> & Hobjne).
      assert (Hall : Forall (fun entry => snd entry <> "") obj).
      { unfold imagesNonEmpty in Himages. rewrite Forall_forall in Himages.
        apply Himages. eapply list_elem_of_lookup_2, Hobj. }
      destruct (pi_get _ obj) as [image|] eqn:Hget.
      + exists image. split; [reflexivity|]. exact (pi_get_nonempty _ _ _ Hall Hget).
      + destruct obj as [|[k v] rest]; [contradiction|].
        exists v. split; [reflexivity|]. now inversion Hall.
    - exists u. split; [reflexivity|]. simpl in Hmodel.
      now apply negb_true_iff, String.eqb_neq in Hmodel. }
  destruct Hd as (display & Hd & Hdne).
  assert (Htruthy : truthy (displayImageUrl (rendered l)) = true).
  { rewrite Hd. simpl. now apply negb_true_iff, String.eqb_neq. }
  split; [exact Htruthy|]. split; [unfold ready; now rewrite Htruthy|].
  intros Hidle. exists display. split; [exact Hd|].
  apply String.eqb_neq in Hdne. split.
  - intros prompt sceneImage. unfold handleImageAdjustment.
    rewrite Hd, Hdne, Hidle. reflexivity.
  - intros garmentFile garmentInfo Hnext. unfold handleGarmentSelect.
    rewrite Hd, Hdne, Hidle, Hnext. reflexivity.
Qed.

(** **** The garments worn *)

Lemma currentGarmentIn_worn (s : State) :
  wornInWardrobe s -> currentGarmentIn (wardrobe s) s.
Proof.
  unfold wornInWardrobe, currentGarmentIn. intros Hw.
  destruct (outfitHistory s !! currentOutfitIndex s) as [layer|] eqn:Hlayer; [|exact I].
  rewrite Forall_forall in Hw. exact (Hw layer (list_elem_of_lookup_2 _ _ _ Hlayer)).
Qed.

Lemma wornInWardrobe_more (w w' : list WardrobeItem) (history : list OutfitLayer) :
  (forall i, i ∈ (id <$> w) -> i ∈ (id <$> w')) ->
  Forall (fun layer => match garment layer with
                       | Some g => id g ∈ (id <$> w)
                       | None => True
                       end) history ->
  Forall (fun layer => match garment layer with
                       | Some g => id g ∈ (id <$> w')
                       | None => True
                       end) history.
Proof.
  intros Hsub Hall. eapply Forall_impl; [exact Hall|].
  intros layer. simpl. destruct (garment layer); auto.
Qed.

Lemma currentGarmentIn_more (w w' : list WardrobeItem) (s : State) :
  (forall i, i ∈ (id <$> w) -> i ∈ (id <$> w')) ->
  currentGarmentIn w s -> currentGarmentIn w' s.
Proof.
  intros Hsub. unfold currentGarmentIn.
  destruct (outfitHistory s !! currentOutfitIndex s) as [layer|]; [|auto].
  destruct (garment layer); auto.
Qed.

Lemma wornAndPending_advance (t : Tick) (l l' : Live) :
  resetWhenIdle t l = true -> advance' t l = Some l' ->
  wornAndPending l -> wornAndPending l'.
Proof.
  intros Hok Hadv [Hworn Hflight]. unfold wornAndPending, wornInWardrobe in *.
  destruct t as [op|n].
  - apply invoke_shape in Hadv
      as [(url & _ & -> & ->)|[(-> & -> & ->)
               |[((_ & Hh & _ & Hw) & _ & _ & ->)|((_ & Hh & _ & Hw) & _ & _ & _ & ->)]]].
    + split; [|exact Hflight]. simpl. repeat constructor.
    + simpl in Hok. destruct (inFlight l); [|discriminate]. split; constructor.
    + rewrite Hh, Hw. split; [exact Hworn | exact Hflight].
    + rewrite Hh, Hw. split; [exact Hworn|]. apply Forall_app. split; [exact Hflight|].
      repeat constructor. simpl. now apply currentGarmentIn_worn.
  - apply settles_shape in Hadv
      as (p & Hp & -> & _ & _ & _
          & [(Hh & _ & Hw)|[(image & g & key & _ & _ & Hh & _ & Hg)
                           |(image & layer & key & _ & _ & _ & Hh & Hw)]]).
    + rewrite Hh, Hw. split; [exact Hworn | now apply Forall_delete].
    + assert (Hgp : currentGarmentIn (wardrobe (rendered l)) (captured p))
        by (rewrite Forall_forall in Hflight; apply Hflight;
            eapply list_elem_of_lookup_2, Hp).
      rewrite Hh. unfold appendLayer.
      destruct Hg as [(info & -> & Hw)|(layer & Hlayer & -> & Hw)]; rewrite Hw.
      * pose proof (elem_of_addToWardrobe info (wardrobe (rendered l))) as [Hin Hkeep].
        split.
        -- apply Forall_app. split.
           ++ apply Forall_take. exact (wornInWardrobe_more _ _ _ Hkeep Hworn).
           ++ repeat constructor. exact Hin.
        -- apply Forall_delete. eapply Forall_impl; [exact Hflight|].
           intros q. now apply currentGarmentIn_more.
      * split; [|now apply Forall_delete].
        apply Forall_app. split; [now apply Forall_take|].
        repeat constructor. simpl.
        unfold currentGarmentIn in Hgp. now rewrite Hlayer in Hgp.
    + rewrite Hh, Hw. split; [exact Hworn | now apply Forall_delete].
Qed.

(** X24. In a session in which [handleStartOver] is only called with nothing
    in flight (whatever else is called while requests are pending), the
    garment of every layer of the history, redo branch included, has its
    identifier in the wardrobe. (Start Over during an adjustment resets the
    wardrobe, and the resumption then appends a layer with the garment of
    the layer it was sent from: [adjustment_after_reset_wears_unlisted].) *)
Theorem worn_garments_unless_reset (l : Live) :
  liveUnder' resetWhenIdle l -> wornInWardrobe (rendered l).
Proof.
  intros Hlive.
  assert (Hinv : wornAndPending l).
  { induction Hlive as [|t l l' _ IH Hok Hadv]; [split; constructor|].
    exact (wornAndPending_advance t l l' Hok Hadv IH). }
  exact (proj1 Hinv).
Qed.

End Interleaved.

(** *** The theorems above at states of the sample session *)


Lemma failed_request_changes_nothing_witness :
  let op := ApplyAdjustment "Use a softer light." None (Throw (Error "quota exceeded")) in
  let st := handleImageAdjustment sampleFriendly "Use a softer light." None stateRewound in
  asyncStep sampleFriendly op stateRewound = Some st
  /\ is_Some (requested st)
  /\ outfitHistory (complete st (Throw (Error "quota exceeded"))) = outfitHistory stateRewound
  /\ objects (complete st (Throw (Error "quota exceeded"))) = objects stateRewound
  /\ currentOutfitIndex (complete st (Throw (Error "quota exceeded")))
     = currentOutfitIndex stateRewound
  /\ currentPoseIndex (complete st (Throw (Error "quota exceeded")))
     = currentPoseIndex stateRewound
  /\ wardrobe (complete st (Throw (Error "quota exceeded"))) = wardrobe stateRewound
  /\ modelImageUrl (complete st (Throw (Error "quota exceeded")))
     = modelImageUrl stateRewound
  /\ error (complete st (Throw (Error "quota exceeded")))
     = Some (sampleFriendly (Error "quota exceeded") (failureContext op))
  /\ isLoading (complete st (Throw (Error "quota exceeded"))) = false
  /\ loadingMessage (complete st (Throw (Error "quota exceeded"))) = "".
Proof.
  intros op st.
  assert (Hst : asyncStep sampleFriendly op stateRewound = Some st) by reflexivity.
  assert (Hreq : is_Some (requested st)) by (eexists; reflexivity).
  split; [exact Hst|]. split; [exact Hreq|].
  exact (failed_request_changes_nothing sampleFriendly op st (Error "quota exceeded")
           stateRewound Hst Hreq).
Defined.

Lemma repeated_undo_redo_witness :
  let s := sampleRun [ Initialize avatar;
                       ApplyGarment "shirt.png" shirt (Ok withShirt);
                       ApplyAdjustment "Use a softer light." None (Ok brighter) ] in
  currentOutfitIndex s < length (outfitHistory s)
  /\ Nat.iter 5 handleUndo s = setCurrentOutfitIndex (fun k => k - 5) s
  /\ Nat.iter 5 handleRedo s
     = setCurrentOutfitIndex (fun k => Nat.min (k + 5) (length (outfitHistory s) - 1)) s
  /\ (5 <= currentOutfitIndex s -> Nat.iter 5 handleRedo (Nat.iter 5 handleUndo s) = s).
Proof.
  intros s.
  assert (Hlt : currentOutfitIndex s < length (outfitHistory s)) by (vm_compute; lia).
  split; [exact Hlt|]. exact (repeated_undo_redo 5 s Hlt).
Defined.

Lemma pose_variant_added_witness :
  wf stateShirtSideways
  /\ is_Some (requested (handlePoseSelect sampleFriendly 4 stateShirtSideways))
  /\ displayImageUrl
       (complete (handlePoseSelect sampleFriendly 4 stateShirtSideways) (Ok brighter))
     = Some brighter.
Proof.
  assert (Hwf : wf stateShirtSideways)
    by exact (reachable_wf sampleFriendly sampleWardrobe _ (sampleRun_reachable _)).
  assert (Hreq : is_Some (requested (handlePoseSelect sampleFriendly 4 stateShirtSideways)))
    by (eexists; reflexivity).
  split; [exact Hwf|]. split; [exact Hreq|].
  exact (proj1 (proj2 (proj2 (proj2
           (pose_variant_added sampleFriendly 4 brighter stateShirtSideways Hwf Hreq))))).
Defined.

Lemma pose_switch_is_immediate_witness :
  let layer := {| garment := Some shirt; poseImages := 1 |} in
  isLoading stateShirtSideways = false
  /\ 0 <> currentPoseIndex stateShirtSideways
  /\ outfitHistory stateShirtSideways !! currentOutfitIndex stateShirtSideways = Some layer
  /\ pi_get (poseKey 0) (deref stateShirtSideways (poseImages layer)) = Some withShirt
  /\ withShirt <> ""
  /\ handlePoseSelect sampleFriendly 0 stateShirtSideways
     = Done (setCurrentPoseIndex 0 stateShirtSideways)
  /\ displayImageUrl (setCurrentPoseIndex 0 stateShirtSideways) = Some withShirt
  /\ handlePoseSelect sampleFriendly 0 (setCurrentPoseIndex 0 stateShirtSideways)
     = Done (setCurrentPoseIndex 0 stateShirtSideways).
Proof.
  intros layer.
  assert (Hl : isLoading stateShirtSideways = false) by reflexivity.
  assert (Hp : 0 <> currentPoseIndex stateShirtSideways) by discriminate.
  assert (Hlayer : outfitHistory stateShirtSideways !! currentOutfitIndex stateShirtSideways
                   = Some layer) by reflexivity.
  assert (Hget : pi_get (poseKey 0) (deref stateShirtSideways (poseImages layer))
                 = Some withShirt) by reflexivity.
  assert (Hne : withShirt <> "") by discriminate.
  split; [exact Hl|]. split; [exact Hp|]. split; [exact Hlayer|]. split; [exact Hget|].
  split; [exact Hne|].
  exact (pose_switch_is_immediate sampleFriendly 0 layer withShirt stateShirtSideways
           Hl Hp Hlayer Hget Hne).
Defined.

Lemma earlier_pose_is_kept_witness :
  let layer := {| garment := None; poseImages := 0 |} in
  let s' := complete (handlePoseSelect sampleFriendly 3 stateBase) (Ok sideways) in
  wf stateBase
  /\ is_Some (requested (handlePoseSelect sampleFriendly 3 stateBase))
  /\ handlePoseSelect sampleFriendly (currentPoseIndex stateBase) s'
     = Done (setCurrentPoseIndex (currentPoseIndex stateBase) s')
  /\ displayImageUrl (setCurrentPoseIndex (currentPoseIndex stateBase) s') = Some avatar.
Proof.
  intros layer s'.
  assert (Hwf : wf stateBase)
    by exact (reachable_wf sampleFriendly sampleWardrobe _ (sampleRun_reachable _)).
  assert (Hp : currentPoseIndex stateBase < length POSE_INSTRUCTIONS) by (vm_compute; lia).
  assert (Hq : 3 < length POSE_INSTRUCTIONS) by (vm_compute; lia).
  assert (Hlayer : outfitHistory stateBase !! currentOutfitIndex stateBase = Some layer)
    by reflexivity.
  assert (Hold : pi_get (poseKey (currentPoseIndex stateBase))
                   (deref stateBase (poseImages layer)) = Some avatar) by reflexivity.
  assert (Hne : avatar <> "") by discriminate.
  assert (Hreq : is_Some (requested (handlePoseSelect sampleFriendly 3 stateBase)))
    by (eexists; reflexivity).
  split; [exact Hwf|]. split; [exact Hreq|].
  exact (earlier_pose_is_kept sampleFriendly 3 sideways avatar layer stateBase
           Hwf Hp Hq Hlayer Hold Hne Hreq).
Defined.

Lemma garment_layer_appended_witness :
  let s' := complete (handleGarmentSelect sampleFriendly "blazer.png" blazer stateRewound)
                     (Ok withBlazer) in
  wf stateRewound
  /\ displayImageUrl stateRewound = Some avatar
  /\ isNextGarment blazer stateRewound = false
  /\ length (outfitHistory stateRewound) = 3
  /\ historyView s'
     = take (currentOutfitIndex stateRewound + 1) (historyView stateRewound)
         ++ [(Some blazer, [(poseKey (currentPoseIndex stateRewound), withBlazer)])]
  /\ canRedo s' = false.
Proof.
  intros s'.
  assert (Hwf : wf stateRewound)
    by exact (reachable_wf sampleFriendly sampleWardrobe _ (sampleRun_reachable _)).
  assert (Hd : displayImageUrl stateRewound = Some avatar) by reflexivity.
  assert (Hne : avatar <> "") by discriminate.
  assert (Hl : isLoading stateRewound = false) by reflexivity.
  assert (Hlt : currentOutfitIndex stateRewound < length (outfitHistory stateRewound))
    by (vm_compute; lia).
  assert (Hnext : isNextGarment blazer stateRewound = false) by reflexivity.
  pose proof (garment_layer_appended sampleFriendly "blazer.png" blazer withBlazer avatar
                stateRewound Hwf Hd Hne Hl Hlt Hnext)
    as (_ & Hview & _ & _ & Hredo & _).
  split; [exact Hwf|]. split; [exact Hd|]. split; [exact Hnext|]. split; [reflexivity|].
  split; [exact Hview | exact Hredo].
Defined.

Lemma activeGarmentIds_grow_witness :
  let layer := {| garment := Some shirt; poseImages := 1 |} in
  ready stateShirtSideways = true
  /\ outfitHistory stateShirtSideways !! currentOutfitIndex stateShirtSideways = Some layer
  /\ activeGarmentIds stateShirtSideways = ["shirt-1"]
  /\ (isNextGarment blazer stateShirtSideways = false ->
      activeGarmentIds
        (complete (handleGarmentSelect sampleFriendly "blazer.png" blazer stateShirtSideways)
                  (Ok withBlazer))
      = activeGarmentIds stateShirtSideways
          ++ layerIds {| garment := Some blazer; poseImages := 0 |})
  /\ activeGarmentIds
       (complete (handleImageAdjustment sampleFriendly "Use a softer light." None
                    stateShirtSideways) (Ok brighter))
     = activeGarmentIds stateShirtSideways ++ layerIds layer.
Proof.
  intros layer.
  assert (Hready : ready stateShirtSideways = true) by reflexivity.
  assert (Hlayer : outfitHistory stateShirtSideways !! currentOutfitIndex stateShirtSideways
                   = Some layer) by reflexivity.
  split; [exact Hready|]. split; [exact Hlayer|]. split; [reflexivity|].
  exact (activeGarmentIds_grow sampleFriendly "blazer.png" blazer "Use a softer light." None
           brighter layer stateShirtSideways Hready Hlayer).
Defined.


(** *** Sample schedules *)

Lemma samplePlayUnder_live (allowed : Tick -> Live -> bool) (ticks : list Tick) (l : Live) :
  play sampleFriendly sampleWardrobe allowed ticks (initialLive sampleWardrobe) = Some l ->
  liveUnder sampleFriendly sampleWardrobe allowed l.
Proof. apply play_liveUnder. constructor. Qed.

(** Start Over pressed while the shirt is generated: the resumption appends
    its layer to the history Start Over emptied and adds one to the cursor.
    There is a layer and no model image, the cursor is off the history and
    nothing is displayed. *)
Lemma reset_during_try_on :
  let l := samplePlay resetDuringTryOn in
  play sampleFriendly sampleWardrobe wired resetDuringTryOn (initialLive sampleWardrobe)
    = Some l
  /\ modelImageUrl (rendered l) = None
  /\ length (outfitHistory (rendered l)) = 1
  /\ currentOutfitIndex (rendered l) = 1
  /\ displayImageUrl (rendered l) = None.
Proof.
  intros l. do 4 (split; [vm_compute; reflexivity|]). vm_compute. reflexivity.
Qed.

(** Start Over clears the busy flag while the shirt is generated; after a
    new base image a pose change is sent: two requests are in flight. *)
Lemma two_requests_after_reset :
  let l := samplePlay twoInFlight in
  play sampleFriendly sampleWardrobe wired twoInFlight (initialLive sampleWardrobe) = Some l
  /\ length (inFlight l) = 2
  /\ isLoading (rendered l) = true.
Proof.
  intros l. do 2 (split; [vm_compute; reflexivity|]). vm_compute. reflexivity.
Qed.

(** Start Over pressed while the layer of the scarf is adjusted: the wardrobe
    is the default one again, and the resumption appends a layer with the
    scarf, the garment of the layer the adjustment was sent from. *)
Lemma adjustment_after_reset_wears_unlisted :
  let l := samplePlay resetDuringAdjustment in
  play sampleFriendly sampleWardrobe wired resetDuringAdjustment
    (initialLive sampleWardrobe) = Some l
  /\ garment <$> outfitHistory (rendered l) = [Some scarf]
  /\ wardrobe (rendered l) = sampleWardrobe
  /\ ~ wornInWardrobe (rendered l).
Proof.
  intros l. split; [vm_compute; reflexivity|]. split; [vm_compute; reflexivity|].
  split; [vm_compute; reflexivity|].
  intros Hworn. unfold wornInWardrobe in Hworn.
  assert (Hh : outfitHistory (rendered l) = [ {| garment := Some scarf; poseImages := 2 |} ])
    by (vm_compute; reflexivity).
  assert (Hw : wardrobe (rendered l) = sampleWardrobe) by (vm_compute; reflexivity).
  rewrite Hh, Hw in Hworn. apply Forall_inv in Hworn. simpl in Hworn.
  apply list_elem_of_In in Hworn. simpl in Hworn.
  destruct Hworn as [Habs|[Habs|[]]]; discriminate.
Qed.

Lemma model_image_has_history_witness :
  let l := samplePlayUnder anyTick redoDuringTryOn in
  liveUnder sampleFriendly sampleWardrobe anyTick l
  /\ is_Some (modelImageUrl (rendered l))
  /\ outfitHistory (rendered l) <> [].
Proof.
  intros l.
  assert (Hlive : liveUnder sampleFriendly sampleWardrobe anyTick l)
    by (apply (samplePlayUnder_live anyTick redoDuringTryOn); vm_compute; reflexivity).
  assert (Hm : is_Some (modelImageUrl (rendered l))) by (exists avatar; vm_compute; reflexivity).
  split; [exact Hlive|]. split; [exact Hm|].
  exact (model_image_has_history sampleFriendly sampleWardrobe l Hlive Hm).
Defined.

Lemma display_on_dressing_screen_witness :
  let l := samplePlayUnder anyTick redoDuringTryOn in
  liveUnder sampleFriendly sampleWardrobe anyTick l
  /\ modelImageUrl (rendered l) = Some avatar
  /\ outfitHistory (rendered l) !! currentOutfitIndex (rendered l) = None
  /\ is_Some (displayImageUrl (rendered l))
  /\ displayImageUrl (rendered l) = Some avatar.
Proof.
  intros l.
  assert (Hlive : liveUnder sampleFriendly sampleWardrobe anyTick l)
    by (apply (samplePlayUnder_live anyTick redoDuringTryOn); vm_compute; reflexivity).
  assert (Hm : modelImageUrl (rendered l) = Some avatar) by (vm_compute; reflexivity).
  assert (Hoff : outfitHistory (rendered l) !! currentOutfitIndex (rendered l) = None)
    by (vm_compute; reflexivity).
  split; [exact Hlive|]. split; [exact Hm|]. split; [exact Hoff|].
  destruct (display_on_dressing_screen sampleFriendly sampleWardrobe l avatar Hlive Hm)
    as (Hsome & Hfallback & _).
  split; [exact Hsome | exact (Hfallback Hoff)].
Defined.

Lemma idle_when_nothing_in_flight_witness :
  let l := samplePlayUnder anyTick resetDuringTryOn in
  liveUnder sampleFriendly sampleWardrobe anyTick l
  /\ inFlight l = []
  /\ isLoading (rendered l) = false /\ loadingMessage (rendered l) = "".
Proof.
  intros l.
  assert (Hlive : liveUnder sampleFriendly sampleWardrobe anyTick l)
    by (apply (samplePlayUnder_live anyTick resetDuringTryOn); vm_compute; reflexivity).
  assert (Hnone : inFlight l = []) by (vm_compute; reflexivity).
  split; [exact Hlive|]. split; [exact Hnone|].
  exact (idle_when_nothing_in_flight sampleFriendly sampleWardrobe l Hlive Hnone).
Defined.

Lemma one_request_unless_reset_witness :
  let l := samplePlayUnder resetWhenIdle calmThenBusy in
  liveUnder sampleFriendly sampleWardrobe resetWhenIdle l
  /\ length (inFlight l) = 1
  /\ length (inFlight l) <= 1
  /\ (isLoading (rendered l) = true <-> inFlight l <> []).
Proof.
  intros l.
  assert (Hlive : liveUnder sampleFriendly sampleWardrobe resetWhenIdle l)
    by (apply (samplePlayUnder_live resetWhenIdle calmThenBusy); vm_compute; reflexivity).
  split; [exact Hlive|]. split; [vm_compute; reflexivity|].
  exact (one_request_unless_reset sampleFriendly sampleWardrobe l Hlive).
Defined.

Lemma genuine_images_guard_witness :
  let l := samplePlayUnder genuineTick redoDuringTryOn in
  liveUnder sampleFriendly sampleWardrobe genuineTick l
  /\ truthy (modelImageUrl (rendered l)) = true
  /\ isLoading (rendered l) = false
  /\ truthy (displayImageUrl (rendered l)) = true
  /\ ready (rendered l) = negb (isLoading (rendered l))
  /\ exists display,
       displayImageUrl (rendered l) = Some display
       /\ (forall prompt sceneImage,
             requested (handleImageAdjustment sampleFriendly prompt sceneImage (rendered l))
             = Some (AdjustImage display prompt sceneImage))
       /\ (forall garmentFile garmentInfo,
             isNextGarment garmentInfo (rendered l) = false ->
             requested (handleGarmentSelect sampleFriendly garmentFile garmentInfo (rendered l))
             = Some (GenerateVirtualTryOnImage display garmentFile)).
Proof.
  intros l.
  assert (Hlive : liveUnder sampleFriendly sampleWardrobe genuineTick l)
    by (apply (samplePlayUnder_live genuineTick redoDuringTryOn); vm_compute; reflexivity).
  assert (Hm : truthy (modelImageUrl (rendered l)) = true) by (vm_compute; reflexivity).
  assert (Hidle : isLoading (rendered l) = false) by (vm_compute; reflexivity).
  split; [exact Hlive|]. split; [exact Hm|]. split; [exact Hidle|].
  destruct (genuine_images_guard sampleFriendly sampleWardrobe l Hlive Hm)
    as (Htruthy & Hready & Hsend).
  split; [exact Htruthy|]. split; [exact Hready | exact (Hsend Hidle)].
Defined.

Lemma worn_garments_unless_reset_witness :
  let l := samplePlayUnder resetWhenIdle calmSchedule in
  liveUnder sampleFriendly sampleWardrobe resetWhenIdle l
  /\ garment <$> outfitHistory (rendered l) = [None; Some scarf; Some scarf]
  /\ wornInWardrobe (rendered l).
Proof.
  intros l.
  assert (Hlive : liveUnder sampleFriendly sampleWardrobe resetWhenIdle l)
    by (apply (samplePlayUnder_live resetWhenIdle calmSchedule); vm_compute; reflexivity).
  split; [exact Hlive|]. split; [vm_compute; reflexivity|].
  exact (worn_garments_unless_reset sampleFriendly sampleWardrobe l Hlive).
Defined.

End AppSessionFacts.

(** ** The footer and the adjustment panel *)

Module PanelFacts.
Import GeminiService Footer AdjustmentPanel.
Local Open Scope list_scope.

Lemma iter_nextSuggestion (n : nat) :
  Nat.iter n nextSuggestion 0 = n mod length REMIX_SUGGESTIONS.
Proof.
  induction n as [|n IH]; [reflexivity|].
  simpl Nat.iter. rewrite IH. unfold nextSuggestion.
  rewrite Nat.Div0.add_mod_idemp_l. f_equal. lia.
Qed.

(** X25. The suggestion of the footer goes round the list: after n ticks of
    the interval the index is n modulo the number of suggestions, so there
    is always a suggestion to show and every sixth tick shows the same one
    again. *)
Theorem suggestion_rotates (n : nat) :
  Nat.iter n nextSuggestion 0 = n mod 6
  /\ is_Some (shownSuggestion (Nat.iter n nextSuggestion 0))
  /\ Nat.iter (n + 6) nextSuggestion 0 = Nat.iter n nextSuggestion 0.
Proof.
  rewrite !iter_nextSuggestion. change (length REMIX_SUGGESTIONS) with 6.
  split; [reflexivity|]. split.
  - apply lookup_lt_is_Some_2. change (length REMIX_SUGGESTIONS) with 6.
    apply Nat.mod_upper_bound. lia.
  - replace (n + 6) with (n + 1 * 6) by lia. apply Nat.Div0.mod_add.
Qed.

Section Panel.

Variable trim : string -> string.
Variable createObjectURL : string -> string.
Variable inputMounted : bool.

Lemma sendable_more (seen more : list Event) (effect : Effect) :
  sendable trim seen effect -> sendable trim (seen ++ more) effect.
Proof.
  unfold sendable. destruct effect as [instruction scene|]; [|trivial].
  intros [[Hne Hin]|[Hs Hin]]; [left | right]; (split; [assumption|]);
    apply in_or_app; now left.
Qed.

Lemma consistent_more (seen more : list Event) (p : Panel) :
  consistent createObjectURL seen p -> consistent createObjectURL (seen ++ more) p.
Proof.
  intros [Hurl [Hp|Hp]]; split; auto. right. apply in_or_app. now left.
Qed.

Lemma handle_consistent (seen : list Event) (e : Event) (p : Panel) :
  trim "" = "" ->
  consistent createObjectURL seen p ->
  consistent createObjectURL (seen ++ [e])
    (fst (handle trim createObjectURL inputMounted e p))
  /\ Forall (sendable trim (seen ++ [e]))
       (snd (handle trim createObjectURL inputMounted e p)).
Proof.
  intros Htrim Hp. pose proof (consistent_more seen [e] p Hp) as [Hurl Hprompt].
  destruct e as [text|files| |loading|presetPrompt]; simpl.
  - split; [|constructor]. split; [exact Hurl|].
    right. apply in_or_app. right. now left.
  - split; [|constructor]. unfold handleFileChange.
    destruct files as [[|file files]|]; split; auto.
  - split; [split; auto|]. destruct inputMounted; repeat constructor.
  - unfold handleSubmit.
    destruct (String.eqb (trim (prompt p)) "") eqn:Hblank; simpl;
      [split; [split; auto | constructor]|].
    destruct loading; simpl; [split; [split; auto | constructor]|].
    split; [split; auto|].
    constructor; [|destruct inputMounted; repeat constructor].
    unfold sendable. left. split; [exact Hblank|].
    destruct Hprompt as [Hempty|Hin]; [|exact Hin].
    rewrite Hempty, Htrim in Hblank. discriminate.
  - split; [split; auto|]. constructor; [|constructor]. unfold sendable. right.
    split; [reflexivity|]. apply in_or_app. right. now left.
Qed.

Lemma handleAll_consistent (events seen : list Event) (p : Panel) :
  trim "" = "" ->
  consistent createObjectURL seen p ->
  consistent createObjectURL (seen ++ events)
    (fst (handleAll trim createObjectURL inputMounted events p))
  /\ Forall (sendable trim (seen ++ events))
       (snd (handleAll trim createObjectURL inputMounted events p)).
Proof.
  intros Htrim. revert seen p.
  induction events as [|e events IH]; intros seen p Hp; simpl.
  - rewrite app_nil_r. split; [exact Hp | constructor].
  - destruct (handle_consistent seen e p Htrim Hp) as [Hp1 Hsent1].
    destruct (handle trim createObjectURL inputMounted e p) as [p1 effects1].
    specialize (IH (seen ++ [e]) p1 Hp1). rewrite <- app_assoc in IH. simpl in IH.
    destruct (handleAll trim createObjectURL inputMounted events p1) as [p2 effects2].
    simpl in *. destruct IH as [Hp2 Hsent2]. split; [exact Hp2|].
    apply Forall_app. split; [|exact Hsent2].
    eapply Forall_impl; [exact Hsent1|]. intros effect Hs.
    replace (seen ++ e :: events) with ((seen ++ [e]) ++ events)
      by (rewrite <- app_assoc; reflexivity).
    now apply sendable_more.
Qed.

(** X26. Whatever is done with the adjustment panel (typing, attaching and
    removing a scene, submitting, clicking presets), the preview is the
    object URL of the attached scene or absent with it, and every
    instruction the panel hands to [onAdjustImage] is either a typed prompt
    that is not blank or the prompt of a clicked preset, the latter without
    a scene. *)
Theorem panel_sends_only_real_instructions (events : list Event) :
  trim "" = "" ->
  sceneImageUrl (fst (handleAll trim createObjectURL inputMounted events initialPanel))
    = createObjectURL
        <$> sceneImage (fst (handleAll trim createObjectURL inputMounted events initialPanel))
  /\ Forall (sendable trim events)
       (snd (handleAll trim createObjectURL inputMounted events initialPanel)).
Proof.
  intros Htrim.
  assert (Hinit : consistent createObjectURL [] initialPanel)
    by (split; [reflexivity | now left]).
  destruct (handleAll_consistent events [] initialPanel Htrim Hinit) as [[Hurl _] Hsent].
  split; [exact Hurl | exact Hsent].
Qed.

End Panel.

Lemma panel_sends_only_real_instructions_witness :
  asciiTrim "" = ""
  /\ snd (handleAll asciiTrim sampleObjectURL true sampleEvents initialPanel)
     = [ OnAdjustImage "add a blue tie" (Some "office.jpg"); ResetFileInput;
         OnAdjustImage "Use a clean, neutral gray studio backdrop." None ]
  /\ sceneImageUrl (fst (handleAll asciiTrim sampleObjectURL true sampleEvents initialPanel))
     = sampleObjectURL
         <$> sceneImage (fst (handleAll asciiTrim sampleObjectURL true sampleEvents
                                initialPanel))
  /\ Forall (sendable asciiTrim sampleEvents)
       (snd (handleAll asciiTrim sampleObjectURL true sampleEvents initialPanel)).
Proof.
  assert (Htrim : asciiTrim "" = "") by reflexivity.
  split; [exact Htrim|]. split; [reflexivity|].
  exact (panel_sends_only_real_instructions asciiTrim sampleObjectURL true sampleEvents Htrim).
Defined.

End PanelFacts.
